(** * Booking lifecycle and offer allocation engine

    A shallow embedding of the PL/pgSQL functions and triggers of the
    warehouse marketplace (status machine, offer repository, allocation
    totals) and of the duration arithmetic of the offer pages, followed by
    the properties proved about them.

    Conventions of the embedding.
    - A table is the list of its rows, a row is a record of the columns the
      modelled code reads or writes.  SQL NULL is [None].
    - [uuid] values are integers; values drawn by [gen_random_uuid()] and
      the clock ([now()], [CURRENT_TIMESTAMP]) are explicit arguments.
    - [bigint] is [Z] with the range check PostgreSQL performs on arithmetic;
      [numeric] is [Q]; [timestamptz] is a count of microseconds.
    - A function that can [RAISE EXCEPTION] returns a [result]; the statement
      or RPC call that gets [Err] leaves the database as it was ([commit]).
    - jsonb arguments are taken already decoded into the element shape the
      client sends (a field that is absent or JSON null is [None]).
      Fields that are bigint there are taken in the range of a bigint;
      the [::integer] cast of the allocation functions is modelled with
      its range.
    - In the schema with enum statuses the row triggers are chained into
      the UPDATE statements: on [booking_offers] the guard on the headline
      figure and the trigger that follows the inquiry
      ([update_booking_offers]); on [booking_inquiries] the transition
      trigger and the notification trigger ([update_inquiry_status]).  A
      trigger sees the user of the session, also under a SECURITY DEFINER
      function.
    - The foreign keys, NOT NULL and CHECK constraints the migrations
      declare on the offer tables are checked by the INSERT statements.
      Primary keys and UNIQUE constraints are not enforced by the lists; a
      statement that needs an id to name one row says so in its
      hypotheses.
    - [offer_summaries] is created by four migrations with different
      columns; the database records which of the four tables it has
      ([offer_summaries_table]).
    - Numbers of the pages are IEEE 754 doubles ([PrimFloat]); integers
      below 2^53 are exact in them. *)

From Stdlib Require Import ZArith QArith Qround List String Bool Lia Lqa.
From Stdlib Require PrimFloat Uint63.
Import ListNotations.
Local Open Scope string_scope.
Local Open Scope list_scope.
Local Open Scope Z_scope.


(* ------------------------------------------------------------------ *)
(** * Base types *)

Definition uuid := Z.
Definition bigint := Z.
Definition numeric := Q.
Definition timestamptz := Z.

(** [interval '7 days'] in microseconds (session time zone UTC). *)
Definition interval_7_days : Z := 7 * 86400 * 1000000.

(** The enum [unified_status] / [booking_status]. *)
Inductive unified_status : Set :=
  | draft
  | submitted
  | under_review
  | offer_draft
  | offer_sent
  | changes_requested
  | accepted
  | rejected
  | cancelled
  | expired
  | confirmed
  | completed
  | archived.

Definition status_eqb (a b : unified_status) : bool :=
  match a, b with
  | draft, draft | submitted, submitted | under_review, under_review
  | offer_draft, offer_draft | offer_sent, offer_sent
  | changes_requested, changes_requested | accepted, accepted
  | rejected, rejected | cancelled, cancelled | expired, expired
  | confirmed, confirmed | completed, completed | archived, archived => true
  | _, _ => false
  end.

(** The label of an enum value, as [%] prints it in a message. *)
Definition status_text (s : unified_status) : string :=
  match s with
  | draft => "draft"
  | submitted => "submitted"
  | under_review => "under_review"
  | offer_draft => "offer_draft"
  | offer_sent => "offer_sent"
  | changes_requested => "changes_requested"
  | accepted => "accepted"
  | rejected => "rejected"
  | cancelled => "cancelled"
  | expired => "expired"
  | confirmed => "confirmed"
  | completed => "completed"
  | archived => "archived"
  end.

(** [s IN (...)]. *)
Definition status_in (s : unified_status) (l : list unified_status) : bool :=
  existsb (status_eqb s) l.

(* ------------------------------------------------------------------ *)
(** * Exceptions and results *)

(** An argument substituted for a [%] of a RAISE format string. *)
Inductive raise_arg : Type :=
  | AStatus (s : unified_status)
  | ANumeric (q : numeric)
  | AUuid (u : option uuid).

(** [RAISE EXCEPTION 'fmt', args], and the errors PostgreSQL raises itself. *)
Inductive exception : Type :=
  | Exception (fmt : string) (args : list raise_arg)
  | Bigint_out_of_range
  | Integer_out_of_range
  | Not_null_violation (column : string)
  | Check_violation (constraint : string)
  | Foreign_key_violation (constraint : string)
  | Undefined_column (column : string).

Inductive result (A : Type) : Type :=
  | Ok (a : A)
  | Err (e : exception).
Arguments Ok {A} a.
Arguments Err {A} e.

Definition bind {A B} (r : result A) (k : A -> result B) : result B :=
  match r with
  | Ok a => k a
  | Err e => Err e
  end.

Notation "x <- r ;; k" := (bind r (fun x => k))
  (at level 61, r at next level, right associativity).
Notation "' p <- r ;; k" := (bind r (fun x => let p := x in k))
  (at level 61, p pattern, r at next level, right associativity).

(** Statement-level atomicity: what is persisted after a call. *)
Definition commit {D A} (d : D) (r : result (D * A)) : D :=
  match r with
  | Ok (d', _) => d'
  | Err _ => d
  end.

(* ------------------------------------------------------------------ *)
(** * Status machine (migration "Add Unified Status Workflow") *)

(** [validate_status_transition(old_status, new_status, is_admin)]. *)
Definition validate_status_transition
    (old_status new_status : unified_status) (is_admin : bool) : bool :=
  if status_eqb old_status new_status then true
  else if is_admin then
    match old_status with
    | submitted => status_in new_status [under_review; cancelled]
    | under_review => status_in new_status [offer_draft; cancelled]
    | offer_draft => status_in new_status [offer_sent; cancelled]
    | changes_requested => status_in new_status [offer_draft; cancelled]
    | accepted => status_in new_status [confirmed; cancelled]
    | confirmed => status_in new_status [completed; cancelled]
    | completed => status_eqb new_status archived
    | _ => false
    end
  else
    match old_status with
    | draft => status_in new_status [submitted; cancelled]
    | offer_sent => status_in new_status [accepted; rejected; changes_requested]
    | _ => false
    end.

(** The transition table as the specification prints it (section 4.1),
    one list of (current, target) rows per actor role. *)
Definition administrator_rows : list (unified_status * unified_status) :=
  [ (submitted, under_review); (submitted, cancelled);
    (under_review, offer_draft); (under_review, cancelled);
    (offer_draft, offer_sent); (offer_draft, cancelled);
    (changes_requested, offer_draft); (changes_requested, cancelled);
    (accepted, confirmed); (accepted, cancelled);
    (confirmed, completed); (confirmed, cancelled);
    (completed, archived) ].

Definition trader_rows : list (unified_status * unified_status) :=
  [ (draft, submitted); (draft, cancelled);
    (offer_sent, accepted); (offer_sent, rejected);
    (offer_sent, changes_requested) ].

Definition transition_table (is_admin : bool)
  : list (unified_status * unified_status) :=
  if is_admin then administrator_rows else trader_rows.

(** [user_roles ur JOIN roles r ON r.id = ur.role_id]. *)
Record user_role : Set := { ur_user_id : uuid; ur_role_id : uuid }.
Record role : Set := { r_id : uuid; r_name : string }.

(** [EXISTS (SELECT 1 FROM user_roles ur JOIN roles r ON r.id = ur.role_id
     WHERE ur.user_id = auth.uid() AND r.name = 'administrator')];
    [auth.uid()] is NULL for a session without a user. *)
Definition is_administrator
    (user_roles : list user_role) (roles : list role) (auth_uid : option uuid)
  : bool :=
  match auth_uid with
  | None => false
  | Some u =>
      existsb (fun ur =>
        existsb (fun r =>
          (r_id r =? ur_role_id ur) && (ur_user_id ur =? u)
          && String.eqb (r_name r) "administrator") roles) user_roles
  end.

(** The columns of the row the transition trigger reads and assigns. *)
Record status_row : Set := {
  sr_status : unified_status;
  sr_valid_until : option timestamptz;
  sr_updated_at : timestamptz
}.

(** Trigger function [handle_status_transition()], BEFORE UPDATE OF status:
    the row it returns is the row that gets written. *)
Definition handle_status_transition
    (user_roles : list user_role) (roles : list role) (auth_uid : option uuid)
    (now : timestamptz) (OLD NEW : status_row) : result status_row :=
  let v_is_admin := is_administrator user_roles roles auth_uid in
  if negb (validate_status_transition (sr_status OLD) (sr_status NEW) v_is_admin)
  then Err (Exception "Invalid status transition from % to %"
              [AStatus (sr_status OLD); AStatus (sr_status NEW)])
  else
    let NEW1 :=
      match sr_status NEW with
      | offer_sent =>
          {| sr_status := sr_status NEW;
             sr_valid_until := Some (now + interval_7_days);
             sr_updated_at := sr_updated_at NEW |}
      | expired =>
          {| sr_status := sr_status NEW;
             sr_valid_until := None;
             sr_updated_at := sr_updated_at NEW |}
      | _ => NEW
      end in
    Ok {| sr_status := sr_status NEW1;
          sr_valid_until := sr_valid_until NEW1;
          sr_updated_at := now |}.

(* ------------------------------------------------------------------ *)
(** * Tables of the offer repository *)

(** [booking_inquiries], [profiles], [booking_inquiry_warehouses] and
    [m_warehouses] are created by migrations that are not part of this
    development; a row carries the columns the functions and triggers read
    or assign. *)
Record booking_inquiry : Set := {
  bi_id : uuid;
  bi_trader_id : uuid;
  bi_status : unified_status;
  bi_estimated_cost_cents : option bigint;
  bi_valid_until : option timestamptz;
  bi_updated_at : timestamptz
}.

Record profile : Set := {
  pr_user_id : uuid;
  pr_first_name : option string;
  pr_last_name : option string
}.

Record booking_inquiry_warehouse : Set := {
  biw_inquiry_id : uuid;
  biw_warehouse_id : uuid
}.

Record m_warehouse : Set := {
  w_id : uuid;
  w_name : option string
}.

Record booking_offer : Set := {
  bo_id : uuid;
  bo_inquiry_id : uuid;
  bo_admin_id : uuid;
  bo_total_cost_cents : bigint;
  bo_valid_until : timestamptz;
  bo_notes : option string;
  bo_status : unified_status;
  bo_updated_at : timestamptz
}.

Record booking_offer_space : Set := {
  bos_offer_id : uuid;
  bos_space_id : uuid;
  bos_space_allocated_m2 : numeric;
  bos_price_per_m2_cents : bigint;
  bos_offer_total_cents : bigint;
  bos_is_manual_price : bool;
  bos_comments : option string
}.

Record booking_offer_service : Set := {
  bsv_offer_id : uuid;
  bsv_service_id : uuid;
  bsv_pricing_type : string;
  bsv_quantity : option numeric;
  bsv_price_per_hour_cents : option bigint;
  bsv_price_per_unit_cents : option bigint;
  bsv_unit_type : option string;
  bsv_fixed_price_cents : option bigint;
  bsv_offer_total_cents : option bigint;
  bsv_comments : option string
}.

Record booking_offer_term : Set := {
  bot_offer_id : uuid;
  bot_term_type : string;
  bot_description : string
}.

Record offer_summary : Set := {
  os_offer_id : uuid;
  os_inquiry_id : option uuid;
  os_quoted_price_cents : bigint;
  os_calculated_price_cents : option bigint;
  os_actual_offer_cents : option bigint;
  os_space_total_cents : bigint;
  os_services_total_cents : bigint;
  os_updated_at : timestamptz
}.

(** [booking_inquiry_space_requests]. *)
Record space_request : Set := {
  bsr_inquiry_id : uuid;
  bsr_size_m2 : numeric
}.

Record notification : Set := {
  n_user_id : uuid;
  n_type : string;
  n_title : string;
  n_message : string;
  n_inquiry_id : option uuid
}.

(** [offer_summaries] is created four times in the migrations, each time
    after a DROP of the table before: without [inquiry_id] and with every
    price column NOT NULL ("Add Offer Summaries Table"); with [inquiry_id]
    NOT NULL and every price column NOT NULL ("Add Spreadsheet-Style Offer
    System"); with [inquiry_id] NOT NULL and [calculated_price_cents]
    nullable ("Fix Offer Summaries Table"); with [inquiry_id] NOT NULL and
    [calculated_price_cents] and [actual_offer_cents] nullable ("Fix Offer
    Summaries Constraints").  A row keeps the columns of all four;
    [os_inquiry_id] is [None] on the table that has no such column. *)
Inductive offer_summaries_revision : Set :=
  | Add_Offer_Summaries_Table
  | Add_Spreadsheet_Style_Offer_System
  | Fix_Offer_Summaries_Table
  | Fix_Offer_Summaries_Constraints.

Record db : Set := {
  user_roles : list user_role;
  roles : list role;
  booking_inquiries : list booking_inquiry;
  booking_offers : list booking_offer;
  booking_offer_spaces : list booking_offer_space;
  booking_offer_services : list booking_offer_service;
  booking_offer_terms : list booking_offer_term;
  offer_summaries_table : offer_summaries_revision;
  offer_summaries : list offer_summary;
  booking_inquiry_space_requests : list space_request;
  m_warehouse_spaces : list uuid;
  warehouse_services : list uuid;
  profiles : list profile;
  booking_inquiry_warehouses : list booking_inquiry_warehouse;
  m_warehouses : list m_warehouse;
  notifications : list notification
}.

Definition set_booking_inquiries (d : db) (l : list booking_inquiry) : db :=
  {| user_roles := user_roles d; roles := roles d;
     booking_inquiries := l;
     booking_offers := booking_offers d;
     booking_offer_spaces := booking_offer_spaces d;
     booking_offer_services := booking_offer_services d;
     booking_offer_terms := booking_offer_terms d;
     offer_summaries_table := offer_summaries_table d;
     offer_summaries := offer_summaries d;
     booking_inquiry_space_requests := booking_inquiry_space_requests d;
     m_warehouse_spaces := m_warehouse_spaces d;
     warehouse_services := warehouse_services d;
     profiles := profiles d;
     booking_inquiry_warehouses := booking_inquiry_warehouses d;
     m_warehouses := m_warehouses d;
     notifications := notifications d |}.

Definition set_booking_offers (d : db) (l : list booking_offer) : db :=
  {| user_roles := user_roles d; roles := roles d;
     booking_inquiries := booking_inquiries d;
     booking_offers := l;
     booking_offer_spaces := booking_offer_spaces d;
     booking_offer_services := booking_offer_services d;
     booking_offer_terms := booking_offer_terms d;
     offer_summaries_table := offer_summaries_table d;
     offer_summaries := offer_summaries d;
     booking_inquiry_space_requests := booking_inquiry_space_requests d;
     m_warehouse_spaces := m_warehouse_spaces d;
     warehouse_services := warehouse_services d;
     profiles := profiles d;
     booking_inquiry_warehouses := booking_inquiry_warehouses d;
     m_warehouses := m_warehouses d;
     notifications := notifications d |}.

(** The three child tables of an offer, written together. *)
Definition set_allocations (d : db)
    (sp : list booking_offer_space) (sv : list booking_offer_service)
    (tm : list booking_offer_term) : db :=
  {| user_roles := user_roles d; roles := roles d;
     booking_inquiries := booking_inquiries d;
     booking_offers := booking_offers d;
     booking_offer_spaces := sp;
     booking_offer_services := sv;
     booking_offer_terms := tm;
     offer_summaries_table := offer_summaries_table d;
     offer_summaries := offer_summaries d;
     booking_inquiry_space_requests := booking_inquiry_space_requests d;
     m_warehouse_spaces := m_warehouse_spaces d;
     warehouse_services := warehouse_services d;
     profiles := profiles d;
     booking_inquiry_warehouses := booking_inquiry_warehouses d;
     m_warehouses := m_warehouses d;
     notifications := notifications d |}.

Definition set_offer_summaries (d : db) (l : list offer_summary) : db :=
  {| user_roles := user_roles d; roles := roles d;
     booking_inquiries := booking_inquiries d;
     booking_offers := booking_offers d;
     booking_offer_spaces := booking_offer_spaces d;
     booking_offer_services := booking_offer_services d;
     booking_offer_terms := booking_offer_terms d;
     offer_summaries_table := offer_summaries_table d;
     offer_summaries := l;
     booking_inquiry_space_requests := booking_inquiry_space_requests d;
     m_warehouse_spaces := m_warehouse_spaces d;
     warehouse_services := warehouse_services d;
     profiles := profiles d;
     booking_inquiry_warehouses := booking_inquiry_warehouses d;
     m_warehouses := m_warehouses d;
     notifications := notifications d |}.

Definition set_notifications (d : db) (l : list notification) : db :=
  {| user_roles := user_roles d; roles := roles d;
     booking_inquiries := booking_inquiries d;
     booking_offers := booking_offers d;
     booking_offer_spaces := booking_offer_spaces d;
     booking_offer_services := booking_offer_services d;
     booking_offer_terms := booking_offer_terms d;
     offer_summaries_table := offer_summaries_table d;
     offer_summaries := offer_summaries d;
     booking_inquiry_space_requests := booking_inquiry_space_requests d;
     m_warehouse_spaces := m_warehouse_spaces d;
     warehouse_services := warehouse_services d;
     profiles := profiles d;
     booking_inquiry_warehouses := booking_inquiry_warehouses d;
     m_warehouses := m_warehouses d;
     notifications := l |}.

(** The administrator check every RPC function starts with. *)
Definition caller_is_administrator (d : db) (auth_uid : option uuid) : bool :=
  is_administrator (user_roles d) (roles d) auth_uid.

(* ------------------------------------------------------------------ *)
(** * SQL helpers *)

Definition is_null {A} (o : option A) : bool :=
  match o with None => true | Some _ => false end.

Definition coalesce {A} (o : option A) (dflt : A) : A :=
  match o with Some a => a | None => dflt end.

(** [NULLIF(x, 0)] on bigint and on numeric. *)
Definition nullif_zero (o : option bigint) : option bigint :=
  match o with
  | Some z => if z =? 0 then None else Some z
  | None => None
  end.

Definition nullif_zero_numeric (o : option numeric) : option numeric :=
  match o with
  | Some q => if Qeq_bool q (0 # 1)%Q then None else Some q
  | None => None
  end.

Definition bigint_in_range (z : Z) : bool :=
  (- 2 ^ 63 <=? z) && (z <? 2 ^ 63).

(** bigint [+], which raises instead of wrapping. *)
Definition bigint_add (a b : bigint) : result bigint :=
  if bigint_in_range (a + b) then Ok (a + b) else Err Bigint_out_of_range.

(** [a < b] on numeric. *)
Definition numeric_ltb (a b : numeric) : bool := negb (Qle_bool b a).

(** [COALESCE(SUM(x), 0)] over numeric values. *)
Definition sum_numeric (l : list numeric) : numeric :=
  fold_right Qplus (0 # 1)%Q l.

(* ------------------------------------------------------------------ *)
(** * Row triggers on booking_offers (migration "Fix Status Enum Migration") *)

(** Trigger function [validate_offer_for_send()]. *)
Definition validate_offer_for_send_trigger (d : db) (NEW : booking_offer)
  : result booking_offer :=
  if status_eqb (bo_status NEW) offer_sent then
    if negb (existsb (fun os =>
               (os_offer_id os =? bo_id NEW)
               && negb (is_null (os_actual_offer_cents os)))
             (offer_summaries d))
    then Err (Exception "Cannot send offer: actual_offer_cents must be set" [])
    else Ok NEW
  else Ok NEW.

(** Trigger [validate_offer_before_send]: BEFORE UPDATE, FOR EACH ROW,
    WHEN (OLD.status <> 'offer_sent' AND NEW.status = 'offer_sent'). *)
Definition validate_offer_before_send (d : db) (OLD NEW : booking_offer)
  : result booking_offer :=
  if negb (status_eqb (bo_status OLD) offer_sent)
     && status_eqb (bo_status NEW) offer_sent
  then validate_offer_for_send_trigger d NEW
  else Ok NEW.

(* ------------------------------------------------------------------ *)
(** * Row triggers on booking_inquiries (migrations "Add Unified Status
      Workflow" and "Add Notification System") *)

(** An inquiry row with its status (and timestamp) replaced. *)
Definition with_inquiry_status (i : booking_inquiry) (s : unified_status)
    (now : timestamptz) : booking_inquiry :=
  {| bi_id := bi_id i;
     bi_trader_id := bi_trader_id i;
     bi_status := s;
     bi_estimated_cost_cents := bi_estimated_cost_cents i;
     bi_valid_until := bi_valid_until i;
     bi_updated_at := now |}.

Definition inquiry_status_row (i : booking_inquiry) : status_row :=
  {| sr_status := bi_status i;
     sr_valid_until := bi_valid_until i;
     sr_updated_at := bi_updated_at i |}.

(** Trigger [status_transition_trigger]: BEFORE UPDATE OF status, FOR EACH
    ROW, running [handle_status_transition()]; the inquiry row written is
    NEW with the columns the function assigns. *)
Definition status_transition_trigger
    (d : db) (auth_uid : option uuid) (now : timestamptz)
    (OLD NEW : booking_inquiry) : result booking_inquiry :=
  r <- handle_status_transition (user_roles d) (roles d) auth_uid now
         (inquiry_status_row OLD) (inquiry_status_row NEW) ;;
  Ok {| bi_id := bi_id NEW;
        bi_trader_id := bi_trader_id NEW;
        bi_status := sr_status r;
        bi_estimated_cost_cents := bi_estimated_cost_cents NEW;
        bi_valid_until := sr_valid_until r;
        bi_updated_at := sr_updated_at r |}.

(** [SELECT array_agg(ur.user_id) FROM user_roles ur
     JOIN roles r ON r.id = ur.role_id WHERE r.name = 'administrator']:
    one entry per joined row; NULL, which [unnest] turns into no row, is the
    empty list. *)
Definition v_admin_ids (d : db) : list uuid :=
  flat_map (fun ur =>
              map (fun _ => ur_user_id ur)
                  (filter (fun r => (r_id r =? ur_role_id ur)
                                    && String.eqb (r_name r) "administrator")
                          (roles d)))
           (user_roles d).

(** The one-character string holding a double quote. *)
Definition double_quote : string :=
  String (Ascii.ascii_of_nat 34) EmptyString.

(** [CONCAT(a, b, ...)]: NULL arguments count as empty strings. *)
Definition CONCAT (l : list (option string)) : string :=
  fold_right (fun o acc => String.append (coalesce o EmptyString) acc)
             EmptyString l.

(** The row [create_status_notification] selects into [v_inquiry]:
    [bi.*], [trader_name], [warehouse_name]. *)
Record inquiry_details : Set := {
  id_inquiry : booking_inquiry;
  id_trader_name : string;
  id_warehouse_name : option string
}.

(** [SELECT bi.*, CONCAT(p.first_name, ' ', p.last_name) AS trader_name,
     w.name AS warehouse_name
     FROM booking_inquiries bi JOIN profiles p ON p.user_id = bi.trader_id
     LEFT JOIN booking_inquiry_warehouses biw ON biw.inquiry_id = bi.id
     LEFT JOIN m_warehouses w ON w.id = biw.warehouse_id
     WHERE bi.id = p_inquiry_id]: the rows of the join, in the order of the
    tables. *)
Definition inquiry_details_rows (d : db) (p_inquiry_id : uuid)
  : list inquiry_details :=
  flat_map (fun bi =>
    flat_map (fun p =>
      let trader_name :=
        CONCAT [pr_first_name p; Some " "; pr_last_name p] in
      let no_warehouse :=
        {| id_inquiry := bi; id_trader_name := trader_name;
           id_warehouse_name := None |} in
      match filter (fun biw => biw_inquiry_id biw =? bi_id bi)
                   (booking_inquiry_warehouses d) with
      | [] => [no_warehouse]
      | biws =>
          flat_map (fun biw =>
            match filter (fun w => w_id w =? biw_warehouse_id biw)
                         (m_warehouses d) with
            | [] => [no_warehouse]
            | ws =>
                map (fun w => {| id_inquiry := bi;
                                 id_trader_name := trader_name;
                                 id_warehouse_name := w_name w |}) ws
            end) biws
      end)
      (filter (fun p => pr_user_id p =? bi_trader_id bi) (profiles d)))
    (filter (fun bi => bi_id bi =? p_inquiry_id) (booking_inquiries d)).

(** [INSERT INTO notifications (user_id, type, title, message, inquiry_id)
     VALUES (...)]; [user_id] is NOT NULL. *)
Definition insert_notification (d : db) (user_id : option uuid)
    (ty title message : string) (inquiry_id : option uuid) : result db :=
  match user_id with
  | None => Err (Not_null_violation "notifications.user_id")
  | Some u =>
      Ok (set_notifications d
            (notifications d ++
             [{| n_user_id := u;
                 n_type := ty;
                 n_title := title;
                 n_message := message;
                 n_inquiry_id := inquiry_id |}]))
  end.

(** [INSERT INTO notifications (...) SELECT admin_id, ty, v_title,
     v_message, p_inquiry_id FROM unnest(v_admin_ids) admin_id]. *)
Definition insert_admin_notifications (d : db) (ty title message : string)
    (p_inquiry_id : uuid) : db :=
  set_notifications d
    (notifications d ++
     map (fun admin_id =>
            {| n_user_id := admin_id;
               n_type := ty;
               n_title := title;
               n_message := message;
               n_inquiry_id := Some p_inquiry_id |})
         (v_admin_ids d)).

(** [create_status_notification(p_inquiry_id, p_new_status)].  When the
    join has no row the fields of [v_inquiry] are NULL.  Every type literal
    is a label of the enum [notification_type]. *)
Definition create_status_notification
    (d : db) (p_inquiry_id : uuid) (p_new_status : unified_status)
  : result db :=
  let v_inquiry := hd_error (inquiry_details_rows d p_inquiry_id) in
  let trader_id := option_map (fun r => bi_trader_id (id_inquiry r)) v_inquiry in
  let trader_name := option_map id_trader_name v_inquiry in
  let warehouse_name :=
    match v_inquiry with
    | Some r => id_warehouse_name r
    | None => None
    end in
  match p_new_status with
  | submitted =>
      Ok (insert_admin_notifications d "inquiry_submitted"
            "New Inquiry Submitted"
            (CONCAT [trader_name;
                     Some (" has submitted a new inquiry for warehouse " ++ double_quote)%string;
                     warehouse_name; Some double_quote])
            p_inquiry_id)
  | under_review =>
      insert_notification d trader_id "inquiry_under_review"
        "Inquiry Under Review"
        "Your inquiry is now being reviewed by our team" (Some p_inquiry_id)
  | offer_sent =>
      insert_notification d trader_id "offer_sent" "New Offer Available"
        "A new offer is available for your inquiry" (Some p_inquiry_id)
  | changes_requested =>
      Ok (insert_admin_notifications d "changes_requested" "Changes Requested"
            (CONCAT [trader_name;
                     Some (" has requested changes to the offer for warehouse " ++ double_quote)%string;
                     warehouse_name; Some double_quote])
            p_inquiry_id)
  | accepted =>
      Ok (insert_admin_notifications d "inquiry_accepted" "Offer Accepted"
            (CONCAT [trader_name;
                     Some (" has accepted the offer for warehouse " ++ double_quote)%string;
                     warehouse_name; Some double_quote])
            p_inquiry_id)
  | rejected =>
      Ok (insert_admin_notifications d "inquiry_rejected" "Offer Rejected"
            (CONCAT [trader_name;
                     Some (" has rejected the offer for warehouse " ++ double_quote)%string;
                     warehouse_name; Some double_quote])
            p_inquiry_id)
  | _ => Ok d
  end.

(** Trigger [inquiry_status_notification_trigger]: AFTER UPDATE OF status,
    FOR EACH ROW, running [handle_inquiry_status_notification()]. *)
Definition handle_inquiry_status_notification
    (d : db) (OLD NEW : booking_inquiry) : result db :=
  if negb (status_eqb (bi_status NEW) (bi_status OLD))
  then create_status_notification d (bi_id NEW) (bi_status NEW)
  else Ok d.

(** The rows an [UPDATE booking_inquiries SET status = s, updated_at = now()
    WHERE id = inquiry_id] writes: each selected row goes through the BEFORE
    trigger; the second component lists the (OLD, NEW) pairs written. *)
Fixpoint update_inquiry_rows
    (d : db) (auth_uid : option uuid) (now : timestamptz)
    (inquiry_id : uuid) (s : unified_status) (rows : list booking_inquiry)
  : result (list booking_inquiry * list (booking_inquiry * booking_inquiry)) :=
  match rows with
  | [] => Ok ([], [])
  | i :: rest =>
      if bi_id i =? inquiry_id then
        NEW <- status_transition_trigger d auth_uid now i
                 (with_inquiry_status i s now) ;;
        r <- update_inquiry_rows d auth_uid now inquiry_id s rest ;;
        Ok (NEW :: fst r, (i, NEW) :: snd r)
      else
        r <- update_inquiry_rows d auth_uid now inquiry_id s rest ;;
        Ok (i :: fst r, snd r)
  end.

(** The AFTER ROW triggers of a statement, run on the tables as the
    statement left them, one (OLD, NEW) pair after the other. *)
Definition after_row_triggers {R : Type} (f : db -> R -> R -> result db)
    (fired : list (R * R)) (d : db) : result db :=
  fold_left (fun acc p => d' <- acc ;; f d' (fst p) (snd p)) fired (Ok d).

(** [UPDATE public.booking_inquiries SET status = s, updated_at = now()
     WHERE id = inquiry_id], with the row triggers of the table;
    [auth_uid] is the user of the session, whom [auth.uid()] names in a
    trigger function as well. *)
Definition update_inquiry_status
    (d : db) (auth_uid : option uuid) (now : timestamptz)
    (inquiry_id : uuid) (s : unified_status) : result db :=
  r <- update_inquiry_rows d auth_uid now inquiry_id s (booking_inquiries d) ;;
  after_row_triggers handle_inquiry_status_notification (snd r)
    (set_booking_inquiries d (fst r)).

(* ------------------------------------------------------------------ *)
(** * The AFTER trigger on booking_offers and UPDATE statements on the
      table (migration "Fix Status Enum Migration") *)

(** Trigger function [update_inquiry_status_on_offer()], run by trigger
    [update_inquiry_status_trigger]: AFTER UPDATE OF status, FOR EACH ROW. *)
Definition update_inquiry_status_on_offer
    (d : db) (auth_uid : option uuid) (now : timestamptz)
    (OLD NEW : booking_offer) : result db :=
  d1 <- (if status_eqb (bo_status NEW) offer_sent
            && status_eqb (bo_status OLD) draft
         then update_inquiry_status d auth_uid now (bo_inquiry_id NEW) offer_sent
         else Ok d) ;;
  d2 <- (if status_eqb (bo_status NEW) accepted
            && status_eqb (bo_status OLD) offer_sent
         then update_inquiry_status d1 auth_uid now (bo_inquiry_id NEW) accepted
         else Ok d1) ;;
  if status_eqb (bo_status NEW) rejected && status_eqb (bo_status OLD) offer_sent
  then update_inquiry_status d2 auth_uid now (bo_inquiry_id NEW) offer_draft
  else Ok d2.

(** The rows an [UPDATE booking_offers SET ... WHERE ...] writes: each row
    selected by [where_] goes through the BEFORE trigger; the second
    component lists the (OLD, NEW) pairs of the rows written. *)
Fixpoint update_offer_rows
    (d : db) (where_ : booking_offer -> bool)
    (set : booking_offer -> booking_offer) (rows : list booking_offer)
  : result (list booking_offer * list (booking_offer * booking_offer)) :=
  match rows with
  | [] => Ok ([], [])
  | o :: rest =>
      if where_ o then
        NEW <- validate_offer_before_send d o (set o) ;;
        r <- update_offer_rows d where_ set rest ;;
        Ok (NEW :: fst r, (o, NEW) :: snd r)
      else
        r <- update_offer_rows d where_ set rest ;;
        Ok (o :: fst r, snd r)
  end.

(** An UPDATE statement on [booking_offers] with its row triggers;
    [of_status] tells whether [status] is among the assigned columns, which
    is when the AFTER UPDATE OF status trigger fires.  The last component is
    FOUND. *)
Definition update_booking_offers
    (d : db) (auth_uid : option uuid) (now : timestamptz) (of_status : bool)
    (where_ : booking_offer -> bool) (set : booking_offer -> booking_offer)
  : result (db * bool) :=
  r <- update_offer_rows d where_ set (booking_offers d) ;;
  let d1 := set_booking_offers d (fst r) in
  d2 <- (if of_status
         then after_row_triggers
                (fun acc OLD NEW =>
                   update_inquiry_status_on_offer acc auth_uid now OLD NEW)
                (snd r) d1
         else Ok d1) ;;
  Ok (d2, negb (Nat.eqb (List.length (snd r)) 0)).

Definition set_offer_status (s : unified_status) (now : timestamptz)
    (o : booking_offer) : booking_offer :=
  {| bo_id := bo_id o;
     bo_inquiry_id := bo_inquiry_id o;
     bo_admin_id := bo_admin_id o;
     bo_total_cost_cents := bo_total_cost_cents o;
     bo_valid_until := bo_valid_until o;
     bo_notes := bo_notes o;
     bo_status := s;
     bo_updated_at := now |}.

(* ------------------------------------------------------------------ *)
(** * Sending an offer (migration "Add Offer Workflow Handling") *)

Definition service_pricing_missing (s : booking_offer_service) : bool :=
  (String.eqb (bsv_pricing_type s) "hourly_rate"
     && is_null (bsv_price_per_hour_cents s))
  || (String.eqb (bsv_pricing_type s) "per_unit"
        && (is_null (bsv_price_per_unit_cents s) || is_null (bsv_unit_type s)))
  || (String.eqb (bsv_pricing_type s) "fixed"
        && is_null (bsv_fixed_price_cents s)).

(** The space rows counted and summed:
    [WHERE offer_id = p_offer_id AND space_allocated_m2 > 0]. *)
Definition allocated_spaces (d : db) (p_offer_id : uuid)
  : list booking_offer_space :=
  filter (fun s => (bos_offer_id s =? p_offer_id)
                   && numeric_ltb (0 # 1)%Q (bos_space_allocated_m2 s))
         (booking_offer_spaces d).

(** [SELECT COALESCE(SUM(size_m2), 0) FROM booking_inquiry_space_requests
     WHERE inquiry_id = v_inquiry_id]. *)
Definition total_requested (d : db) (v_inquiry_id : option uuid) : numeric :=
  sum_numeric
    (map bsr_size_m2
       (filter (fun r => match v_inquiry_id with
                         | Some i => bsr_inquiry_id r =? i
                         | None => false
                         end)
               (booking_inquiry_space_requests d))).

(** [validate_offer_for_send(p_offer_id uuid)]. *)
Definition validate_offer_for_send (d : db) (p_offer_id : uuid) : result bool :=
  let v_inquiry_id :=
    option_map bo_inquiry_id
      (find (fun o => bo_id o =? p_offer_id) (booking_offers d)) in
  let v_space_count := Z.of_nat (List.length (allocated_spaces d p_offer_id)) in
  let v_total_allocated :=
    sum_numeric (map bos_space_allocated_m2 (allocated_spaces d p_offer_id)) in
  let v_total_requested := total_requested d v_inquiry_id in
  if v_space_count =? 0 then
    Err (Exception "At least one space must be allocated" [])
  else if numeric_ltb v_total_allocated v_total_requested then
    Err (Exception
           "Total allocated space (%) must meet or exceed requested space (%)"
           [ANumeric v_total_allocated; ANumeric v_total_requested])
  else if existsb (fun s =>
             (bsv_offer_id s =? p_offer_id)
             && negb (String.eqb (bsv_pricing_type s) "ask_quote")
             && service_pricing_missing s)
           (booking_offer_services d) then
    Err (Exception "All services must have proper pricing set" [])
  else if negb (existsb (fun o => (bo_id o =? p_offer_id)
                                  && (0 <? bo_total_cost_cents o))
                        (booking_offers d)) then
    Err (Exception "Total cost must be set" [])
  else Ok true.

(** The first row of [booking_offers bo JOIN booking_inquiries bi
    ON bi.id = bo.inquiry_id WHERE bo.id = p_offer_id]. *)
Definition offer_with_inquiry (d : db) (p_offer_id : uuid)
  : option (booking_offer * booking_inquiry) :=
  hd_error
    (flat_map (fun bo =>
                 map (fun bi => (bo, bi))
                     (filter (fun bi => bi_id bi =? bo_inquiry_id bo)
                             (booking_inquiries d)))
              (filter (fun bo => bo_id bo =? p_offer_id) (booking_offers d))).

(** [send_booking_offer(p_offer_id uuid)]. *)
Definition send_booking_offer
    (d : db) (auth_uid : option uuid) (now : timestamptz) (p_offer_id : uuid)
  : result (db * bool) :=
  if negb (caller_is_administrator d auth_uid) then
    Err (Exception "Permission denied" [])
  else
    _ <- validate_offer_for_send d p_offer_id ;;
    let v_inquiry_id := option_map (fun p => bo_inquiry_id (fst p))
                                   (offer_with_inquiry d p_offer_id) in
    let v_trader_id := option_map (fun p => bi_trader_id (snd p))
                                  (offer_with_inquiry d p_offer_id) in
    r <- update_booking_offers d auth_uid now true
           (fun o => (bo_id o =? p_offer_id) && status_eqb (bo_status o) draft)
           (set_offer_status offer_sent now) ;;
    let d1 := fst r in
    d2 <- match v_inquiry_id with
          | Some i => update_inquiry_status d1 auth_uid now i offer_sent
          | None => Ok d1
          end ;;
    d3 <- insert_notification d2 v_trader_id "offer_sent" "New Offer Available"
            "A new offer is available for your inquiry" v_inquiry_id ;;
    Ok (d3, true).

(* ------------------------------------------------------------------ *)
(** * Creating and replacing offers
      (migrations "Fix JSON Handling in Database Functions" and
      "Update Booking Offer Function") *)

(** Elements of the jsonb arrays [p_spaces], [p_services], [p_terms]. *)
Record space_json : Set := {
  sj_space_id : option uuid;
  sj_space_allocated_m2 : option numeric;
  sj_price_per_m2_cents : option bigint;
  sj_offer_total_cents : option bigint;
  sj_is_manual_price : option bool;
  sj_comments : option string
}.

Record service_json : Set := {
  vj_service_id : option uuid;
  vj_pricing_type : option string;
  vj_quantity : option numeric;
  vj_price_per_hour_cents : option bigint;
  vj_price_per_unit_cents : option bigint;
  vj_unit_type : option string;
  vj_fixed_price_cents : option bigint;
  vj_offer_total_cents : option bigint;
  vj_comments : option string
}.

Record term_json : Set := {
  tj_term_type : option string;
  tj_description : option string
}.

(** The row a space element is inserted as. *)
Definition space_row (v_offer_id space_id : uuid) (v_space : space_json)
  : booking_offer_space :=
  {| bos_offer_id := v_offer_id;
     bos_space_id := space_id;
     bos_space_allocated_m2 := coalesce (sj_space_allocated_m2 v_space) (0 # 1)%Q;
     bos_price_per_m2_cents := coalesce (sj_price_per_m2_cents v_space) 0;
     bos_offer_total_cents := coalesce (sj_offer_total_cents v_space) 0;
     bos_is_manual_price := coalesce (sj_is_manual_price v_space) false;
     bos_comments := sj_comments v_space |}.

(** The row a service element is inserted as. *)
Definition service_row (v_offer_id service_id : uuid) (v_service : service_json)
  : booking_offer_service :=
  {| bsv_offer_id := v_offer_id;
     bsv_service_id := service_id;
     bsv_pricing_type := coalesce (vj_pricing_type v_service) "ask_quote";
     bsv_quantity := nullif_zero_numeric (vj_quantity v_service);
     bsv_price_per_hour_cents := nullif_zero (vj_price_per_hour_cents v_service);
     bsv_price_per_unit_cents := nullif_zero (vj_price_per_unit_cents v_service);
     bsv_unit_type := vj_unit_type v_service;
     bsv_fixed_price_cents := nullif_zero (vj_fixed_price_cents v_service);
     bsv_offer_total_cents := Some (coalesce (vj_offer_total_cents v_service) 0);
     bsv_comments := vj_comments v_service |}.

(** Column constraint of [booking_offer_services.pricing_type]:
    CHECK (pricing_type IN ('hourly_rate', 'per_unit', 'fixed', 'ask_quote')). *)
Definition pricing_type_check (s : string) : bool :=
  String.eqb s "hourly_rate" || String.eqb s "per_unit"
  || String.eqb s "fixed" || String.eqb s "ask_quote".

(** Foreign keys the migrations declare on the offer tables: [offer_id] of
    the three child tables ("Add Missing Foreign Key Relationships") and of
    [offer_summaries], [space_id] of [booking_offer_spaces] ("Add Space
    Relationship to Booking Offer Spaces"), [inquiry_id] of
    [booking_offers].  A key is checked when the INSERT statement ends,
    after the NOT NULL and CHECK constraints of the row.  Where two keys of
    one row can fail the offer is looked up first; no function modelled
    here reaches an INSERT at which both fail. *)
Definition offer_exists (d : db) (offer_id : uuid) : bool :=
  existsb (fun o => bo_id o =? offer_id) (booking_offers d).

Definition inquiry_exists (d : db) (inquiry_id : uuid) : bool :=
  existsb (fun i => bi_id i =? inquiry_id) (booking_inquiries d).

(** [INSERT INTO public.booking_offer_spaces (...) VALUES (...)]. *)
Definition insert_booking_offer_space (d : db) (row : booking_offer_space)
    (rows : list booking_offer_space) : result (list booking_offer_space) :=
  if negb (offer_exists d (bos_offer_id row)) then
    Err (Foreign_key_violation "booking_offer_spaces_offer_id_fkey")
  else if negb (existsb (Z.eqb (bos_space_id row)) (m_warehouse_spaces d)) then
    Err (Foreign_key_violation "booking_offer_spaces_space_id_fkey")
  else Ok (rows ++ [row]).

(** [INSERT INTO public.booking_offer_services (...) VALUES (...)], with
    the CHECK constraint of [pricing_type]. *)
Definition insert_booking_offer_service (d : db) (row : booking_offer_service)
    (rows : list booking_offer_service)
  : result (list booking_offer_service) :=
  if negb (pricing_type_check (bsv_pricing_type row)) then
    Err (Check_violation "booking_offer_services_pricing_type_check")
  else if negb (offer_exists d (bsv_offer_id row)) then
    Err (Foreign_key_violation "booking_offer_services_offer_id_fkey")
  else Ok (rows ++ [row]).

(** [INSERT INTO public.booking_offer_terms (...) VALUES (...)]. *)
Definition insert_booking_offer_term (d : db) (row : booking_offer_term)
    (rows : list booking_offer_term) : result (list booking_offer_term) :=
  if negb (offer_exists d (bot_offer_id row)) then
    Err (Foreign_key_violation "booking_offer_terms_offer_id_fkey")
  else Ok (rows ++ [row]).

(** What the table [offer_summaries] of the database makes of a row an
    INSERT proposes: a column the table does not have, then the NOT NULL
    constraints. *)
Definition check_offer_summary (d : db) (row : offer_summary) : result unit :=
  match offer_summaries_table d with
  | Add_Offer_Summaries_Table =>
      if negb (is_null (os_inquiry_id row)) then
        Err (Undefined_column "inquiry_id")
      else if is_null (os_calculated_price_cents row) then
        Err (Not_null_violation "offer_summaries.calculated_price_cents")
      else if is_null (os_actual_offer_cents row) then
        Err (Not_null_violation "offer_summaries.actual_offer_cents")
      else Ok tt
  | Add_Spreadsheet_Style_Offer_System =>
      if is_null (os_inquiry_id row) then
        Err (Not_null_violation "offer_summaries.inquiry_id")
      else if is_null (os_calculated_price_cents row) then
        Err (Not_null_violation "offer_summaries.calculated_price_cents")
      else if is_null (os_actual_offer_cents row) then
        Err (Not_null_violation "offer_summaries.actual_offer_cents")
      else Ok tt
  | Fix_Offer_Summaries_Table =>
      if is_null (os_inquiry_id row) then
        Err (Not_null_violation "offer_summaries.inquiry_id")
      else if is_null (os_actual_offer_cents row) then
        Err (Not_null_violation "offer_summaries.actual_offer_cents")
      else Ok tt
  | Fix_Offer_Summaries_Constraints =>
      if is_null (os_inquiry_id row) then
        Err (Not_null_violation "offer_summaries.inquiry_id")
      else Ok tt
  end.

(** [INSERT INTO public.offer_summaries (...) VALUES (...)]. *)
Definition insert_offer_summary (d : db) (row : offer_summary)
  : result (list offer_summary) :=
  _ <- check_offer_summary d row ;;
  if negb (offer_exists d (os_offer_id row)) then
    Err (Foreign_key_violation "offer_summaries_offer_id_fkey")
  else Ok (offer_summaries d ++ [row]).

(** The terms loop, the same in both functions. *)
Fixpoint insert_terms (d : db) (v_offer_id : uuid) (terms : list term_json)
    (rows : list booking_offer_term) : result (list booking_offer_term) :=
  match terms with
  | [] => Ok rows
  | v_term :: rest =>
      match tj_term_type v_term, tj_description v_term with
      | Some ty, Some de =>
          rows' <- insert_booking_offer_term d
                     {| bot_offer_id := v_offer_id;
                        bot_term_type := ty;
                        bot_description := de |} rows ;;
          insert_terms d v_offer_id rest rows'
      | _, _ =>
          Err (Exception "term_type and description are required for terms" [])
      end
  end.

(** [SELECT estimated_cost_cents INTO v FROM booking_inquiries WHERE id = p]. *)
Definition inquiry_estimated_cost (d : db) (p_inquiry_id : uuid) : option bigint :=
  match find (fun i => bi_id i =? p_inquiry_id) (booking_inquiries d) with
  | Some i => bi_estimated_cost_cents i
  | None => None
  end.

(** Loops of [save_booking_offer]: rows inserted and running totals. *)
Fixpoint save_spaces (d : db) (v_offer_id : uuid) (spaces : list space_json)
    (rows : list booking_offer_space) (v_space_total : bigint)
  : result (list booking_offer_space * bigint) :=
  match spaces with
  | [] => Ok (rows, v_space_total)
  | v_space :: rest =>
      match sj_space_id v_space with
      | None => Err (Exception "space_id is required for space allocations" [])
      | Some sid =>
          rows' <- insert_booking_offer_space d
                     (space_row v_offer_id sid v_space) rows ;;
          t <- bigint_add v_space_total (coalesce (sj_offer_total_cents v_space) 0) ;;
          save_spaces d v_offer_id rest rows' t
      end
  end.

Fixpoint save_services (d : db) (v_offer_id : uuid)
    (services : list service_json)
    (rows : list booking_offer_service) (v_services_total : bigint)
  : result (list booking_offer_service * bigint) :=
  match services with
  | [] => Ok (rows, v_services_total)
  | v_service :: rest =>
      match vj_service_id v_service with
      | None => Err (Exception "service_id is required for service allocations" [])
      | Some sid =>
          rows' <- insert_booking_offer_service d
                     (service_row v_offer_id sid v_service) rows ;;
          t <- bigint_add v_services_total
                 (coalesce (vj_offer_total_cents v_service) 0) ;;
          save_services d v_offer_id rest rows' t
      end
  end.

(** [save_booking_offer(p_inquiry_id, p_total_cost_cents, p_valid_until,
     p_notes, p_spaces, p_services, p_terms)]; [new_id] is the id the insert
    into [booking_offers] draws.  The first match only names the caller for
    [admin_id]: a session without a user fails the administrator check. *)
Definition save_booking_offer
    (d : db) (auth_uid : option uuid) (now : timestamptz) (new_id : uuid)
    (p_inquiry_id : uuid) (p_total_cost_cents : bigint)
    (p_valid_until : timestamptz) (p_notes : option string)
    (p_spaces : option (list space_json))
    (p_services : option (list service_json))
    (p_terms : option (list term_json))
  : result (db * uuid) :=
  match auth_uid with
  | None => Err (Exception "Permission denied" [])
  | Some uid =>
  if negb (caller_is_administrator d auth_uid) then
    Err (Exception "Permission denied" [])
  else
    let v_inquiry_estimated_cost := inquiry_estimated_cost d p_inquiry_id in
    let v_offer_id := new_id in
    if negb (inquiry_exists d p_inquiry_id) then
      Err (Foreign_key_violation "booking_offers_inquiry_id_fkey")
    else
    let d1 := set_booking_offers d
                (booking_offers d ++
                 [{| bo_id := v_offer_id;
                     bo_inquiry_id := p_inquiry_id;
                     bo_admin_id := uid;
                     bo_total_cost_cents := p_total_cost_cents;
                     bo_valid_until := p_valid_until;
                     bo_notes := p_notes;
                     bo_status := draft;
                     bo_updated_at := now |}]) in
    sp <- match p_spaces with
          | Some l => save_spaces d1 v_offer_id l (booking_offer_spaces d1) 0
          | None => Ok (booking_offer_spaces d1, 0)
          end ;;
    sv <- match p_services with
          | Some l => save_services d1 v_offer_id l (booking_offer_services d1) 0
          | None => Ok (booking_offer_services d1, 0)
          end ;;
    tm <- match p_terms with
          | Some l => insert_terms d1 v_offer_id l (booking_offer_terms d1)
          | None => Ok (booking_offer_terms d1)
          end ;;
    let v_space_total := snd sp in
    let v_services_total := snd sv in
    calc <- bigint_add v_space_total v_services_total ;;
    let d2 := set_allocations d1 (fst sp) (fst sv) tm in
    summaries <- insert_offer_summary d2
                   {| os_offer_id := v_offer_id;
                      os_inquiry_id := None;
                      os_quoted_price_cents :=
                        coalesce v_inquiry_estimated_cost 0;
                      os_calculated_price_cents := Some calc;
                      os_actual_offer_cents := Some p_total_cost_cents;
                      os_space_total_cents := v_space_total;
                      os_services_total_cents := v_services_total;
                      os_updated_at := now |} ;;
    Ok (set_offer_summaries d2 summaries, v_offer_id)
  end.


(** Loops of [update_booking_offer], which look the referenced space and
    service up before inserting. *)
Fixpoint update_spaces (d : db) (p_offer_id : uuid) (spaces : list space_json)
    (rows : list booking_offer_space) (v_space_total : bigint)
  : result (list booking_offer_space * bigint) :=
  match spaces with
  | [] => Ok (rows, v_space_total)
  | v_space :: rest =>
      match sj_space_id v_space with
      | None => Err (Exception "space_id is required for space allocations" [])
      | Some sid =>
          let v_space_exists := existsb (Z.eqb sid) (m_warehouse_spaces d) in
          if negb v_space_exists then
            Err (Exception "Space with ID % does not exist" [AUuid (Some sid)])
          else
            rows' <- insert_booking_offer_space d
                       (space_row p_offer_id sid v_space) rows ;;
            t <- bigint_add v_space_total
                   (coalesce (sj_offer_total_cents v_space) 0) ;;
            update_spaces d p_offer_id rest rows' t
      end
  end.

Fixpoint update_services (d : db) (p_offer_id : uuid)
    (services : list service_json)
    (rows : list booking_offer_service) (v_services_total : bigint)
  : result (list booking_offer_service * bigint) :=
  match services with
  | [] => Ok (rows, v_services_total)
  | v_service :: rest =>
      match vj_service_id v_service with
      | None => Err (Exception "service_id is required for service allocations" [])
      | Some sid =>
          if negb (existsb (Z.eqb sid) (warehouse_services d)) then
            Err (Exception "Service with ID % does not exist" [AUuid (Some sid)])
          else
            rows' <- insert_booking_offer_service d
                       (service_row p_offer_id sid v_service) rows ;;
            t <- bigint_add v_services_total
                   (coalesce (vj_offer_total_cents v_service) 0) ;;
            update_services d p_offer_id rest rows' t
      end
  end.

(** The header columns [update_booking_offer] assigns. *)
Definition set_offer_header
    (p_total_cost_cents : bigint) (p_valid_until : timestamptz)
    (p_notes : option string) (now : timestamptz) (o : booking_offer)
  : booking_offer :=
  {| bo_id := bo_id o;
     bo_inquiry_id := bo_inquiry_id o;
     bo_admin_id := bo_admin_id o;
     bo_total_cost_cents := p_total_cost_cents;
     bo_valid_until := p_valid_until;
     bo_notes := p_notes;
     bo_status := bo_status o;
     bo_updated_at := now |}.

(** [INSERT INTO offer_summaries (...) VALUES (...)
     ON CONFLICT (offer_id) DO UPDATE SET calculated_price_cents = ...,
     actual_offer_cents = ..., space_total_cents = ...,
     services_total_cents = ..., updated_at = now()]. *)
Definition upsert_offer_summary (l : list offer_summary) (now : timestamptz)
    (p_offer_id : uuid) (quoted : bigint) (calc : bigint)
    (actual : option bigint) (v_space_total v_services_total : bigint)
  : list offer_summary :=
  if existsb (fun os => os_offer_id os =? p_offer_id) l then
    map (fun os =>
           if os_offer_id os =? p_offer_id then
             {| os_offer_id := os_offer_id os;
                os_inquiry_id := os_inquiry_id os;
                os_quoted_price_cents := os_quoted_price_cents os;
                os_calculated_price_cents := Some calc;
                os_actual_offer_cents := actual;
                os_space_total_cents := v_space_total;
                os_services_total_cents := v_services_total;
                os_updated_at := now |}
           else os) l
  else
    l ++ [{| os_offer_id := p_offer_id;
             os_inquiry_id := None;
             os_quoted_price_cents := quoted;
             os_calculated_price_cents := Some calc;
             os_actual_offer_cents := actual;
             os_space_total_cents := v_space_total;
             os_services_total_cents := v_services_total;
             os_updated_at := now |}].

(** The constraints the statement above meets: the proposed row is
    checked against the table whether or not a row of the offer exists;
    the foreign key is checked when the row is inserted, [offer_id] being
    left as it is by DO UPDATE. *)
Definition check_upsert_offer_summary (d : db) (p_offer_id : uuid)
    (quoted : bigint) (calc : bigint) (actual : option bigint)
    (v_space_total v_services_total : bigint) (now : timestamptz)
  : result unit :=
  _ <- check_offer_summary d
         {| os_offer_id := p_offer_id;
            os_inquiry_id := None;
            os_quoted_price_cents := quoted;
            os_calculated_price_cents := Some calc;
            os_actual_offer_cents := actual;
            os_space_total_cents := v_space_total;
            os_services_total_cents := v_services_total;
            os_updated_at := now |} ;;
  if existsb (fun os => os_offer_id os =? p_offer_id) (offer_summaries d)
  then Ok tt
  else if negb (offer_exists d p_offer_id) then
    Err (Foreign_key_violation "offer_summaries_offer_id_fkey")
  else Ok tt.

(** [update_booking_offer(p_offer_id, p_total_cost_cents, p_valid_until,
     p_notes, p_spaces, p_services, p_terms)]. *)
Definition update_booking_offer
    (d : db) (auth_uid : option uuid) (now : timestamptz)
    (p_offer_id : uuid) (p_total_cost_cents : bigint)
    (p_valid_until : timestamptz) (p_notes : option string)
    (p_spaces : option (list space_json))
    (p_services : option (list service_json))
    (p_terms : option (list term_json))
  : result (db * bool) :=
  if negb (caller_is_administrator d auth_uid) then
    Err (Exception "Permission denied" [])
  else
    let v_inquiry_estimated_cost :=
      match offer_with_inquiry d p_offer_id with
      | Some p => bi_estimated_cost_cents (snd p)
      | None => None
      end in
    r <- update_booking_offers d auth_uid now false
           (fun o => bo_id o =? p_offer_id)
           (set_offer_header p_total_cost_cents p_valid_until p_notes now) ;;
    let d1 := fst r in
    let d2 := set_allocations d1
                (filter (fun s => negb (bos_offer_id s =? p_offer_id))
                        (booking_offer_spaces d1))
                (filter (fun s => negb (bsv_offer_id s =? p_offer_id))
                        (booking_offer_services d1))
                (filter (fun t => negb (bot_offer_id t =? p_offer_id))
                        (booking_offer_terms d1)) in
    sp <- match p_spaces with
          | Some l => update_spaces d2 p_offer_id l (booking_offer_spaces d2) 0
          | None => Ok (booking_offer_spaces d2, 0)
          end ;;
    sv <- match p_services with
          | Some l => update_services d2 p_offer_id l (booking_offer_services d2) 0
          | None => Ok (booking_offer_services d2, 0)
          end ;;
    tm <- match p_terms with
          | Some l => insert_terms d2 p_offer_id l (booking_offer_terms d2)
          | None => Ok (booking_offer_terms d2)
          end ;;
    let v_space_total := snd sp in
    let v_services_total := snd sv in
    calc <- bigint_add v_space_total v_services_total ;;
    let d3 := set_allocations d2 (fst sp) (fst sv) tm in
    _ <- check_upsert_offer_summary d3 p_offer_id
           (coalesce v_inquiry_estimated_cost 0) calc
           (Some p_total_cost_cents) v_space_total v_services_total now ;;
    Ok (set_offer_summaries d3
          (upsert_offer_summary (offer_summaries d3) now p_offer_id
             (coalesce v_inquiry_estimated_cost 0) calc
             (Some p_total_cost_cents) v_space_total v_services_total),
        true).


(* ------------------------------------------------------------------ *)
(** * Allocation totals with the manual-price flag
      (migration "Add Manual Price Flag to Offer Space Allocations") *)

(** The cast PostgreSQL applies when a numeric value is assigned to a
    bigint variable: round to nearest, ties away from zero, then the range
    check. *)
Definition round_numeric (q : numeric) : Z :=
  if Qle_bool (0 # 1) q then Qfloor (q + (1 # 2)) else Qceiling (q - (1 # 2)).

Definition assign_bigint (q : numeric) : result bigint :=
  if bigint_in_range (round_numeric q) then Ok (round_numeric q)
  else Err Bigint_out_of_range.

Module ManualPriceFlag.

Record warehouse_space : Set := { ws_id : uuid; ws_space_type_id : uuid }.

(** An element of [p_space_allocations]. *)
Record space_allocation_json : Set := {
  space_id : option uuid;
  space_request_id : option uuid;
  space_type_id : option uuid;
  requested_size_m2 : option numeric;
  allocated_size_m2 : option numeric;
  duration_days : option Z;
  list_price_per_m2_cents : option bigint;
  offer_price_per_m2_cents : option bigint;
  estimated_total_cents : option bigint;
  offer_total_cents : option bigint;
  is_offer_price_manual : option bool;
  comments : option string
}.

(** A row of [offer_space_allocations]; every column but [comments] is
    NOT NULL. *)
Record offer_space_allocation : Set := {
  osa_offer_id : uuid;
  osa_space_id : uuid;
  osa_space_request_id : uuid;
  osa_space_type_id : uuid;
  osa_requested_size_m2 : numeric;
  osa_allocated_size_m2 : numeric;
  osa_duration_days : Z;
  osa_list_price_per_m2_cents : bigint;
  osa_offer_price_per_m2_cents : bigint;
  osa_estimated_total_cents : bigint;
  osa_offer_total_cents : bigint;
  osa_is_offer_price_manual : bool;
  osa_comments : option string
}.

(** [x::integer]: NULL stays NULL, a value that does not fit 32 bits
    raises 'integer out of range'. *)
Definition integer_in_range (z : Z) : bool :=
  (- 2 ^ 31 <=? z) && (z <? 2 ^ 31).

Definition cast_integer (o : option Z) : result (option Z) :=
  match o with
  | None => Ok None
  | Some z => if integer_in_range z then Ok o else Err Integer_out_of_range
  end.

(** The value the loop body adds to [v_space_total] for one element:
    the supplied [offer_total_cents] when the price is manual, otherwise
    [list_price_per_m2_cents * allocated_size_m2 * duration_days]; NULL
    when an operand is NULL.  The operands of the product are evaluated,
    casts included, before the multiplication looks for a NULL. *)
Definition space_line_total (v_space : space_allocation_json)
  : result (option numeric) :=
  if coalesce (is_offer_price_manual v_space) false then
    if is_null (offer_price_per_m2_cents v_space) then
      Err (Exception
             "Manual price must be provided when is_offer_price_manual is true" [])
    else Ok (option_map inject_Z (offer_total_cents v_space))
  else
    n <- cast_integer (duration_days v_space) ;;
    match list_price_per_m2_cents v_space, allocated_size_m2 v_space, n with
    | Some p, Some a, Some n => Ok (Some (inject_Z p * a * inject_Z n)%Q)
    | _, _, _ => Ok None
    end.

(** [v_space_total := v_space_total + amount]: the sum is cast back to
    bigint; NULL when either side is NULL. *)
Definition add_to_total (v_space_total : option bigint)
    (amount : option numeric) : result (option bigint) :=
  match v_space_total, amount with
  | Some t, Some a =>
      t' <- assign_bigint (inject_Z t + a)%Q ;; Ok (Some t')
  | _, _ => Ok None
  end.

(** The INSERT of the loop body: the VALUES list is evaluated first, with
    the cast of [duration_days], then the NOT NULL constraints of the table
    are checked. *)
Definition insert_space_allocation (p_offer_id : uuid)
    (v_space : space_allocation_json) : result offer_space_allocation :=
  n <- cast_integer (duration_days v_space) ;;
  match space_id v_space, space_request_id v_space, space_type_id v_space,
        requested_size_m2 v_space, allocated_size_m2 v_space,
        n, list_price_per_m2_cents v_space,
        estimated_total_cents v_space, offer_total_cents v_space,
        is_offer_price_manual v_space with
  | Some sid, Some rid, Some tid, Some rq, Some al, Some n, Some lp,
    Some et, Some ot, Some man =>
      Ok {| osa_offer_id := p_offer_id;
            osa_space_id := sid;
            osa_space_request_id := rid;
            osa_space_type_id := tid;
            osa_requested_size_m2 := rq;
            osa_allocated_size_m2 := al;
            osa_duration_days := n;
            osa_list_price_per_m2_cents := lp;
            osa_offer_price_per_m2_cents :=
              coalesce (offer_price_per_m2_cents v_space) lp;
            osa_estimated_total_cents := et;
            osa_offer_total_cents := ot;
            osa_is_offer_price_manual := man;
            osa_comments := comments v_space |}
  | _, _, _, _, _, _, _, _, _, _ =>
      Err (Not_null_violation "offer_space_allocations")
  end.

(** The space loop of [save_offer_allocations]: validation, running
    total, insert.  [v_space_total] starts at 0. *)
Fixpoint save_space_allocations
    (m_warehouse_spaces : list warehouse_space) (p_offer_id : uuid)
    (l : list space_allocation_json)
    (rows : list offer_space_allocation) (v_space_total : option bigint)
  : result (list offer_space_allocation * option bigint) :=
  match l with
  | [] => Ok (rows, v_space_total)
  | v_space :: rest =>
      match space_id v_space with
      | None => Err (Exception "space_id is required for space allocations" [])
      | Some sid =>
          if negb (existsb (fun ws =>
                     (ws_id ws =? sid)
                     && match space_type_id v_space with
                        | Some t => ws_space_type_id ws =? t
                        | None => false
                        end) m_warehouse_spaces)
          then Err (Exception "Invalid space_id or space type mismatch" [])
          else
            amount <- space_line_total v_space ;;
            t <- add_to_total v_space_total amount ;;
            row <- insert_space_allocation p_offer_id v_space ;;
            save_space_allocations m_warehouse_spaces p_offer_id rest
              (rows ++ [row]) t
      end
  end.

End ManualPriceFlag.

(* ------------------------------------------------------------------ *)
(** * Duration and initial line price on the offer pages *)

(** A calendar date as the inquiry stores it ([start_date], [end_date]). *)
Record iso_date : Set := { year : Z; month : Z; day : Z }.

(** Days from 1970-01-01 to a date of the proleptic Gregorian calendar. *)
Definition days_from_civil (dt : iso_date) : Z :=
  let y := if month dt <=? 2 then year dt - 1 else year dt in
  let era := y / 400 in
  let yoe := y - era * 400 in
  let mp := if 2 <? month dt then month dt - 3 else month dt + 9 in
  let doy := (153 * mp + 2) / 5 + day dt - 1 in
  let doe := yoe * 365 + yoe / 4 - yoe / 100 + doy in
  era * 146097 + doe - 719468.

(** [new Date(s).getTime()] for a date-only string: milliseconds at
    midnight UTC. *)
Definition Date_getTime (dt : iso_date) : Z := days_from_civil dt * 86400000.

(** A JavaScript number is an IEEE 754 double.  [getTime()] of a
    date-only string is an integer, a multiple of 86400000 below 2^53 in
    magnitude, so the difference of two of them and its quotient by
    86400000 are exact and the day count is computed on integers; the
    products of prices and sizes are computed on doubles. *)
Definition Number (z : Z) : PrimFloat.float :=
  if z <? 0 then PrimFloat.opp (PrimFloat.of_uint63 (Uint63.of_Z (- z)))
  else PrimFloat.of_uint63 (Uint63.of_Z z).

(** File "CreateOfferPage.tsx", the page the router mounts at
    /admin/inquiries/:inquiryId/offer/new, [loadInquiry]. *)
Module CreateOfferPage.

(** [Math.ceil((end.getTime() - start.getTime()) / (1000 * 60 * 60 * 24)) + 1;
    // Add 1 to include both start and end dates]. *)
Definition duration (start_date end_date : iso_date) : Z :=
  Qceiling (inject_Z (Date_getTime end_date - Date_getTime start_date)
            / inject_Z (1000 * 60 * 60 * 24))%Q + 1.

(** [estimatedTotal = listPrice * request.size_m2 * duration], which also
    initialises [offerTotal], the [offer_total_cents] the page submits. *)
Definition estimatedTotal (listPrice size_m2 : PrimFloat.float)
    (start_date end_date : iso_date) : PrimFloat.float :=
  PrimFloat.mul (PrimFloat.mul listPrice size_m2)
                (Number (duration start_date end_date)).

End CreateOfferPage.

(** File "CreateOfferPage copy.tsx", [loadInquiry]: an earlier copy of the
    page that no module imports. *)
Module CreateOfferPageCopy.

(** [Math.ceil((end.getTime() - start.getTime()) / (1000 * 60 * 60 * 24))]. *)
Definition duration (start_date end_date : iso_date) : Z :=
  Qceiling (inject_Z (Date_getTime end_date - Date_getTime start_date)
            / inject_Z (1000 * 60 * 60 * 24))%Q.

(** [offerPrice: matchingSpace.price_per_m2_cents * request.size_m2 * duration]. *)
Definition offerPrice (price_per_m2_cents size_m2 : PrimFloat.float)
    (start_date end_date : iso_date) : PrimFloat.float :=
  PrimFloat.mul (PrimFloat.mul price_per_m2_cents size_m2)
                (Number (duration start_date end_date)).

End CreateOfferPageCopy.


(* ------------------------------------------------------------------ *)
(** * Offers with a nullable headline figure
      (migration "Fix Offer Summaries Constraints") *)

Module NullableActual.

(** Whether [actual_offer_cents] is NOT NULL on a table of summaries:
    only the table of this migration lets it be NULL. *)
Definition actual_offer_cents_not_null (t : offer_summaries_revision) : bool :=
  match t with
  | Fix_Offer_Summaries_Constraints => false
  | _ => true
  end.

(** [save_offer_allocations(p_offer_id, p_space_allocations,
     p_service_allocations)] as this migration redefines it: the totals
    keep their initial value and the summary row is updated.  The UPDATE
    fails when it writes NULL to a row of a table on which
    [actual_offer_cents] is NOT NULL. *)
Definition save_offer_allocations
    (d : db) (auth_uid : option uuid) (now : timestamptz) (p_offer_id : uuid)
    (p_space_allocations : option (list ManualPriceFlag.space_allocation_json))
    (p_service_allocations : option (list service_json))
  : result (db * uuid) :=
  let v_space_total : bigint := 0 in
  let v_services_total : bigint := 0 in
  if negb (caller_is_administrator d auth_uid) then
    Err (Exception "Permission denied" [])
  else
    let v_offer_status :=
      option_map (fun p => bo_status (fst p)) (offer_with_inquiry d p_offer_id) in
    calc <- bigint_add v_space_total v_services_total ;;
    if existsb (fun os => os_offer_id os =? p_offer_id) (offer_summaries d)
       && is_null (match v_offer_status with
                   | Some draft => None
                   | _ => Some calc
                   end)
       && actual_offer_cents_not_null (offer_summaries_table d)
    then Err (Not_null_violation "offer_summaries.actual_offer_cents")
    else
    Ok (set_offer_summaries d
          (map (fun os =>
                  if os_offer_id os =? p_offer_id then
                    {| os_offer_id := os_offer_id os;
                       os_inquiry_id := os_inquiry_id os;
                       os_quoted_price_cents := os_quoted_price_cents os;
                       os_calculated_price_cents := Some calc;
                       os_actual_offer_cents :=
                         match v_offer_status with
                         | Some draft => None
                         | _ => Some calc
                         end;
                       os_space_total_cents := v_space_total;
                       os_services_total_cents := v_services_total;
                       os_updated_at := now |}
                  else os)
               (offer_summaries d)),
        p_offer_id).

(** [create_booking_offer(p_inquiry_id, p_total_cost_cents, p_valid_until,
     p_notes, p_spaces, p_services)].  The summary names the inquiry the
    offer names, so its foreign key to [booking_inquiries] holds once the
    one of the offer does. *)
Definition create_booking_offer
    (d : db) (auth_uid : option uuid) (now : timestamptz) (new_id : uuid)
    (p_inquiry_id : uuid) (p_total_cost_cents : bigint)
    (p_valid_until : timestamptz) (p_notes : option string)
    (p_spaces : option (list ManualPriceFlag.space_allocation_json))
    (p_services : option (list service_json))
  : result (db * uuid) :=
  match auth_uid with
  | None => Err (Exception "Permission denied" [])
  | Some uid =>
  if negb (caller_is_administrator d auth_uid) then
    Err (Exception "Permission denied" [])
  else
    let v_inquiry_estimated_cost := inquiry_estimated_cost d p_inquiry_id in
    let v_offer_id := new_id in
    if negb (inquiry_exists d p_inquiry_id) then
      Err (Foreign_key_violation "booking_offers_inquiry_id_fkey")
    else
    let d1 := set_booking_offers d
                (booking_offers d ++
                 [{| bo_id := v_offer_id;
                     bo_inquiry_id := p_inquiry_id;
                     bo_admin_id := uid;
                     bo_total_cost_cents := p_total_cost_cents;
                     bo_valid_until := p_valid_until;
                     bo_notes := p_notes;
                     bo_status := draft;
                     bo_updated_at := now |}]) in
    summaries <- insert_offer_summary d1
                   {| os_offer_id := v_offer_id;
                      os_inquiry_id := Some p_inquiry_id;
                      os_quoted_price_cents :=
                        coalesce v_inquiry_estimated_cost 0;
                      os_calculated_price_cents := Some 0;
                      os_actual_offer_cents := None;
                      os_space_total_cents := 0;
                      os_services_total_cents := 0;
                      os_updated_at := now |} ;;
    let d2 := set_offer_summaries d1 summaries in
    if negb (is_null p_spaces) || negb (is_null p_services) then
      r <- save_offer_allocations d2 auth_uid now v_offer_id p_spaces p_services ;;
      Ok (fst r, v_offer_id)
    else Ok (d2, v_offer_id)
  end.

End NullableActual.

(* ------------------------------------------------------------------ *)
(** * Responding to an offer
      (migration "Update Offer Schema and Functions", where
      [booking_offers.status] is text: 'draft', 'sent', 'accepted',
      'rejected', 'expired').  The functions of this module are modelled by
      their bodies; row triggers of that schema revision are not chained. *)

Module OfferSchema.

Record booking_inquiry : Set := { bi_id : uuid; bi_trader_id : uuid }.

Record booking_offer : Set := {
  bo_id : uuid;
  bo_inquiry_id : uuid;
  bo_status : string;
  bo_valid_until : timestamptz;
  bo_updated_at : timestamptz
}.

Record booking : Set := {
  b_inquiry_id : uuid;
  b_offer_id : uuid;
  b_status : string;
  b_created_at : timestamptz;
  b_updated_at : timestamptz
}.

Record db : Set := {
  user_roles : list user_role;
  roles : list role;
  booking_inquiries : list booking_inquiry;
  booking_offers : list booking_offer;
  bookings : list booking
}.

(** [send_booking_offer(p_offer_id uuid)] of this migration, later replaced
    by the function of "Add Offer Workflow Handling"; the boolean returned
    is FOUND. *)
Definition send_booking_offer
    (d : db) (auth_uid : option uuid) (now : timestamptz) (p_offer_id : uuid)
  : result (db * bool) :=
  if negb (is_administrator (user_roles d) (roles d) auth_uid) then
    Err (Exception "Permission denied" [])
  else
    let selected bo :=
      (bo_id bo =? p_offer_id) && String.eqb (bo_status bo) "draft" in
    Ok ({| user_roles := user_roles d;
           roles := roles d;
           booking_inquiries := booking_inquiries d;
           booking_offers :=
             map (fun bo =>
                    if selected bo then
                      {| bo_id := bo_id bo;
                         bo_inquiry_id := bo_inquiry_id bo;
                         bo_status := "sent";
                         bo_valid_until := bo_valid_until bo;
                         bo_updated_at := now |}
                    else bo) (booking_offers d);
           bookings := bookings d |},
        existsb selected (booking_offers d)).

(** [EXISTS (SELECT 1 FROM booking_offers bo
     JOIN booking_inquiries bi ON bi.id = bo.inquiry_id
     WHERE bo.id = p_offer_id AND bi.trader_id = auth.uid())]. *)
Definition caller_owns_inquiry (d : db) (auth_uid : option uuid)
    (p_offer_id : uuid) : bool :=
  match auth_uid with
  | None => false
  | Some u =>
      existsb (fun bo =>
        existsb (fun bi =>
          (bi_id bi =? bo_inquiry_id bo) && (bo_id bo =? p_offer_id)
          && (bi_trader_id bi =? u)) (booking_inquiries d))
        (booking_offers d)
  end.

(** [respond_to_offer(p_offer_id uuid, p_action text)]; the boolean
    returned is FOUND. *)
Definition respond_to_offer
    (d : db) (auth_uid : option uuid) (now : timestamptz)
    (p_offer_id : uuid) (p_action : string) : result (db * bool) :=
  if negb (String.eqb p_action "accept" || String.eqb p_action "reject") then
    Err (Exception "Invalid action. Must be either accept or reject" [])
  else if negb (caller_owns_inquiry d auth_uid p_offer_id) then
    Err (Exception "Permission denied" [])
  else
    let selected bo :=
      (bo_id bo =? p_offer_id) && String.eqb (bo_status bo) "sent" in
    let new_status :=
      if String.eqb p_action "accept" then "accepted" else "rejected" in
    let found := existsb selected (booking_offers d) in
    let offers1 :=
      map (fun bo =>
             if selected bo then
               {| bo_id := bo_id bo;
                  bo_inquiry_id := bo_inquiry_id bo;
                  bo_status := new_status;
                  bo_valid_until := bo_valid_until bo;
                  bo_updated_at := now |}
             else bo) (booking_offers d) in
    if String.eqb p_action "accept" && found then
      let inserted :=
        map (fun bo =>
               {| b_inquiry_id := bo_inquiry_id bo;
                  b_offer_id := bo_id bo;
                  b_status := "confirmed";
                  b_created_at := now;
                  b_updated_at := now |})
            (filter (fun bo => bo_id bo =? p_offer_id) offers1) in
      Ok ({| user_roles := user_roles d;
             roles := roles d;
             booking_inquiries := booking_inquiries d;
             booking_offers := offers1;
             bookings := bookings d ++ inserted |},
          negb (Nat.eqb (List.length inserted) 0))
    else
      Ok ({| user_roles := user_roles d;
             roles := roles d;
             booking_inquiries := booking_inquiries d;
             booking_offers := offers1;
             bookings := bookings d |},
          found).

End OfferSchema.


(* ------------------------------------------------------------------ *)
(** * Service allocation rows
      (migration "Update Service Allocations Table") *)

Module ServiceAllocations.

(** The columns of [offer_service_allocations] its constraints mention. *)
Record offer_service_allocation : Set := {
  pricing_type : string;
  requested_quantity : option numeric;
  allocated_quantity : option numeric;
  duration_days : option Z;
  list_price_cents : option bigint;
  offer_price_cents : option bigint;
  estimated_total_cents : option bigint;
  offer_total_cents : option bigint;
  unit_type : option string
}.

(** CONSTRAINT [pricing_type_requirements]. *)
Definition pricing_type_requirements (r : offer_service_allocation) : bool :=
  (String.eqb (pricing_type r) "hourly_rate"
     && negb (is_null (offer_price_cents r)))
  || (String.eqb (pricing_type r) "per_unit"
        && negb (is_null (offer_price_cents r))
        && negb (is_null (unit_type r)))
  || (String.eqb (pricing_type r) "fixed"
        && negb (is_null (offer_total_cents r)))
  || String.eqb (pricing_type r) "ask_quote".

End ServiceAllocations.

(* ------------------------------------------------------------------ *)
(** * Statements of the specification used for comparison *)

(** The coupling of an offer's status change to the owning inquiry's
    status, as the specification words it: the status the inquiry is set to,
    or [None] when the inquiry is left alone. *)
Definition inquiry_status_coupling (old new : unified_status)
  : option unified_status :=
  match old, new with
  | draft, offer_sent => Some offer_sent
  | offer_sent, accepted => Some accepted
  | offer_sent, rejected => Some offer_draft
  | _, _ => None
  end.

(** The message of the send guard. *)
Definition actual_not_set : exception :=
  Exception "Cannot send offer: actual_offer_cents must be set" [].

(** Ownership as the specification words it: the user is the trader of the
    inquiry behind the offer. *)
Definition trader_owns_offer (d : OfferSchema.db) (u : uuid) (p_offer_id : uuid)
  : Prop :=
  exists bo bi,
    In bo (OfferSchema.booking_offers d)
    /\ In bi (OfferSchema.booking_inquiries d)
    /\ OfferSchema.bo_id bo = p_offer_id
    /\ OfferSchema.bi_id bi = OfferSchema.bo_inquiry_id bo
    /\ OfferSchema.bi_trader_id bi = u.

(* ------------------------------------------------------------------ *)
(** * Sample data *)

(** One administrator (user 1), one trader (user 2) with inquiry 100 asking
    for 50 m2, one offer 10 on it allocating 60 m2 of space 300; the status
    of the offer and the headline figure of its summary are left open.
    With a headline figure the summary is a row of the first table of
    summaries, without one a row of the table that lets the column be
    NULL. *)
Definition sample_db (st : unified_status) (actual : option bigint) : db :=
  {| user_roles := [{| ur_user_id := 1; ur_role_id := 7 |}];
     roles := [{| r_id := 7; r_name := "administrator" |}];
     booking_inquiries :=
       [{| bi_id := 100; bi_trader_id := 2; bi_status := offer_draft;
           bi_estimated_cost_cents := Some 80000; bi_valid_until := None;
           bi_updated_at := 0 |}];
     booking_offers :=
       [{| bo_id := 10; bo_inquiry_id := 100; bo_admin_id := 1;
           bo_total_cost_cents := 90000; bo_valid_until := 5;
           bo_notes := None; bo_status := st; bo_updated_at := 0 |}];
     booking_offer_spaces :=
       [{| bos_offer_id := 10; bos_space_id := 300;
           bos_space_allocated_m2 := (60 # 1)%Q;
           bos_price_per_m2_cents := 300; bos_offer_total_cents := 90000;
           bos_is_manual_price := false; bos_comments := None |}];
     booking_offer_services := [];
     booking_offer_terms := [];
     offer_summaries_table :=
       match actual with
       | Some _ => Add_Offer_Summaries_Table
       | None => Fix_Offer_Summaries_Constraints
       end;
     offer_summaries :=
       [{| os_offer_id := 10;
           os_inquiry_id :=
             match actual with
             | Some _ => None
             | None => Some 100
             end;
           os_quoted_price_cents := 80000;
           os_calculated_price_cents := Some 90000;
           os_actual_offer_cents := actual;
           os_space_total_cents := 90000; os_services_total_cents := 0;
           os_updated_at := 0 |}];
     booking_inquiry_space_requests :=
       [{| bsr_inquiry_id := 100; bsr_size_m2 := (50 # 1)%Q |}];
     m_warehouse_spaces := [300];
     warehouse_services := [400];
     profiles := [{| pr_user_id := 2; pr_first_name := Some "Ada";
                     pr_last_name := Some "Trader" |}];
     booking_inquiry_warehouses := [];
     m_warehouses := [];
     notifications := [] |}.

(** The sample after the offer was sent at time 1000: offer and inquiry
    are at offer_sent, the inquiry is stamped, the trader has the
    notification of the trigger and the one of [send_booking_offer]. *)
Definition sent_db : db :=
  set_notifications
    (set_booking_inquiries
       (set_booking_offers (sample_db draft (Some 90000))
          [{| bo_id := 10; bo_inquiry_id := 100; bo_admin_id := 1;
              bo_total_cost_cents := 90000; bo_valid_until := 5;
              bo_notes := None; bo_status := offer_sent;
              bo_updated_at := 1000 |}])
       [{| bi_id := 100; bi_trader_id := 2; bi_status := offer_sent;
           bi_estimated_cost_cents := Some 80000;
           bi_valid_until := Some 604800001000;
           bi_updated_at := 1000 |}])
    [{| n_user_id := 2; n_type := "offer_sent";
        n_title := "New Offer Available";
        n_message := "A new offer is available for your inquiry";
        n_inquiry_id := Some 100 |};
     {| n_user_id := 2; n_type := "offer_sent";
        n_title := "New Offer Available";
        n_message := "A new offer is available for your inquiry";
        n_inquiry_id := Some 100 |}].

Definition sample_offer (st : unified_status) : booking_offer :=
  {| bo_id := 10; bo_inquiry_id := 100; bo_admin_id := 1;
     bo_total_cost_cents := 90000; bo_valid_until := 5;
     bo_notes := None; bo_status := st; bo_updated_at := 0 |}.

(** The same inquiry and offer in the schema where offer status is text. *)
Definition sample_text_db (st : string) : OfferSchema.db :=
  {| OfferSchema.user_roles := [{| ur_user_id := 1; ur_role_id := 7 |}];
     OfferSchema.roles := [{| r_id := 7; r_name := "administrator" |}];
     OfferSchema.booking_inquiries :=
       [{| OfferSchema.bi_id := 100; OfferSchema.bi_trader_id := 2 |}];
     OfferSchema.booking_offers :=
       [{| OfferSchema.bo_id := 10; OfferSchema.bo_inquiry_id := 100;
           OfferSchema.bo_status := st; OfferSchema.bo_valid_until := 5;
           OfferSchema.bo_updated_at := 0 |}];
     OfferSchema.bookings := [] |}.


(* ------------------------------------------------------------------ *)
(** * Vocabulary of the statements *)

(** The elements of a jsonb array argument, none when the argument is NULL. *)
Definition json_array {A} (o : option (list A)) : list A :=
  match o with Some l => l | None => [] end.

Definition sum_bigint (l : list bigint) : bigint := fold_right Z.add 0 l.

(** The database with one more row in [booking_offer_services]. *)
Definition add_service (d : db) (s : booking_offer_service) : db :=
  set_allocations d (booking_offer_spaces d)
    (booking_offer_services d ++ [s]) (booking_offer_terms d).

(** The space rows of an offer, whatever their size. *)
Definition offer_spaces (d : db) (p_offer_id : uuid) : list booking_offer_space :=
  filter (fun s => bos_offer_id s =? p_offer_id) (booking_offer_spaces d).

(** A service element as [save_booking_offer] receives it for a quote-only
    line that still carries a quantity, a rate and a total. *)
Definition quote_only_line : service_json :=
  {| vj_service_id := Some 400;
     vj_pricing_type := Some "ask_quote";
     vj_quantity := Some (2 # 1)%Q;
     vj_price_per_hour_cents := Some 2500;
     vj_price_per_unit_cents := None;
     vj_unit_type := None;
     vj_fixed_price_cents := None;
     vj_offer_total_cents := Some 5000;
     vj_comments := None |}.

(** A space element allocating 60 m2 of space 300 for 90,000 cents. *)
Definition sample_space_line : space_json :=
  {| sj_space_id := Some 300;
     sj_space_allocated_m2 := Some (60 # 1)%Q;
     sj_price_per_m2_cents := Some 300;
     sj_offer_total_cents := Some 90000;
     sj_is_manual_price := Some false;
     sj_comments := None |}.

(** The summary rows of an offer. *)
Definition summaries_of (d : db) (p_offer_id : uuid) : list offer_summary :=
  filter (fun os => os_offer_id os =? p_offer_id) (offer_summaries d).


(** Inputs [update_booking_offer] accepts: every space and service element
    names an existing space or service, pricing types are among the four
    allowed, terms are complete. *)
Definition spaces_exist (d : db) (l : list space_json) : Prop :=
  forall v, In v l ->
    exists sid, sj_space_id v = Some sid /\ In sid (m_warehouse_spaces d).

Definition services_exist (d : db) (l : list service_json) : Prop :=
  forall v, In v l ->
    (exists sid, vj_service_id v = Some sid /\ In sid (warehouse_services d))
    /\ pricing_type_check (coalesce (vj_pricing_type v) "ask_quote") = true.

Definition terms_complete (l : list term_json) : Prop :=
  forall v, In v l ->
    exists ty de, tj_term_type v = Some ty /\ tj_description v = Some de.

(** Line totals are non-negative and their sum is a bigint. *)
Definition totals_fit (sp : list space_json) (sv : list service_json) : Prop :=
  (forall v, In v sp -> 0 <= coalesce (sj_offer_total_cents v) 0)
  /\ (forall v, In v sv -> 0 <= coalesce (vj_offer_total_cents v) 0)
  /\ sum_bigint (map (fun v => coalesce (sj_offer_total_cents v) 0) sp)
     + sum_bigint (map (fun v => coalesce (vj_offer_total_cents v) 0) sv)
     < 2 ^ 63.

(** A space element allocating 10 m2 of space 300 for 50,000 cents. *)
Definition other_space_line : space_json :=
  {| sj_space_id := Some 300;
     sj_space_allocated_m2 := Some (10 # 1)%Q;
     sj_price_per_m2_cents := Some 5000;
     sj_offer_total_cents := Some 50000;
     sj_is_manual_price := Some true;
     sj_comments := None |}.

(* ------------------------------------------------------------------ *)
(** * The transition trigger with classified messages
      (migration "Add Status Transition Function") *)

Module StatusTransitionFunction.

(** Column [valid] of the validation query. *)
Definition valid (OLD_status NEW_status : unified_status) (v_is_admin : bool)
  : bool :=
  if status_eqb NEW_status OLD_status then true
  else if v_is_admin then
    match OLD_status with
    | submitted => status_in NEW_status [under_review; cancelled]
    | under_review => status_in NEW_status [offer_draft; cancelled]
    | offer_draft => status_in NEW_status [offer_sent; cancelled]
    | changes_requested => status_in NEW_status [offer_draft; cancelled]
    | accepted => status_in NEW_status [confirmed; cancelled]
    | confirmed => status_in NEW_status [completed; cancelled]
    | completed => status_eqb NEW_status archived
    | _ => false
    end
  else
    match OLD_status with
    | draft => status_in NEW_status [submitted; cancelled]
    | offer_sent => status_in NEW_status [accepted; rejected; changes_requested]
    | _ => false
    end.

(** Column [error_message] of the validation query. *)
Definition error_message (OLD_status NEW_status : unified_status)
    (v_is_admin : bool) : option string :=
  if status_eqb NEW_status OLD_status then None
  else if negb v_is_admin && negb (status_in OLD_status [draft; offer_sent]) then
    Some "You cannot change the status at this stage"
  else if v_is_admin
          && negb (status_in OLD_status
                     [submitted; under_review; offer_draft; changes_requested;
                      accepted; confirmed; completed]) then
    Some "Invalid status transition for administrator"
  else Some "Invalid status transition".

(** The row returned for writing, or
    [RAISE EXCEPTION 'Invalid status transition: %', v_error_message]. *)
Inductive outcome : Set :=
  | Returned (NEW : status_row)
  | Raised (fmt : string) (v_error_message : option string).

(** Trigger function [handle_status_transition()] of this migration. *)
Definition handle_status_transition
    (user_roles : list user_role) (roles : list role) (auth_uid : option uuid)
    (now : timestamptz) (OLD NEW : status_row) : outcome :=
  let v_is_admin := is_administrator user_roles roles auth_uid in
  let v_valid := valid (sr_status OLD) (sr_status NEW) v_is_admin in
  let v_error_message :=
    error_message (sr_status OLD) (sr_status NEW) v_is_admin in
  if negb v_valid then Raised "Invalid status transition: %" v_error_message
  else
    let NEW1 :=
      match sr_status NEW with
      | offer_sent =>
          {| sr_status := sr_status NEW;
             sr_valid_until := Some (now + interval_7_days);
             sr_updated_at := sr_updated_at NEW |}
      | expired =>
          {| sr_status := sr_status NEW;
             sr_valid_until := None;
             sr_updated_at := sr_updated_at NEW |}
      | _ => NEW
      end in
    Returned {| sr_status := sr_status NEW1;
                sr_valid_until := sr_valid_until NEW1;
                sr_updated_at := now |}.

End StatusTransitionFunction.

(** The statuses a row can be brought to from [s] by a chain of status
    changes each of which [validate_status_transition] permits to some
    role. *)
Inductive reachable (s : unified_status) : unified_status -> Prop :=
  | reach_here : reachable s s
  | reach_step (t u : unified_status) (is_admin : bool) :
      reachable s t ->
      validate_status_transition t u is_admin = true ->
      reachable s u.

(* ------------------------------------------------------------------ *)
(** * Notifications on inquiry status (migration "Add Unified Status
      Workflow") *)

(** The labels of the enum [notification_type], the type of
    [notifications.type] (migration "Add Notification System"). *)
Definition notification_type : list string :=
  [ "inquiry_submitted"; "inquiry_under_review"; "offer_draft"; "offer_sent";
    "changes_requested"; "inquiry_accepted"; "inquiry_rejected";
    "inquiry_cancelled"; "inquiry_expired"; "booking_confirmed";
    "booking_completed" ].

(** What the trigger function ends with: the tables with the rows inserted,
    or the error of the INSERT: a literal that is no label of the enum of
    the column, or NULL in a NOT NULL column. *)
Inductive notification_outcome : Set :=
  | Inserted (d : db)
  | Invalid_input_value_for_enum (enum label : string)
  | Null_value_in_column (column : string).

(** [INSERT INTO notifications (user_id, type, title, message, inquiry_id)
     SELECT admin_id, ty, title, message, NEW.id FROM unnest(v_admin_ids)];
    the literal [ty] is cast to the type of the column when the statement
    is prepared, whatever the number of rows. *)
Definition notify_admins (d : db) (ty title message : string)
    (inquiry_id : uuid) : notification_outcome :=
  if negb (existsb (String.eqb ty) notification_type) then
    Invalid_input_value_for_enum "notification_type" ty
  else
    Inserted
      (set_notifications d
         (notifications d ++
          map (fun admin_id =>
                 {| n_user_id := admin_id;
                    n_type := ty;
                    n_title := title;
                    n_message := message;
                    n_inquiry_id := Some inquiry_id |})
              (v_admin_ids d))).

(** Trigger function [handle_status_notification()], AFTER UPDATE OF status
    on [booking_inquiries]. *)
Definition handle_status_notification (d : db) (NEW : booking_inquiry)
  : notification_outcome :=
  let v_trader_id :=
    option_map bi_trader_id
      (find (fun i => bi_id i =? bi_id NEW) (booking_inquiries d)) in
  match bi_status NEW with
  | submitted =>
      notify_admins d "inquiry_submitted" "New Inquiry Submitted"
        "A new inquiry requires your attention" (bi_id NEW)
  | offer_sent =>
      if negb (existsb (String.eqb "offer_sent") notification_type) then
        Invalid_input_value_for_enum "notification_type" "offer_sent"
      else
        match v_trader_id with
        | None => Null_value_in_column "user_id"
        | Some t =>
            Inserted
              (set_notifications d
                 (notifications d ++
                  [{| n_user_id := t;
                      n_type := "offer_sent";
                      n_title := "New Offer Available";
                      n_message := "A new offer is available for your inquiry";
                      n_inquiry_id := Some (bi_id NEW) |}]))
        end
  | changes_requested =>
      notify_admins d "changes_requested" "Changes Requested"
        "A trader has requested changes to an offer" (bi_id NEW)
  | accepted =>
      notify_admins d "offer_accepted" "Offer Accepted"
        "A trader has accepted an offer" (bi_id NEW)
  | _ => Inserted d
  end.

(* ------------------------------------------------------------------ *)
(** * Read status of messages (migration "Add Message Read Status
      Tracking") *)

Module MessageReadStatus.

Record booking_message : Set := {
  m_id : uuid;
  m_inquiry_id : uuid;
  m_sender_id : uuid;
  m_message : string;
  m_created_at : timestamptz
}.

(** The columns of [profiles] that [get_booking_messages] reads. *)
Record profile : Set := {
  p_user_id : uuid;
  p_contact_email : option string;
  p_first_name : option string;
  p_last_name : option string
}.

(** A row of [message_read_status], UNIQUE(message_id, user_id). *)
Record read_status : Set := {
  rs_message_id : uuid;
  rs_user_id : uuid
}.

Record db : Set := {
  user_roles : list user_role;
  roles : list role;
  profiles : list profile;
  booking_inquiries : list booking_inquiry;
  booking_messages : list booking_message;
  message_read_status : list read_status
}.

(** [EXISTS (SELECT 1 FROM message_read_status rs
     WHERE rs.message_id = message_id AND rs.user_id = user_id)]. *)
Definition is_read (l : list read_status) (message_id user_id : uuid) : bool :=
  existsb (fun rs => (rs_message_id rs =? message_id)
                     && (rs_user_id rs =? user_id)) l.

(** The errors of the INSERT: NULL in a NOT NULL column, or a row whose
    [message_id] is the id of no message. *)
Inductive error : Set :=
  | Null_value_in_column (column : string)
  | Foreign_key_violation (constraint : string).

(** [INSERT ... SELECT unnest(p_message_ids), auth.uid()
     ON CONFLICT (message_id, user_id) DO NOTHING]: a proposed row is
    skipped when the pair is present already, also from an earlier element
    of the same array; a row that is inserted must reference a row of
    [booking_messages]. *)
Fixpoint insert_read_status (messages : list booking_message)
    (l : list read_status) (ids : list uuid) (u : uuid)
  : list read_status + error :=
  match ids with
  | [] => inl l
  | id :: rest =>
      if is_read l id u then insert_read_status messages l rest u
      else if negb (existsb (fun m => m_id m =? id) messages) then
        inr (Foreign_key_violation "message_read_status_message_id_fkey")
      else insert_read_status messages
             (l ++ [{| rs_message_id := id; rs_user_id := u |}]) rest u
  end.

(** [mark_messages_read(p_message_ids uuid[])]; a user [auth.uid()] names
    is a row of [auth.users]. *)
Definition mark_messages_read (d : db) (auth_uid : option uuid)
    (p_message_ids : list uuid) : db + error :=
  match p_message_ids, auth_uid with
  | [], _ => inl d
  | _ :: _, None => inr (Null_value_in_column "user_id")
  | _ :: _, Some u =>
      match insert_read_status (booking_messages d) (message_read_status d)
              p_message_ids u with
      | inl l =>
          inl {| user_roles := user_roles d;
                 roles := roles d;
                 profiles := profiles d;
                 booking_inquiries := booking_inquiries d;
                 booking_messages := booking_messages d;
                 message_read_status := l |}
      | inr e => inr e
      end
  end.

(** The WHERE clause of [get_unread_message_count]. *)
Definition counted (d : db) (p_user_id : uuid) (m : booking_message) : bool :=
  negb (m_sender_id m =? p_user_id)
  && existsb (fun bi =>
                (bi_id bi =? m_inquiry_id m)
                && ((bi_trader_id bi =? p_user_id)
                    || is_administrator (user_roles d) (roles d) (Some p_user_id)))
             (booking_inquiries d)
  && negb (is_read (message_read_status d) (m_id m) p_user_id).

(** [get_unread_message_count(p_user_id uuid)]. *)
Definition get_unread_message_count (d : db) (p_user_id : uuid) : bigint :=
  Z.of_nat (List.length (filter (counted d p_user_id) (booking_messages d))).

(** The jsonb object [sender_info]. *)
Record sender_info : Set := {
  si_id : uuid;
  si_email : option string;
  si_first_name : option string;
  si_last_name : option string;
  si_is_admin : bool
}.

(** A row of the table [get_booking_messages] returns. *)
Record message_row : Set := {
  mr_id : uuid;
  mr_inquiry_id : uuid;
  mr_sender_id : uuid;
  mr_message : string;
  mr_created_at : timestamptz;
  mr_sender_info : sender_info;
  mr_is_read : bool
}.

(** [ORDER BY m.created_at ASC], as a stable insertion sort; the order
    among rows of equal [created_at] is not fixed by the query. *)
Fixpoint insert_by_created_at (r : message_row) (l : list message_row)
  : list message_row :=
  match l with
  | [] => [r]
  | x :: rest =>
      if mr_created_at r <=? mr_created_at x then r :: l
      else x :: insert_by_created_at r rest
  end.

Definition order_by_created_at (l : list message_row) : list message_row :=
  fold_right insert_by_created_at [] l.

(** The row selected for message [m] joined with profile [p], for the
    caller [auth_uid]. *)
Definition select_row (d : db) (auth_uid : option uuid)
    (m : booking_message) (p : profile) : message_row :=
  {| mr_id := m_id m;
     mr_inquiry_id := m_inquiry_id m;
     mr_sender_id := m_sender_id m;
     mr_message := m_message m;
     mr_created_at := m_created_at m;
     mr_sender_info :=
       {| si_id := p_user_id p;
          si_email := p_contact_email p;
          si_first_name := p_first_name p;
          si_last_name := p_last_name p;
          si_is_admin :=
            is_administrator (user_roles d) (roles d) (Some (m_sender_id m)) |};
     mr_is_read :=
       match auth_uid with
       | Some u => is_read (message_read_status d) (m_id m) u
       | None => false
       end |}.

(** [booking_messages m JOIN profiles p ON p.user_id = m.sender_id
     WHERE m.inquiry_id = p_inquiry_id]. *)
Definition joined_rows (d : db) (auth_uid : option uuid) (p_inquiry_id : uuid)
  : list message_row :=
  flat_map (fun m =>
              map (select_row d auth_uid m)
                  (filter (fun p => p_user_id p =? m_sender_id m) (profiles d)))
           (filter (fun m => m_inquiry_id m =? p_inquiry_id) (booking_messages d)).

(** [get_booking_messages(p_inquiry_id uuid)]. *)
Definition get_booking_messages (d : db) (auth_uid : option uuid)
    (p_inquiry_id : uuid) : result (list message_row) :=
  if negb (existsb (fun bi =>
                      (bi_id bi =? p_inquiry_id)
                      && (match auth_uid with
                          | Some u => bi_trader_id bi =? u
                          | None => false
                          end
                          || is_administrator (user_roles d) (roles d) auth_uid))
                   (booking_inquiries d))
  then Err (Exception "Access denied" [])
  else Ok (order_by_created_at (joined_rows d auth_uid p_inquiry_id)).

End MessageReadStatus.

(** A message table for examples: user 1 wrote message 100 on the inquiry
    of trader 2; [read] is the content of [message_read_status]. *)
Definition sample_messages (read : list MessageReadStatus.read_status)
  : MessageReadStatus.db :=
  {| MessageReadStatus.user_roles := [];
     MessageReadStatus.roles := [];
     MessageReadStatus.profiles :=
       [{| MessageReadStatus.p_user_id := 1;
           MessageReadStatus.p_contact_email := None;
           MessageReadStatus.p_first_name := Some "Ada";
           MessageReadStatus.p_last_name := None |}];
     MessageReadStatus.booking_inquiries :=
       [{| bi_id := 10; bi_trader_id := 2; bi_status := submitted;
           bi_estimated_cost_cents := None; bi_valid_until := None;
           bi_updated_at := 0 |}];
     MessageReadStatus.booking_messages :=
       [{| MessageReadStatus.m_id := 100;
           MessageReadStatus.m_inquiry_id := 10;
           MessageReadStatus.m_sender_id := 1;
           MessageReadStatus.m_message := "hello";
           MessageReadStatus.m_created_at := 5 |}];
     MessageReadStatus.message_read_status := read |}.

(** The tables as [update_booking_offer] leaves them when its loops have
    inserted the rows [sp], [sv], [tm] and added the totals up to [st], [svt]
    and [calc]. *)
Definition replaced_offer (d : db) (now : timestamptz) (p_offer_id : uuid)
    (p_total_cost_cents : bigint) (p_valid_until : timestamptz)
    (p_notes : option string)
    (sp : list booking_offer_space) (sv : list booking_offer_service)
    (tm : list booking_offer_term) (st svt calc : bigint) : db :=
  {| user_roles := user_roles d;
     roles := roles d;
     booking_inquiries := booking_inquiries d;
     booking_offers :=
       map (fun o => if bo_id o =? p_offer_id
                     then set_offer_header p_total_cost_cents p_valid_until
                            p_notes now o
                     else o)
           (booking_offers d);
     booking_offer_spaces :=
       filter (fun s => negb (bos_offer_id s =? p_offer_id))
              (booking_offer_spaces d) ++ sp;
     booking_offer_services :=
       filter (fun s => negb (bsv_offer_id s =? p_offer_id))
              (booking_offer_services d) ++ sv;
     booking_offer_terms :=
       filter (fun t => negb (bot_offer_id t =? p_offer_id))
              (booking_offer_terms d) ++ tm;
     offer_summaries_table := offer_summaries_table d;
     offer_summaries :=
       upsert_offer_summary (offer_summaries d) now p_offer_id
         (coalesce match offer_with_inquiry d p_offer_id with
                   | Some q => bi_estimated_cost_cents (snd q)
                   | None => None
                   end 0)
         calc (Some p_total_cost_cents) st svt;
     booking_inquiry_space_requests := booking_inquiry_space_requests d;
     m_warehouse_spaces := m_warehouse_spaces d;
     warehouse_services := warehouse_services d;
     profiles := profiles d;
     booking_inquiry_warehouses := booking_inquiry_warehouses d;
     m_warehouses := m_warehouses d;
     notifications := notifications d |}.

(** The exact amount of one space element, as [space_line_total] computes
    it before the running total is cast back to bigint. *)
Definition line_amount (v_space : ManualPriceFlag.space_allocation_json)
  : numeric :=
  match ManualPriceFlag.space_line_total v_space with
  | Ok (Some a) => a
  | _ => (0 # 1)%Q
  end.

(** A list-priced element whose amount is half a cent: 0.5 m2 of space 300
    for one day at 1 cent; and the row it is stored as. *)
Definition half_cent_line : ManualPriceFlag.space_allocation_json :=
  {| ManualPriceFlag.space_id := Some 300;
     ManualPriceFlag.space_request_id := Some 500;
     ManualPriceFlag.space_type_id := Some 7;
     ManualPriceFlag.requested_size_m2 := Some (1 # 2)%Q;
     ManualPriceFlag.allocated_size_m2 := Some (1 # 2)%Q;
     ManualPriceFlag.duration_days := Some 1;
     ManualPriceFlag.list_price_per_m2_cents := Some 1;
     ManualPriceFlag.offer_price_per_m2_cents := None;
     ManualPriceFlag.estimated_total_cents := Some 1;
     ManualPriceFlag.offer_total_cents := Some 1;
     ManualPriceFlag.is_offer_price_manual := Some false;
     ManualPriceFlag.comments := None |}.

Definition half_cent_row : ManualPriceFlag.offer_space_allocation :=
  {| ManualPriceFlag.osa_offer_id := 10;
     ManualPriceFlag.osa_space_id := 300;
     ManualPriceFlag.osa_space_request_id := 500;
     ManualPriceFlag.osa_space_type_id := 7;
     ManualPriceFlag.osa_requested_size_m2 := (1 # 2)%Q;
     ManualPriceFlag.osa_allocated_size_m2 := (1 # 2)%Q;
     ManualPriceFlag.osa_duration_days := 1;
     ManualPriceFlag.osa_list_price_per_m2_cents := 1;
     ManualPriceFlag.osa_offer_price_per_m2_cents := 1;
     ManualPriceFlag.osa_estimated_total_cents := 1;
     ManualPriceFlag.osa_offer_total_cents := 1;
     ManualPriceFlag.osa_is_offer_price_manual := false;
     ManualPriceFlag.osa_comments := None |}.




(** A returned message row with its [is_read] flag set. *)
Definition marked_read (r : MessageReadStatus.message_row)
  : MessageReadStatus.message_row :=
  {| MessageReadStatus.mr_id := MessageReadStatus.mr_id r;
     MessageReadStatus.mr_inquiry_id := MessageReadStatus.mr_inquiry_id r;
     MessageReadStatus.mr_sender_id := MessageReadStatus.mr_sender_id r;
     MessageReadStatus.mr_message := MessageReadStatus.mr_message r;
     MessageReadStatus.mr_created_at := MessageReadStatus.mr_created_at r;
     MessageReadStatus.mr_sender_info := MessageReadStatus.mr_sender_info r;
     MessageReadStatus.mr_is_read := true |}.

(** The inquiry row an admitted write of status [s] at time [now] leaves:
    the status and [updated_at] of the UPDATE, and the [valid_until] the
    BEFORE trigger assigns. *)
Definition written_inquiry (i : booking_inquiry) (s : unified_status)
    (now : timestamptz) : booking_inquiry :=
  {| bi_id := bi_id i;
     bi_trader_id := bi_trader_id i;
     bi_status := s;
     bi_estimated_cost_cents := bi_estimated_cost_cents i;
     bi_valid_until :=
       match s with
       | offer_sent => Some (now + 604800000000)
       | expired => None
       | _ => bi_valid_until i
       end;
     bi_updated_at := now |}.

(** The first selected row whose transition the status machine refuses. *)
Definition refused_inquiry (d : db) (auth_uid : option uuid)
    (inquiry_id : uuid) (s : unified_status) (rows : list booking_inquiry)
  : option booking_inquiry :=
  find (fun i =>
          (bi_id i =? inquiry_id)
          && negb (validate_status_transition (bi_status i) s
                     (caller_is_administrator d auth_uid)))
       rows.

(** The error of the transition trigger. *)
Definition invalid_status_transition (old new : unified_status) : exception :=
  Exception "Invalid status transition from % to %"
    [AStatus old; AStatus new].

(** The errors a write of an inquiry row can end in: the refusal of the
    transition trigger, or the notification trigger finding no user to
    notify. *)
Definition inquiry_write_error (e : exception) : Prop :=
  (exists old new, e = invalid_status_transition old new)
  \/ e = Not_null_violation "notifications.user_id".

(** The notification [send_booking_offer] and the notification trigger
    insert for the trader. *)
Definition offer_sent_notification (trader_id inquiry_id : uuid)
  : notification :=
  {| n_user_id := trader_id;
     n_type := "offer_sent";
     n_title := "New Offer Available";
     n_message := "A new offer is available for your inquiry";
     n_inquiry_id := Some inquiry_id |}.

(** A result with a function applied to the tables it carries. *)
Definition result_map (g : db -> db) (r : result db) : result db :=
  match r with
  | Ok d => Ok (g d)
  | Err e => Err e
  end.


(** The tables a successful send of a draft offer leaves: the draft rows of
    the offer are at offer_sent, the rows of its inquiry are written with
    status offer_sent, and the trader has two notifications, the one of the
    notification trigger and the one of [send_booking_offer]. *)
Definition offer_rows_sent (p : uuid) (now : timestamptz)
    (l : list booking_offer) : list booking_offer :=
  map (fun x => if (bo_id x =? p) && status_eqb (bo_status x) draft
                then set_offer_status offer_sent now x else x) l.

Definition inquiry_rows_written (inquiry_id : uuid) (s : unified_status)
    (now : timestamptz) (l : list booking_inquiry) : list booking_inquiry :=
  map (fun x => if bi_id x =? inquiry_id then written_inquiry x s now else x) l.

Definition sent_offer (d : db) (now : timestamptz) (p inquiry_id trader_id : uuid)
    (added : list notification) : db :=
  set_notifications
    (set_booking_inquiries
       (set_booking_offers d (offer_rows_sent p now (booking_offers d)))
       (inquiry_rows_written inquiry_id offer_sent now (booking_inquiries d)))
    (notifications d ++ added).

(** The sample with a second space row of the offer whose size is negative:
    60 m2 and -20 m2 against the 50 m2 the inquiry asks for. *)
Definition negative_row_db : db :=
  set_allocations (sample_db draft (Some 90000))
    [{| bos_offer_id := 10; bos_space_id := 300;
        bos_space_allocated_m2 := (60 # 1)%Q;
        bos_price_per_m2_cents := 300; bos_offer_total_cents := 90000;
        bos_is_manual_price := false; bos_comments := None |};
     {| bos_offer_id := 10; bos_space_id := 300;
        bos_space_allocated_m2 := (-20 # 1)%Q;
        bos_price_per_m2_cents := 300; bos_offer_total_cents := 0;
        bos_is_manual_price := false; bos_comments := None |}]
    [] [].

(** The service and term rows of an offer. *)
Definition offer_services (d : db) (p_offer_id : uuid)
  : list booking_offer_service :=
  filter (fun s => bsv_offer_id s =? p_offer_id) (booking_offer_services d).

Definition offer_terms (d : db) (p_offer_id : uuid) : list booking_offer_term :=
  filter (fun t => bot_offer_id t =? p_offer_id) (booking_offer_terms d).

(** The row a term element is inserted as. *)
Definition term_row (p_offer_id : uuid) (v : term_json) : booking_offer_term :=
  {| bot_offer_id := p_offer_id;
     bot_term_type := coalesce (tj_term_type v) "";
     bot_description := coalesce (tj_description v) "" |}.

(* ================================================================== *)
(** * Properties *)

Lemma status_eqb_eq (a b : unified_status) : status_eqb a b = true <-> a = b.
Proof. destruct a, b; simpl; split; intro H; try reflexivity; discriminate H. Qed.

Lemma status_eqb_refl (a : unified_status) : status_eqb a a = true.
Proof. apply status_eqb_eq; reflexivity. Qed.

(** C1. [validate_status_transition old new is_admin] is true exactly when
    [old = new] or [(old, new)] is a row of the transition table of the
    actor's role; in every other case the transition trigger raises
    'Invalid status transition from % to %' with the offending pair as its
    arguments, so no row is returned for writing. *)
Theorem validate_status_transition_table :
  forall (old new : unified_status) (is_admin : bool),
    (validate_status_transition old new is_admin = true
       <-> old = new \/ In (old, new) (transition_table is_admin))
    /\ (~ (old = new \/ In (old, new) (transition_table is_admin)) ->
        forall urs rs uid now OLD NEW,
          is_administrator urs rs uid = is_admin ->
          sr_status OLD = old -> sr_status NEW = new ->
          handle_status_transition urs rs uid now OLD NEW
          = Err (Exception "Invalid status transition from % to %"
                   [AStatus old; AStatus new])).
Proof.
  intros old new is_admin.
  assert (Hiff : validate_status_transition old new is_admin = true
                 <-> old = new \/ In (old, new) (transition_table is_admin)).
  { destruct is_admin, old, new; simpl; split; intro H;
      try reflexivity; try discriminate H;
      try (left; reflexivity);
      try (right; simpl; intuition congruence);
      try (exfalso; destruct H as [H | H]; [discriminate H |];
           simpl in H; intuition congruence). }
  split; [exact Hiff |].
  intros Hno urs rs uid now OLD NEW Hadm Hold Hnew.
  unfold handle_status_transition.
  rewrite Hadm, Hold, Hnew.
  destruct (validate_status_transition old new is_admin) eqn:E.
  - exfalso. apply Hno. apply Hiff. reflexivity.
  - reflexivity.
Qed.

(** C8. On a permitted transition the trigger returns the row to write:
    entering [offer_sent] stamps [valid_until] with the current time plus
    seven days, which is 604800000000 microseconds; entering [expired] sets
    it to NULL; any other target status leaves it as the UPDATE supplied
    it. *)
Theorem handle_status_transition_valid_until :
  forall urs rs uid now OLD NEW,
    validate_status_transition (sr_status OLD) (sr_status NEW)
      (is_administrator urs rs uid) = true ->
    exists row,
      handle_status_transition urs rs uid now OLD NEW = Ok row
      /\ sr_status row = sr_status NEW
      /\ (sr_status NEW = offer_sent ->
          sr_valid_until row = Some (now + 604800000000))
      /\ (sr_status NEW = expired -> sr_valid_until row = None)
      /\ (sr_status NEW <> offer_sent -> sr_status NEW <> expired ->
          sr_valid_until row = sr_valid_until NEW).
Proof.
  intros urs rs uid now OLD NEW Hv.
  unfold handle_status_transition. rewrite Hv. simpl.
  eexists. split; [reflexivity |].
  destruct NEW as [st vu ua]; simpl in *.
  destruct st; simpl; repeat split; intros; try reflexivity;
    try discriminate; try congruence.
Qed.

Lemma handle_status_transition_valid_until_witness :
  (exists row,
     handle_status_transition
       [{| ur_user_id := 1; ur_role_id := 7 |}]
       [{| r_id := 7; r_name := "administrator" |}]
       (Some 1) 1000
       {| sr_status := offer_draft; sr_valid_until := None; sr_updated_at := 0 |}
       {| sr_status := offer_sent; sr_valid_until := Some 5; sr_updated_at := 0 |}
     = Ok row
     /\ sr_valid_until row = Some 604800001000)
  /\ (exists row,
        handle_status_transition [] [] (Some 2) 1000
          {| sr_status := expired; sr_valid_until := Some 5; sr_updated_at := 0 |}
          {| sr_status := expired; sr_valid_until := Some 5; sr_updated_at := 0 |}
        = Ok row
        /\ sr_valid_until row = None)
  /\ (exists row,
        handle_status_transition [] [] (Some 2) 1000
          {| sr_status := offer_sent; sr_valid_until := Some 5; sr_updated_at := 0 |}
          {| sr_status := accepted; sr_valid_until := Some 5; sr_updated_at := 0 |}
        = Ok row
        /\ sr_valid_until row = Some 5).
Proof.
  split; [| split].
  - destruct (handle_status_transition_valid_until
                [{| ur_user_id := 1; ur_role_id := 7 |}]
                [{| r_id := 7; r_name := "administrator" |}]
                (Some 1) 1000
                {| sr_status := offer_draft; sr_valid_until := None;
                   sr_updated_at := 0 |}
                {| sr_status := offer_sent; sr_valid_until := Some 5;
                   sr_updated_at := 0 |}
                eq_refl) as [row [H1 [_ [H3 _]]]].
    exists row. split; [exact H1 | apply H3; reflexivity].
  - destruct (handle_status_transition_valid_until [] [] (Some 2) 1000
                {| sr_status := expired; sr_valid_until := Some 5;
                   sr_updated_at := 0 |}
                {| sr_status := expired; sr_valid_until := Some 5;
                   sr_updated_at := 0 |}
                eq_refl) as [row [H1 [_ [_ [H4 _]]]]].
    exists row. split; [exact H1 | apply H4; reflexivity].
  - destruct (handle_status_transition_valid_until [] [] (Some 2) 1000
                {| sr_status := offer_sent; sr_valid_until := Some 5;
                   sr_updated_at := 0 |}
                {| sr_status := accepted; sr_valid_until := Some 5;
                   sr_updated_at := 0 |}
                eq_refl) as [row [H1 [_ [_ [_ H5]]]]].
    exists row. split; [exact H1 | apply H5; discriminate].
Defined.

Lemma validate_status_transition_table_witness :
  handle_status_transition
    [] [] (Some 1) 1000
    {| sr_status := offer_sent; sr_valid_until := None; sr_updated_at := 0 |}
    {| sr_status := offer_draft; sr_valid_until := None; sr_updated_at := 0 |}
  = Err (Exception "Invalid status transition from % to %"
           [AStatus offer_sent; AStatus offer_draft]).
Proof.
  apply (proj2 (validate_status_transition_table offer_sent offer_draft false)).
  - intros [H | H]; [discriminate H |].
    simpl in H. intuition congruence.
  - reflexivity.
  - reflexivity.
  - reflexivity.
Defined.

(* ------------------------------------------------------------------ *)
(** ** Writes of inquiry rows through the triggers of the table *)

Lemma status_transition_trigger_eq (d : db) uid now (i : booking_inquiry) s :
  status_transition_trigger d uid now i (with_inquiry_status i s now)
  = if validate_status_transition (bi_status i) s
         (caller_is_administrator d uid)
    then Ok (written_inquiry i s now)
    else Err (invalid_status_transition (bi_status i) s).
Proof.
  unfold status_transition_trigger, handle_status_transition,
    caller_is_administrator, invalid_status_transition.
  cbn [inquiry_status_row with_inquiry_status sr_status bi_status].
  destruct (validate_status_transition (bi_status i) s
              (is_administrator (user_roles d) (roles d) uid));
    [| reflexivity].
  destruct s; reflexivity.
Qed.

(** The UPDATE of inquiry rows as a whole: it raises at the first selected
    row the status machine refuses, and otherwise writes every selected
    row. *)
Lemma update_inquiry_rows_eq (d : db) uid now id s (rows : list booking_inquiry) :
  update_inquiry_rows d uid now id s rows
  = match refused_inquiry d uid id s rows with
    | Some i => Err (invalid_status_transition (bi_status i) s)
    | None =>
        Ok (map (fun i => if bi_id i =? id then written_inquiry i s now else i)
                rows,
            map (fun i => (i, written_inquiry i s now))
                (filter (fun i => bi_id i =? id) rows))
    end.
Proof.
  unfold refused_inquiry.
  induction rows as [| i rows IH]; [reflexivity |].
  cbn [update_inquiry_rows find filter map].
  destruct (bi_id i =? id); cbn [andb].
  - rewrite status_transition_trigger_eq.
    destruct (validate_status_transition (bi_status i) s
                (caller_is_administrator d uid)); cbn [negb bind];
      [| reflexivity].
    rewrite IH. destruct (find _ rows); reflexivity.
  - rewrite IH. destruct (find _ rows); reflexivity.
Qed.

Lemma create_status_notification_cases (d : db) id s :
  (exists l,
      create_status_notification d id s
      = Ok (set_notifications d (notifications d ++ l)))
  \/ create_status_notification d id s
     = Err (Not_null_violation "notifications.user_id").
Proof.
  assert (Hsame : set_notifications d (notifications d ++ []) = d).
  { rewrite app_nil_r. destruct d; reflexivity. }
  unfold create_status_notification, insert_notification,
    insert_admin_notifications.
  destruct s;
    try (left; exists []; rewrite Hsame; reflexivity);
    try (left; eexists; reflexivity);
    destruct (option_map _ (hd_error (inquiry_details_rows d id)));
    try (left; eexists; reflexivity); right; reflexivity.
Qed.

Lemma after_inquiry_triggers_cases (fired : list (booking_inquiry * booking_inquiry)) :
  forall d,
    (exists l,
        after_row_triggers handle_inquiry_status_notification fired d
        = Ok (set_notifications d (notifications d ++ l)))
    \/ after_row_triggers handle_inquiry_status_notification fired d
       = Err (Not_null_violation "notifications.user_id").
Proof.
  unfold after_row_triggers.
  assert (Herr : forall (l : list (booking_inquiry * booking_inquiry)) e,
             fold_left (fun acc p =>
                          d' <- acc ;;
                          handle_inquiry_status_notification d' (fst p) (snd p))
                       l (Err e) = Err e).
  { induction l as [| p l IH]; intro e; [reflexivity | apply IH]. }
  induction fired as [| p fired IH]; intro d.
  - left. exists []. rewrite app_nil_r. destruct d; reflexivity.
  - cbn [fold_left bind].
    assert (Hstep :
      (exists l, handle_inquiry_status_notification d (fst p) (snd p)
                 = Ok (set_notifications d (notifications d ++ l)))
      \/ handle_inquiry_status_notification d (fst p) (snd p)
         = Err (Not_null_violation "notifications.user_id")).
    { unfold handle_inquiry_status_notification.
      destruct (negb _); [apply create_status_notification_cases |].
      left. exists []. rewrite app_nil_r. destruct d; reflexivity. }
    destruct Hstep as [[l Hl] | He].
    + rewrite Hl.
      destruct (IH (set_notifications d (notifications d ++ l)))
        as [[l' Hl'] | He'].
      * left. exists (l ++ l'). rewrite Hl'.
        cbn [notifications set_notifications]. rewrite app_assoc. reflexivity.
      * right. exact He'.
    + rewrite He. right. apply Herr.
Qed.

(** What a write of inquiry rows ends in: the refusal of the first row the
    status machine does not admit, or every selected row written and the
    notifications of the AFTER trigger appended, or that trigger's error. *)
Lemma update_inquiry_status_cases (d : db) uid now id s :
  match refused_inquiry d uid id s (booking_inquiries d) with
  | Some i =>
      update_inquiry_status d uid now id s
      = Err (invalid_status_transition (bi_status i) s)
  | None =>
      (exists l,
          update_inquiry_status d uid now id s
          = Ok (set_notifications
                  (set_booking_inquiries d
                     (map (fun i => if bi_id i =? id
                                    then written_inquiry i s now else i)
                          (booking_inquiries d)))
                  (notifications d ++ l)))
      \/ update_inquiry_status d uid now id s
         = Err (Not_null_violation "notifications.user_id")
  end.
Proof.
  unfold update_inquiry_status. rewrite update_inquiry_rows_eq.
  destruct (refused_inquiry d uid id s (booking_inquiries d)); [reflexivity |].
  cbn [bind fst snd].
  match goal with
  | |- context [after_row_triggers _ ?f ?d1] =>
      destruct (after_inquiry_triggers_cases f d1) as [[l Hl] | He]
  end.
  - left. exists l. rewrite Hl. reflexivity.
  - right. exact He.
Qed.

Lemma update_inquiry_status_error (d : db) uid now id s e :
  update_inquiry_status d uid now id s = Err e -> inquiry_write_error e.
Proof.
  intro H. pose proof (update_inquiry_status_cases d uid now id s) as C.
  destruct (refused_inquiry d uid id s (booking_inquiries d)) as [i |].
  - rewrite C in H. injection H as <-. left. eexists. eexists. reflexivity.
  - destruct C as [[l C] | C]; rewrite C in H; [discriminate H |].
    injection H as <-. right. reflexivity.
Qed.

Lemma update_inquiry_status_ok (d d' : db) uid now id s :
  update_inquiry_status d uid now id s = Ok d' ->
  refused_inquiry d uid id s (booking_inquiries d) = None
  /\ exists l,
       d' = set_notifications
              (set_booking_inquiries d
                 (map (fun i => if bi_id i =? id
                                then written_inquiry i s now else i)
                      (booking_inquiries d)))
              (notifications d ++ l).
Proof.
  intro H. pose proof (update_inquiry_status_cases d uid now id s) as C.
  destruct (refused_inquiry d uid id s (booking_inquiries d)) as [i |].
  - rewrite C in H. discriminate H.
  - split; [reflexivity |].
    destruct C as [[l C] | C]; rewrite C in H; [| discriminate H].
    injection H as <-. exists l. reflexivity.
Qed.

Lemma bind_ret {A} (r : result A) : bind r (fun a => Ok a) = r.
Proof. destruct r; reflexivity. Qed.

Lemma after_row_triggers_err {R : Type} (f : db -> R -> R -> result db)
    (fired : list (R * R)) (e : exception) :
  fold_left (fun acc p => d' <- acc ;; f d' (fst p) (snd p)) fired (Err e)
  = Err e.
Proof. induction fired as [| p fired IH]; [reflexivity | apply IH]. Qed.

Lemma after_row_triggers_cons {R : Type} (f : db -> R -> R -> result db)
    (p : R * R) (fired : list (R * R)) (d : db) :
  after_row_triggers f (p :: fired) d
  = d' <- f d (fst p) (snd p) ;; after_row_triggers f fired d'.
Proof.
  unfold after_row_triggers. cbn [fold_left bind].
  destruct (f d (fst p) (snd p)) as [d' | e]; cbn [bind]; [reflexivity |].
  apply after_row_triggers_err.
Qed.

Lemma after_row_triggers_commute {R : Type} (f : db -> R -> R -> result db)
    (g : db -> db) :
  (forall d a b, f (g d) a b = result_map g (f d a b)) ->
  forall fired d,
    after_row_triggers f fired (g d)
    = result_map g (after_row_triggers f fired d).
Proof.
  intros Hf. induction fired as [| p fired IH]; intro d; [reflexivity |].
  rewrite !after_row_triggers_cons, Hf.
  destruct (f d (fst p) (snd p)) as [d' | e]; cbn [result_map bind];
    [apply IH | reflexivity].
Qed.

Lemma after_row_triggers_error {R : Type} (f : db -> R -> R -> result db)
    (P : exception -> Prop) :
  (forall d a b e, f d a b = Err e -> P e) ->
  forall fired d e, after_row_triggers f fired d = Err e -> P e.
Proof.
  intros Hf. induction fired as [| p fired IH]; intros d e H.
  - discriminate H.
  - rewrite after_row_triggers_cons in H.
    destruct (f d (fst p) (snd p)) as [d' | e'] eqn:E; cbn [bind] in H.
    + exact (IH d' e H).
    + injection H as <-. exact (Hf _ _ _ _ E).
Qed.

Lemma map_if_same {A} (f : A -> bool) (l : list A) :
  map (fun x => if f x then x else x) l = l.
Proof.
  induction l as [| x l IH]; cbn [map]; [reflexivity |].
  rewrite IH. destruct (f x); reflexivity.
Qed.

(** The trigger function of [booking_offers] issues the write of the
    coupling table and no other. *)
Lemma update_inquiry_status_on_offer_eq (d : db) uid now OLD NEW :
  update_inquiry_status_on_offer d uid now OLD NEW
  = match inquiry_status_coupling (bo_status OLD) (bo_status NEW) with
    | Some s => update_inquiry_status d uid now (bo_inquiry_id NEW) s
    | None => Ok d
    end.
Proof.
  unfold update_inquiry_status_on_offer.
  destruct (bo_status OLD), (bo_status NEW);
    cbn [status_eqb andb inquiry_status_coupling bind];
    try reflexivity;
    try (destruct (update_inquiry_status d uid now (bo_inquiry_id NEW) _);
         reflexivity).
Qed.

Lemma update_inquiry_status_on_offer_error (d : db) uid now OLD NEW e :
  update_inquiry_status_on_offer d uid now OLD NEW = Err e ->
  inquiry_write_error e.
Proof.
  rewrite update_inquiry_status_on_offer_eq.
  destruct (inquiry_status_coupling _ _); intro H;
    [exact (update_inquiry_status_error _ _ _ _ _ _ H) | discriminate H].
Qed.

Lemma inquiry_write_error_not_guard (e : exception) :
  inquiry_write_error e -> e <> actual_not_set.
Proof.
  intros [[old [new ->]] | ->]; unfold actual_not_set,
    invalid_status_transition; intro H; discriminate H.
Qed.

Lemma find_all_false {A} (f : A -> bool) (l : list A) :
  (forall x, In x l -> f x = false) -> find f l = None.
Proof.
  induction l as [| x l IH]; intro H; cbn [find]; [reflexivity |].
  rewrite (H x (or_introl eq_refl)). apply IH. intros y Hy. apply H.
  right. exact Hy.
Qed.

Lemma filter_singleton_in {A} (f : A -> bool) (l : list A) (a x : A) :
  filter f l = [a] -> In x l -> f x = true -> x = a.
Proof.
  intros Hf Hx Hfx.
  assert (H : In x (filter f l)) by (apply filter_In; split; assumption).
  rewrite Hf in H. destruct H as [<- | []]. reflexivity.
Qed.

Lemma filter_singleton_self {A} (f : A -> bool) (l : list A) (a : A) :
  filter f l = [a] -> In a l /\ f a = true.
Proof.
  intro Hf. apply filter_In. rewrite Hf. left. reflexivity.
Qed.

Lemma filter_written (l : list booking_inquiry) (id : uuid) s now :
  filter (fun i => bi_id i =? id)
         (map (fun i => if bi_id i =? id then written_inquiry i s now else i) l)
  = map (fun i => written_inquiry i s now) (filter (fun i => bi_id i =? id) l).
Proof.
  induction l as [| i l IH]; [reflexivity |].
  cbn [map filter]. destruct (bi_id i =? id) eqn:E.
  - cbn [written_inquiry bi_id]. rewrite E. cbn [map]. rewrite IH. reflexivity.
  - rewrite E. exact IH.
Qed.

Lemma refused_inquiry_unique (d : db) uid id s (i : booking_inquiry) :
  filter (fun x => bi_id x =? id) (booking_inquiries d) = [i] ->
  refused_inquiry d uid id s (booking_inquiries d)
  = if validate_status_transition (bi_status i) s
         (caller_is_administrator d uid)
    then None else Some i.
Proof.
  intro Hf. unfold refused_inquiry.
  destruct (validate_status_transition (bi_status i) s
              (caller_is_administrator d uid)) eqn:Hv.
  - apply find_all_false. intros x Hx.
    destruct (bi_id x =? id) eqn:E; [| reflexivity].
    rewrite (filter_singleton_in _ _ _ _ Hf Hx E), Hv. reflexivity.
  - destruct (find _ (booking_inquiries d)) as [x |] eqn:Efind.
    + apply find_some in Efind. destruct Efind as [Hx Hp].
      apply andb_prop in Hp. destruct Hp as [E _].
      rewrite (filter_singleton_in _ _ _ _ Hf Hx E). reflexivity.
    + exfalso. destruct (filter_singleton_self _ _ _ Hf) as [Hin E].
      apply (find_none _ _ Efind) in Hin. cbv beta in Hin.
      rewrite E, Hv in Hin. discriminate Hin.
Qed.

(** The write of the one inquiry row with a given id. *)
Lemma update_inquiry_status_unique (d : db) uid now id s (i : booking_inquiry) :
  filter (fun x => bi_id x =? id) (booking_inquiries d) = [i] ->
  update_inquiry_status d uid now id s
  = if validate_status_transition (bi_status i) s
         (caller_is_administrator d uid)
    then
      let d1 :=
        set_booking_inquiries d
          (map (fun x => if bi_id x =? id then written_inquiry x s now else x)
               (booking_inquiries d)) in
      if negb (status_eqb s (bi_status i))
      then create_status_notification d1 id s
      else Ok d1
    else Err (invalid_status_transition (bi_status i) s).
Proof.
  intro Hf. unfold update_inquiry_status.
  rewrite update_inquiry_rows_eq, (refused_inquiry_unique d uid id s i Hf).
  destruct (validate_status_transition (bi_status i) s
              (caller_is_administrator d uid)); [| reflexivity].
  cbn [bind fst snd]. rewrite Hf. cbn [map].
  rewrite after_row_triggers_cons. cbn [fst snd].
  unfold handle_inquiry_status_notification.
  cbn [written_inquiry bi_status bi_id].
  destruct (filter_singleton_self _ _ _ Hf) as [_ Hid].
  apply Z.eqb_eq in Hid. rewrite Hid.
  destruct (negb (status_eqb s (bi_status i))); cbn [bind].
  - apply bind_ret.
  - reflexivity.
Qed.

Lemma inquiry_details_first (d : db) id (i : booking_inquiry) :
  filter (fun x => bi_id x =? id) (booking_inquiries d) = [i] ->
  option_map (fun r => bi_trader_id (id_inquiry r))
             (hd_error (inquiry_details_rows d id))
  = if existsb (fun p => pr_user_id p =? bi_trader_id i) (profiles d)
    then Some (bi_trader_id i) else None.
Proof.
  intro Hf. unfold inquiry_details_rows. rewrite Hf.
  cbn [flat_map]. rewrite app_nil_r.
  induction (profiles d) as [| p ps IH]; [reflexivity |].
  cbn [filter existsb]. destruct (pr_user_id p =? bi_trader_id i);
    cbn [orb]; [| exact IH].
  cbn [flat_map].
  destruct (filter (fun biw => biw_inquiry_id biw =? bi_id i)
                   (booking_inquiry_warehouses d)) as [| biw biws];
    [reflexivity |].
  cbn [flat_map].
  destruct (filter (fun w => w_id w =? biw_warehouse_id biw) (m_warehouses d));
    reflexivity.
Qed.

(** The notification trigger on the one inquiry row with a given id, for
    status offer_sent: one notification for the trader, who must have a
    profile. *)
Lemma create_status_notification_offer_sent (d : db) id (i : booking_inquiry) :
  filter (fun x => bi_id x =? id) (booking_inquiries d) = [i] ->
  create_status_notification d id offer_sent
  = if existsb (fun p => pr_user_id p =? bi_trader_id i) (profiles d)
    then Ok (set_notifications d
               (notifications d ++
                [offer_sent_notification (bi_trader_id i) id]))
    else Err (Not_null_violation "notifications.user_id").
Proof.
  intro Hf. unfold create_status_notification.
  rewrite (inquiry_details_first d id i Hf).
  destruct (existsb _ (profiles d)); reflexivity.
Qed.


(** [sent_db] is what sending the draft of the sample at time 1000
    leaves. *)
Remark send_booking_offer_sample :
  send_booking_offer (sample_db draft (Some 90000)) (Some 1) 1000 10
  = Ok (sent_db, true).
Proof. vm_compute. reflexivity. Qed.

(** C10.  The AFTER UPDATE OF status trigger on [booking_offers] issues a
    write of the owning inquiry exactly by the coupling table: draft to
    offer_sent writes offer_sent, offer_sent to accepted writes accepted,
    offer_sent to rejected writes offer_draft, and any other pair writes
    nothing.  The write goes through the transition trigger of
    [booking_inquiries]: where it is admitted, every row of the inquiry gets
    the status of the table; while the inquiry is at offer_sent, where a
    sent offer leaves it, the write of offer_draft is refused for every
    caller with 'Invalid status transition from offer_sent to offer_draft',
    so a rejection does not set the inquiry to offer_draft. *)
Theorem update_inquiry_status_on_offer_coupling :
  forall d uid now OLD NEW,
    update_inquiry_status_on_offer d uid now OLD NEW
    = match inquiry_status_coupling (bo_status OLD) (bo_status NEW) with
      | Some s => update_inquiry_status d uid now (bo_inquiry_id NEW) s
      | None => Ok d
      end
    /\ (forall d',
          update_inquiry_status_on_offer d uid now OLD NEW = Ok d' ->
          booking_inquiries d'
          = map (fun i =>
                   if bi_id i =? bo_inquiry_id NEW then
                     match inquiry_status_coupling (bo_status OLD)
                             (bo_status NEW) with
                     | Some s => written_inquiry i s now
                     | None => i
                     end
                   else i)
                (booking_inquiries d))
    /\ (bo_status OLD = offer_sent -> bo_status NEW = rejected ->
        forall i,
          In i (booking_inquiries d) -> bi_id i = bo_inquiry_id NEW ->
          (forall j, In j (booking_inquiries d) ->
                     bi_id j = bo_inquiry_id NEW -> bi_status j = offer_sent) ->
          update_inquiry_status_on_offer d uid now OLD NEW
          = Err (invalid_status_transition offer_sent offer_draft)).
Proof.
  intros d uid now OLD NEW.
  split; [apply update_inquiry_status_on_offer_eq |].
  split.
  - intros d' H. rewrite update_inquiry_status_on_offer_eq in H.
    destruct (inquiry_status_coupling (bo_status OLD) (bo_status NEW)) as [s |].
    + apply update_inquiry_status_ok in H. destruct H as [_ [l ->]].
      reflexivity.
    + injection H as <-. symmetry.
      apply (map_if_same (fun i => bi_id i =? bo_inquiry_id NEW)).
  - intros Hold Hnew i Hi Hid Hall.
    rewrite update_inquiry_status_on_offer_eq, Hold, Hnew.
    cbn [inquiry_status_coupling].
    pose proof (update_inquiry_status_cases d uid now (bo_inquiry_id NEW)
                  offer_draft) as C.
    destruct (refused_inquiry d uid (bo_inquiry_id NEW) offer_draft
                (booking_inquiries d)) as [j |] eqn:E.
    + rewrite C. unfold refused_inquiry in E. apply find_some in E.
      destruct E as [Hj Hp]. apply andb_prop in Hp. destruct Hp as [Hjid _].
      apply Z.eqb_eq in Hjid. rewrite (Hall j Hj Hjid). reflexivity.
    + exfalso. unfold refused_inquiry in E.
      pose proof (find_none _ _ E i Hi) as Hn. cbv beta in Hn.
      rewrite (Hall i Hi Hid) in Hn. apply Z.eqb_eq in Hid. rewrite Hid in Hn.
      destruct (caller_is_administrator d uid); discriminate Hn.
Qed.

Lemma update_inquiry_status_on_offer_coupling_witness :
  update_inquiry_status_on_offer sent_db (Some 2) 2000
    (sample_offer offer_sent) (sample_offer rejected)
  = Err (Exception "Invalid status transition from % to %"
           [AStatus offer_sent; AStatus offer_draft])
  /\ update_inquiry_status_on_offer sent_db (Some 1) 2000
       (sample_offer offer_sent) (sample_offer rejected)
     = Err (Exception "Invalid status transition from % to %"
              [AStatus offer_sent; AStatus offer_draft]).
Proof.
  split.
  - refine (proj2 (proj2 (update_inquiry_status_on_offer_coupling
                            sent_db (Some 2) 2000
                            (sample_offer offer_sent) (sample_offer rejected)))
              eq_refl eq_refl _ (or_introl eq_refl) eq_refl _).
    intros j [<- | []] _. reflexivity.
  - refine (proj2 (proj2 (update_inquiry_status_on_offer_coupling
                            sent_db (Some 1) 2000
                            (sample_offer offer_sent) (sample_offer rejected)))
              eq_refl eq_refl _ (or_introl eq_refl) eq_refl _).
    intros j [<- | []] _. reflexivity.
Defined.

(* ------------------------------------------------------------------ *)
(** ** The send guard on [booking_offers] *)







(* ------------------------------------------------------------------ *)
(** ** Responding to an offer *)

Lemma caller_owns_inquiry_false (d : OfferSchema.db) (auth_uid : option uuid)
    (p : uuid) :
  (forall u, auth_uid = Some u -> ~ trader_owns_offer d u p) ->
  OfferSchema.caller_owns_inquiry d auth_uid p = false.
Proof.
  intro H. unfold OfferSchema.caller_owns_inquiry.
  destruct auth_uid as [u |]; [| reflexivity].
  destruct (existsb _ (OfferSchema.booking_offers d)) eqn:E; [| reflexivity].
  exfalso. apply (H u eq_refl).
  apply existsb_exists in E. destruct E as [bo [Hbo E]].
  apply existsb_exists in E. destruct E as [bi [Hbi E]].
  apply andb_prop in E. destruct E as [E E3].
  apply andb_prop in E. destruct E as [E1 E2].
  exists bo, bi. repeat split; try assumption.
  - apply Z.eqb_eq. exact E2.
  - apply Z.eqb_eq. exact E1.
  - apply Z.eqb_eq. exact E3.
Qed.

Lemma caller_owns_inquiry_true (d : OfferSchema.db) (u p : uuid) :
  trader_owns_offer d u p ->
  OfferSchema.caller_owns_inquiry d (Some u) p = true.
Proof.
  intros [bo [bi [Hbo [Hbi [H1 [H2 H3]]]]]].
  unfold OfferSchema.caller_owns_inquiry.
  apply existsb_exists. exists bo. split; [exact Hbo |].
  apply existsb_exists. exists bi. split; [exact Hbi |].
  rewrite H1, H2, H3, !Z.eqb_refl. reflexivity.
Qed.

(** C9. For an action of accept or reject, a caller who is not the trader of
    the inquiry behind the offer gets 'Permission denied' and nothing is
    written, whatever the status of the offer.  When the owning trader
    accepts an offer whose status is 'sent', the call returns true and a
    booking row with status 'confirmed' linked to the offer and its inquiry
    is inserted. *)
Theorem respond_to_offer_owner_only :
  forall d auth_uid now p action,
    action = "accept" \/ action = "reject" ->
    ((forall u, auth_uid = Some u -> ~ trader_owns_offer d u p) ->
       OfferSchema.respond_to_offer d auth_uid now p action
       = Err (Exception "Permission denied" [])
       /\ commit d (OfferSchema.respond_to_offer d auth_uid now p action) = d)
    /\ (forall u bo bi,
          auth_uid = Some u -> action = "accept" ->
          In bo (OfferSchema.booking_offers d) ->
          In bi (OfferSchema.booking_inquiries d) ->
          OfferSchema.bo_id bo = p ->
          OfferSchema.bi_id bi = OfferSchema.bo_inquiry_id bo ->
          OfferSchema.bi_trader_id bi = u ->
          OfferSchema.bo_status bo = "sent" ->
          exists d',
            OfferSchema.respond_to_offer d auth_uid now p action = Ok (d', true)
            /\ In {| OfferSchema.b_inquiry_id := OfferSchema.bo_inquiry_id bo;
                     OfferSchema.b_offer_id := p;
                     OfferSchema.b_status := "confirmed";
                     OfferSchema.b_created_at := now;
                     OfferSchema.b_updated_at := now |}
                  (OfferSchema.bookings d')).
Proof.
  intros d auth_uid now p action Hact.
  assert (Hvalid : negb (String.eqb action "accept" || String.eqb action "reject")
                   = false).
  { destruct Hact as [-> | ->]; reflexivity. }
  split.
  - intro Hnot. unfold OfferSchema.respond_to_offer.
    rewrite Hvalid, (caller_owns_inquiry_false d auth_uid p Hnot).
    split; reflexivity.
  - intros u bo bi -> -> Hbo Hbi Hid Hinq Htr Hsent.
    unfold OfferSchema.respond_to_offer.
    rewrite Hvalid.
    rewrite caller_owns_inquiry_true by (exists bo, bi; repeat split; assumption).
    cbn [negb].
    change (String.eqb "accept" "accept") with true.
    cbn [andb].
    assert (Hsel : (OfferSchema.bo_id bo =? p)
                   && String.eqb (OfferSchema.bo_status bo) "sent" = true).
    { rewrite Hid, Hsent, Z.eqb_refl. reflexivity. }
    assert (Hfound : existsb (fun bo0 => (OfferSchema.bo_id bo0 =? p)
                        && String.eqb (OfferSchema.bo_status bo0) "sent")
                       (OfferSchema.booking_offers d) = true).
    { apply existsb_exists. exists bo. split; assumption. }
    rewrite Hfound.
    match goal with
    | |- context [List.length ?l] => set (inserted := l)
    end.
    assert (Hrow : In {| OfferSchema.b_inquiry_id := OfferSchema.bo_inquiry_id bo;
                         OfferSchema.b_offer_id := p;
                         OfferSchema.b_status := "confirmed";
                         OfferSchema.b_created_at := now;
                         OfferSchema.b_updated_at := now |} inserted).
    { unfold inserted. apply in_map_iff.
      exists {| OfferSchema.bo_id := OfferSchema.bo_id bo;
                OfferSchema.bo_inquiry_id := OfferSchema.bo_inquiry_id bo;
                OfferSchema.bo_status := "accepted";
                OfferSchema.bo_valid_until := OfferSchema.bo_valid_until bo;
                OfferSchema.bo_updated_at := now |}.
      split; [simpl; rewrite Hid; reflexivity |].
      apply filter_In. split; [| simpl; rewrite Hid; apply Z.eqb_refl].
      apply in_map_iff. exists bo. split; [| exact Hbo].
      rewrite Hsel. reflexivity. }
    assert (Hlen : negb (Nat.eqb (List.length inserted) 0) = true).
    { destruct inserted; [contradiction | reflexivity]. }
    rewrite Hlen.
    eexists. split; [reflexivity |].
    simpl. apply in_or_app. right. exact Hrow.
Qed.

Lemma respond_to_offer_owner_only_witness :
  OfferSchema.respond_to_offer (sample_text_db "sent") (Some 3) 1000 10 "accept"
  = Err (Exception "Permission denied" [])
  /\ exists d',
       OfferSchema.respond_to_offer (sample_text_db "sent") (Some 2) 1000 10 "accept"
       = Ok (d', true).
Proof.
  split.
  - refine (proj1 (proj1 (respond_to_offer_owner_only
                            (sample_text_db "sent") (Some 3) 1000 10 "accept"
                            (or_introl eq_refl)) _)).
    intros u Hu [bo [bi [Hbo [Hbi [_ [_ Htr]]]]]].
    injection Hu as <-. simpl in Hbi. destruct Hbi as [<- | []].
    simpl in Htr. discriminate Htr.
  - destruct (proj2 (respond_to_offer_owner_only
                       (sample_text_db "sent") (Some 2) 1000 10 "accept"
                       (or_introl eq_refl))
                    2
                    {| OfferSchema.bo_id := 10; OfferSchema.bo_inquiry_id := 100;
                       OfferSchema.bo_status := "sent";
                       OfferSchema.bo_valid_until := 5;
                       OfferSchema.bo_updated_at := 0 |}
                    {| OfferSchema.bi_id := 100; OfferSchema.bi_trader_id := 2 |}
                    eq_refl eq_refl (or_introl eq_refl) (or_introl eq_refl)
                    eq_refl eq_refl eq_refl eq_refl) as [d' [H _]].
    exists d'. exact H.
Defined.

(* ------------------------------------------------------------------ *)
(** ** Space line totals and the day count *)

Example days_from_civil_epoch :
  days_from_civil {| year := 1970; month := 1; day := 1 |} = 0.
Proof. reflexivity. Qed.

Example days_from_civil_2025 :
  days_from_civil {| year := 2025; month := 1; day := 10 |}
  - days_from_civil {| year := 2025; month := 1; day := 1 |} = 9.
Proof. reflexivity. Qed.







(** On doubles the product of the page is the rounded one: it is the exact
    product when that is an integer below 2^53, as in the example, and can
    differ from it otherwise. *)
Remark estimatedTotal_is_a_double :
  CreateOfferPage.estimatedTotal (Number 1)
    (PrimFloat.div (Number 1) (Number 10))
    {| year := 2025; month := 1; day := 1 |}
    {| year := 2025; month := 1; day := 3 |}
  = PrimFloat.div (Number 30000000000000004) (Number 100000000000000000).
Proof. vm_compute. reflexivity. Qed.

(** The copy of the page that nothing imports leaves the added day out. *)
Remark CreateOfferPageCopy_one_day_short (s e : iso_date) :
  CreateOfferPage.duration s e = CreateOfferPageCopy.duration s e + 1.
Proof. reflexivity. Qed.

(* ------------------------------------------------------------------ *)
(** ** Totals written by [save_booking_offer] *)

Lemma bigint_add_ok (a b c : bigint) : bigint_add a b = Ok c -> c = a + b.
Proof.
  unfold bigint_add. destruct (bigint_in_range (a + b)); intro H;
    [injection H as <-; reflexivity | discriminate H].
Qed.

Lemma bind_ok {A B} (r : result A) (k : A -> result B) (b : B) :
  bind r k = Ok b -> exists a, r = Ok a /\ k a = Ok b.
Proof.
  destruct r as [a | e]; simpl; intro H; [exists a; split; [reflexivity | exact H] |].
  discriminate H.
Qed.

Lemma insert_booking_offer_space_ok (d : db) row rows rows' :
  insert_booking_offer_space d row rows = Ok rows' ->
  rows' = rows ++ [row]
  /\ offer_exists d (bos_offer_id row) = true
  /\ existsb (Z.eqb (bos_space_id row)) (m_warehouse_spaces d) = true.
Proof.
  unfold insert_booking_offer_space.
  destruct (offer_exists d (bos_offer_id row)); cbn [negb];
    [| intro H; discriminate H].
  destruct (existsb (Z.eqb (bos_space_id row)) (m_warehouse_spaces d));
    cbn [negb]; intro H; [| discriminate H].
  injection H as <-. repeat split.
Qed.

Lemma insert_booking_offer_service_ok (d : db) row rows rows' :
  insert_booking_offer_service d row rows = Ok rows' ->
  rows' = rows ++ [row]
  /\ pricing_type_check (bsv_pricing_type row) = true
  /\ offer_exists d (bsv_offer_id row) = true.
Proof.
  unfold insert_booking_offer_service.
  destruct (pricing_type_check (bsv_pricing_type row)); cbn [negb];
    [| intro H; discriminate H].
  destruct (offer_exists d (bsv_offer_id row)); cbn [negb]; intro H;
    [| discriminate H].
  injection H as <-. repeat split.
Qed.

Lemma insert_booking_offer_term_ok (d : db) row rows rows' :
  insert_booking_offer_term d row rows = Ok rows' ->
  rows' = rows ++ [row] /\ offer_exists d (bot_offer_id row) = true.
Proof.
  unfold insert_booking_offer_term.
  destruct (offer_exists d (bot_offer_id row)); cbn [negb]; intro H;
    [| discriminate H].
  injection H as <-. split; reflexivity.
Qed.

Lemma insert_offer_summary_ok (d : db) row rows' :
  insert_offer_summary d row = Ok rows' ->
  rows' = offer_summaries d ++ [row]
  /\ check_offer_summary d row = Ok tt
  /\ offer_exists d (os_offer_id row) = true.
Proof.
  unfold insert_offer_summary. intro H.
  destruct (check_offer_summary d row) as [[] | e]; cbn [bind] in H;
    [| discriminate H].
  destruct (offer_exists d (os_offer_id row)); cbn [negb] in H;
    [| discriminate H].
  injection H as <-. repeat split.
Qed.

Lemma save_spaces_total (d : db) (p : uuid) (l : list space_json) :
  forall rows t rows' t',
    save_spaces d p l rows t = Ok (rows', t') ->
    t' = t + sum_bigint (map (fun v => coalesce (sj_offer_total_cents v) 0) l).
Proof.
  induction l as [| v l IH]; intros rows t rows' t' H; simpl in H.
  - injection H as _ <-. simpl. lia.
  - destruct (sj_space_id v) as [sid |]; [| discriminate H].
    apply bind_ok in H. destruct H as [rows1 [_ H]].
    apply bind_ok in H. destruct H as [t1 [H1 H2]].
    apply bigint_add_ok in H1. apply IH in H2. simpl. lia.
Qed.

Lemma save_services_total (d : db) (p : uuid) (l : list service_json) :
  forall rows t rows' t',
    save_services d p l rows t = Ok (rows', t') ->
    t' = t + sum_bigint (map (fun v => coalesce (vj_offer_total_cents v) 0) l).
Proof.
  induction l as [| v l IH]; intros rows t rows' t' H; simpl in H.
  - injection H as _ <-. simpl. lia.
  - destruct (vj_service_id v) as [sid |]; [| discriminate H].
    apply bind_ok in H. destruct H as [rows1 [_ H]].
    apply bind_ok in H. destruct H as [t1 [H1 H2]].
    apply bigint_add_ok in H1. apply IH in H2. simpl. lia.
Qed.

(** What a successful [save_booking_offer] appends to [offer_summaries]. *)
Lemma save_booking_offer_summary
    d uid now new_id p_inquiry_id p_total p_valid p_notes
    p_spaces p_services p_terms d' id :
  save_booking_offer d uid now new_id p_inquiry_id p_total p_valid p_notes
    p_spaces p_services p_terms = Ok (d', id) ->
  id = new_id
  /\ offer_summaries d'
     = (offer_summaries d ++
       [{| os_offer_id := new_id;
           os_inquiry_id := None;
           os_quoted_price_cents := coalesce (inquiry_estimated_cost d p_inquiry_id) 0;
           os_calculated_price_cents :=
             Some (sum_bigint (map (fun v => coalesce (sj_offer_total_cents v) 0)
                                   (json_array p_spaces))
                   + sum_bigint (map (fun v => coalesce (vj_offer_total_cents v) 0)
                                     (json_array p_services)));
           os_actual_offer_cents := Some p_total;
           os_space_total_cents :=
             sum_bigint (map (fun v => coalesce (sj_offer_total_cents v) 0)
                             (json_array p_spaces));
           os_services_total_cents :=
             sum_bigint (map (fun v => coalesce (vj_offer_total_cents v) 0)
                             (json_array p_services));
           os_updated_at := now |}])%list.
Proof.
  unfold save_booking_offer. intro H.
  destruct uid as [u |]; [| discriminate H].
  destruct (negb (caller_is_administrator d (Some u))); [discriminate H |].
  destruct (negb (inquiry_exists d p_inquiry_id)); [discriminate H |].
  apply bind_ok in H. destruct H as [[sprows sptot] [Hsp H]].
  apply bind_ok in H. destruct H as [[svrows svtot] [Hsv H]].
  apply bind_ok in H. destruct H as [tm [Htm H]].
  apply bind_ok in H. destruct H as [calc [Hcalc H]].
  apply bind_ok in H. destruct H as [summaries [Hsum H]].
  apply bigint_add_ok in Hcalc. simpl in Hcalc.
  apply insert_offer_summary_ok in Hsum. destruct Hsum as [-> _].
  injection H as <- <-.
  assert (Esp : sptot = sum_bigint (map (fun v => coalesce (sj_offer_total_cents v) 0)
                                        (json_array p_spaces))).
  { destruct p_spaces as [l |]; simpl in Hsp |- *.
    - apply save_spaces_total in Hsp. lia.
    - injection Hsp as _ <-. reflexivity. }
  assert (Esv : svtot = sum_bigint (map (fun v => coalesce (vj_offer_total_cents v) 0)
                                        (json_array p_services))).
  { destruct p_services as [l |]; simpl in Hsv |- *.
    - apply save_services_total in Hsv. lia.
    - injection Hsv as _ <-. reflexivity. }
  split; [reflexivity |].
  simpl. rewrite Hcalc, Esp, Esv. reflexivity.
Qed.

(* ------------------------------------------------------------------ *)
(** ** Quote-only service lines and sending *)

Lemma existsb_app_last {A} (f : A -> bool) (l : list A) (a : A) :
  f a = false -> existsb f (l ++ [a]) = existsb f l.
Proof.
  intro H. rewrite existsb_app. simpl. rewrite H.
  rewrite !orb_false_r. reflexivity.
Qed.

Lemma validate_offer_for_send_add_service (d : db) (s : booking_offer_service)
    (p : uuid) :
  bsv_pricing_type s = "ask_quote" ->
  validate_offer_for_send (add_service d s) p = validate_offer_for_send d p.
Proof.
  intro Hq. unfold validate_offer_for_send.
  change (booking_offers (add_service d s)) with (booking_offers d).
  change (allocated_spaces (add_service d s) p) with (allocated_spaces d p).
  change (total_requested (add_service d s)) with (total_requested d).
  change (booking_offer_services (add_service d s))
    with (booking_offer_services d ++ [s])%list.
  rewrite existsb_app_last; [reflexivity |].
  rewrite Hq. simpl. rewrite andb_false_r. reflexivity.
Qed.

Lemma update_offer_rows_add_service (d : db) (s : booking_offer_service)
    where_ set (rows : list booking_offer) :
  update_offer_rows (add_service d s) where_ set rows
  = update_offer_rows d where_ set rows.
Proof.
  induction rows as [| o rows IH]; simpl; [reflexivity |].
  rewrite IH. reflexivity.
Qed.

Lemma update_inquiry_rows_add_service (d : db) (s : booking_offer_service)
    uid now id st (rows : list booking_inquiry) :
  update_inquiry_rows (add_service d s) uid now id st rows
  = update_inquiry_rows d uid now id st rows.
Proof. rewrite !update_inquiry_rows_eq. reflexivity. Qed.

Lemma create_status_notification_add_service (d : db)
    (s : booking_offer_service) id st :
  create_status_notification (add_service d s) id st
  = result_map (fun d' => add_service d' s) (create_status_notification d id st).
Proof.
  unfold create_status_notification, insert_notification.
  change (inquiry_details_rows (add_service d s) id)
    with (inquiry_details_rows d id).
  destruct st; try reflexivity;
    destruct (option_map _ (hd_error (inquiry_details_rows d id)));
    reflexivity.
Qed.

Lemma update_inquiry_status_add_service (d : db) (s : booking_offer_service)
    uid now id st :
  update_inquiry_status (add_service d s) uid now id st
  = result_map (fun d' => add_service d' s)
      (update_inquiry_status d uid now id st).
Proof.
  unfold update_inquiry_status.
  change (booking_inquiries (add_service d s)) with (booking_inquiries d).
  rewrite update_inquiry_rows_add_service.
  destruct (update_inquiry_rows d uid now id st (booking_inquiries d))
    as [r | e]; cbn [bind]; [| reflexivity].
  change (set_booking_inquiries (add_service d s) (fst r))
    with (add_service (set_booking_inquiries d (fst r)) s).
  apply (after_row_triggers_commute handle_inquiry_status_notification
           (fun d' => add_service d' s)).
  intros d0 OLD NEW. unfold handle_inquiry_status_notification.
  destruct (negb _); [apply create_status_notification_add_service |].
  reflexivity.
Qed.

Lemma update_inquiry_status_on_offer_add_service
    (d : db) (s : booking_offer_service) uid now OLD NEW :
  update_inquiry_status_on_offer (add_service d s) uid now OLD NEW
  = result_map (fun d' => add_service d' s)
      (update_inquiry_status_on_offer d uid now OLD NEW).
Proof.
  rewrite !update_inquiry_status_on_offer_eq.
  destruct (inquiry_status_coupling (bo_status OLD) (bo_status NEW));
    [apply update_inquiry_status_add_service | reflexivity].
Qed.

Lemma update_booking_offers_add_service (d : db) (s : booking_offer_service)
    uid now of_status where_ set :
  update_booking_offers (add_service d s) uid now of_status where_ set
  = match update_booking_offers d uid now of_status where_ set with
    | Ok (d', b) => Ok (add_service d' s, b)
    | Err e => Err e
    end.
Proof.
  unfold update_booking_offers.
  change (booking_offers (add_service d s)) with (booking_offers d).
  rewrite update_offer_rows_add_service.
  destruct (update_offer_rows d where_ set (booking_offers d)) as [[rows fired] | e];
    cbn [bind fst snd]; [| reflexivity].
  destruct of_status; [| reflexivity].
  change (set_booking_offers (add_service d s) rows)
    with (add_service (set_booking_offers d rows) s).
  rewrite (after_row_triggers_commute
             (fun acc OLD NEW =>
                update_inquiry_status_on_offer acc uid now OLD NEW)
             (fun d' => add_service d' s)).
  - destruct (after_row_triggers _ fired (set_booking_offers d rows));
      reflexivity.
  - intros d0 OLD NEW. apply update_inquiry_status_on_offer_add_service.
Qed.

Lemma send_booking_offer_add_service (d : db) (s : booking_offer_service)
    uid now p :
  bsv_pricing_type s = "ask_quote" ->
  send_booking_offer (add_service d s) uid now p
  = match send_booking_offer d uid now p with
    | Ok (d', b) => Ok (add_service d' s, b)
    | Err e => Err e
    end.
Proof.
  intro Hq. unfold send_booking_offer.
  change (caller_is_administrator (add_service d s) uid)
    with (caller_is_administrator d uid).
  destruct (negb (caller_is_administrator d uid)); [reflexivity |].
  rewrite (validate_offer_for_send_add_service d s p Hq).
  destruct (validate_offer_for_send d p) as [ok | e]; cbn [bind];
    [| reflexivity].
  change (offer_with_inquiry (add_service d s) p) with (offer_with_inquiry d p).
  rewrite update_booking_offers_add_service.
  destruct (update_booking_offers d uid now true _ _) as [[d1 b] | e];
    cbn [bind fst]; [| reflexivity].
  destruct (offer_with_inquiry d p) as [[bo bi] |]; cbn [option_map fst snd].
  - rewrite update_inquiry_status_add_service.
    destruct (update_inquiry_status d1 uid now (bo_inquiry_id bo) offer_sent)
      as [d2 | e]; reflexivity.
  - reflexivity.
Qed.

Lemma sum_bigint_app (l1 l2 : list bigint) :
  sum_bigint (l1 ++ l2) = sum_bigint l1 + sum_bigint l2.
Proof.
  induction l1 as [| x l1 IH]; simpl; [reflexivity |].
  change (fold_right Z.add 0 (l1 ++ l2)) with (sum_bigint (l1 ++ l2)).
  change (fold_right Z.add 0 l1) with (sum_bigint l1).
  rewrite IH. lia.
Qed.

(** C6, as the code has it.  [save_booking_offer] adds the supplied
    [offer_total_cents] of every service element (0 when it is absent) to
    [services_total_cents] and through it to [calculated_price_cents],
    whatever the element's pricing type, quantity and rate fields: a
    quote-only line contributes exactly its [offer_total_cents], nothing
    only when that is absent or zero.  A quote-only service row never makes
    [send_booking_offer] fail: with the row added the call fails exactly
    when it fails without it, and with the same error; and such a row
    satisfies the constraint [pricing_type_requirements] whatever its price
    fields. *)
Theorem quote_only_line_contribution :
  (forall d uid now new_id p_inquiry_id p_total p_valid p_notes
          p_spaces l1 v l2 p_terms d' id,
      save_booking_offer d uid now new_id p_inquiry_id p_total p_valid p_notes
        p_spaces (Some (l1 ++ v :: l2)) p_terms = Ok (d', id) ->
      exists os,
        offer_summaries d' = (offer_summaries d ++ [os])%list
        /\ os_offer_id os = id
        /\ os_services_total_cents os
           = sum_bigint (map (fun x => coalesce (vj_offer_total_cents x) 0)
                             (l1 ++ l2))
             + coalesce (vj_offer_total_cents v) 0
        /\ os_calculated_price_cents os
           = Some (os_space_total_cents os + os_services_total_cents os))
  /\ (forall d s uid now p,
        bsv_pricing_type s = "ask_quote" ->
        send_booking_offer (add_service d s) uid now p
        = match send_booking_offer d uid now p with
          | Ok (d', b) => Ok (add_service d' s, b)
          | Err e => Err e
          end)
  /\ (forall r,
        ServiceAllocations.pricing_type r = "ask_quote" ->
        ServiceAllocations.pricing_type_requirements r = true).
Proof.
  split; [| split].
  3:{ intros r Hq. unfold ServiceAllocations.pricing_type_requirements.
      rewrite Hq. reflexivity. }
  - intros d uid now new_id p_inquiry_id p_total p_valid p_notes
           p_spaces l1 v l2 p_terms d' id H.
    apply save_booking_offer_summary in H. destruct H as [-> H].
    eexists. split; [exact H |]. simpl.
    split; [reflexivity |].
    split; [| reflexivity].
    rewrite !map_app, !sum_bigint_app. simpl. lia.
  - intros d s uid now p Hq. apply send_booking_offer_add_service. exact Hq.
Qed.

Lemma quote_only_line_contribution_witness :
  send_booking_offer
    (add_service (sample_db draft (Some 90000))
       (service_row 10 400 quote_only_line)) (Some 1) 1000 10
  = match send_booking_offer (sample_db draft (Some 90000)) (Some 1) 1000 10 with
    | Ok (d', b) => Ok (add_service d' (service_row 10 400 quote_only_line), b)
    | Err e => Err e
    end.
Proof.
  apply (proj1 (proj2 quote_only_line_contribution)
               (sample_db draft (Some 90000))
               (service_row 10 400 quote_only_line) (Some 1) 1000 10).
  reflexivity.
Defined.

(** A quote-only line that carries a total of 5,000 cents raises
    [services_total_cents] from 0 to 5,000 and [calculated_price_cents] from
    90,000 to 95,000. *)
Lemma quote_only_line_is_counted :
  (match save_booking_offer (sample_db draft (Some 90000)) (Some 1) 1000 11
           100 90000 2000 None (Some [sample_space_line])
           (Some [quote_only_line]) None with
   | Ok (d', id) =>
       map (fun os => (os_services_total_cents os, os_calculated_price_cents os))
           (summaries_of d' id)
   | Err _ => []
   end = [(5000, Some 95000)])
  /\ (match save_booking_offer (sample_db draft (Some 90000)) (Some 1) 1000 11
            100 90000 2000 None (Some [sample_space_line])
            (Some []) None with
      | Ok (d', id) =>
          map (fun os => (os_services_total_cents os, os_calculated_price_cents os))
              (summaries_of d' id)
      | Err _ => []
      end = [(0, Some 90000)]).
Proof. split; vm_compute; reflexivity. Qed.

(* ------------------------------------------------------------------ *)
(** ** The headline figure of a new offer *)

(** [save_booking_offer] stores the caller's total cost as the headline
    figure of the draft it creates. *)
Lemma save_booking_offer_sets_actual :
  match save_booking_offer (sample_db draft (Some 90000)) (Some 1) 1000 11
          100 90000 2000 None (Some [sample_space_line]) None None with
  | Ok (d', id) =>
      map (fun o => bo_status o) (filter (fun o => bo_id o =? id) (booking_offers d'))
      = [draft]
      /\ map os_actual_offer_cents (summaries_of d' id) = [Some 90000]
      /\ Some 90000 <> (None : option bigint)
  | Err _ => False
  end.
Proof. vm_compute. repeat split; try reflexivity. discriminate. Qed.

Lemma filter_none {A} (f : A -> bool) (l : list A) :
  (forall a, In a l -> f a = false) -> filter f l = [].
Proof.
  induction l as [| a l IH]; intro H; simpl; [reflexivity |].
  rewrite (H a (or_introl eq_refl)). apply IH.
  intros b Hb. apply H. right. exact Hb.
Qed.

Lemma is_administrator_some (urs : list user_role) (rs : list role)
    (uid : option uuid) :
  is_administrator urs rs uid = true -> exists u, uid = Some u.
Proof.
  destruct uid as [u |]; simpl; intro H; [exists u; reflexivity | discriminate H].
Qed.

(** The join row of an offer appended under a fresh id. *)
Lemma offer_with_inquiry_new (d : db) (o : booking_offer) :
  (forall x, In x (booking_offers d) -> bo_id x <> bo_id o) ->
  (exists i, In i (booking_inquiries d) /\ bi_id i = bo_inquiry_id o) ->
  exists i,
    offer_with_inquiry (set_booking_offers d (booking_offers d ++ [o])) (bo_id o)
    = Some (o, i).
Proof.
  intros Hfresh [i [Hi Hid]].
  unfold offer_with_inquiry. simpl.
  rewrite filter_app. simpl. rewrite Z.eqb_refl.
  rewrite filter_none.
  2:{ intros x Hx. apply Z.eqb_neq. apply Hfresh. exact Hx. }
  simpl. rewrite app_nil_r.
  destruct (filter (fun bi => bi_id bi =? bo_inquiry_id o) (booking_inquiries d))
    as [| j l] eqn:E.
  - exfalso.
    assert (Hin : In i (filter (fun bi => bi_id bi =? bo_inquiry_id o)
                               (booking_inquiries d))).
    { apply filter_In. split; [exact Hi | apply Z.eqb_eq; exact Hid]. }
    rewrite E in Hin. contradiction.
  - exists j. reflexivity.
Qed.

(** Summary rows of an offer after [NullableActual.save_offer_allocations]
    found the offer in draft, on the table that lets the figure be NULL. *)
Lemma save_offer_allocations_draft
    (d : db) uid now p sp sv bo bi :
  caller_is_administrator d uid = true ->
  offer_summaries_table d = Fix_Offer_Summaries_Constraints ->
  offer_with_inquiry d p = Some (bo, bi) ->
  bo_status bo = draft ->
  exists d',
    NullableActual.save_offer_allocations d uid now p sp sv = Ok (d', p)
    /\ booking_offers d' = booking_offers d
    /\ List.length (summaries_of d' p) = List.length (summaries_of d p)
    /\ forall os, In os (summaries_of d' p) -> os_actual_offer_cents os = None.
Proof.
  intros Hadm Htable Hjoin Hdraft.
  unfold NullableActual.save_offer_allocations.
  rewrite Hadm, Hjoin, Htable. simpl. rewrite Hdraft.
  rewrite andb_false_r.
  eexists. split; [reflexivity |]. split; [reflexivity |].
  unfold summaries_of. simpl.
  induction (offer_summaries d) as [| os l IH]; simpl.
  - split; [reflexivity | intros os []].
  - destruct IH as [IHlen IHnull].
    destruct (os_offer_id os =? p) eqn:E; simpl; rewrite E; simpl.
    + split; [rewrite IHlen; reflexivity |].
      intros x [<- | Hx]; [reflexivity | apply IHnull; exact Hx].
    + split; assumption.
Qed.

(** The tables of summaries a proposed row fits, by the columns it leaves
    out or leaves NULL. *)
Lemma check_offer_summary_no_inquiry (d : db) (row : offer_summary) :
  os_inquiry_id row = None ->
  check_offer_summary d row = Ok tt ->
  offer_summaries_table d = Add_Offer_Summaries_Table.
Proof.
  intros Hi H. unfold check_offer_summary in H.
  destruct (offer_summaries_table d); [reflexivity | | |];
    rewrite Hi in H; discriminate H.
Qed.

Lemma check_offer_summary_null_actual (d : db) (row : offer_summary) :
  os_inquiry_id row <> None ->
  os_actual_offer_cents row = None ->
  check_offer_summary d row = Ok tt ->
  offer_summaries_table d = Fix_Offer_Summaries_Constraints.
Proof.
  intros Hi Ha H. unfold check_offer_summary in H. rewrite Ha in H.
  destruct (offer_summaries_table d); [| | | reflexivity];
    destruct (os_inquiry_id row) as [i|]; try (exfalso; apply Hi; reflexivity);
    cbn [is_null negb] in H; try discriminate H;
    destruct (is_null (os_calculated_price_cents row)); discriminate H.
Qed.

(** C7, as the code has it.  The two functions that create a draft fit
    different tables of summaries.  [create_booking_offer] succeeds only on
    the table of "Fix Offer Summaries Constraints": there it creates the
    offer in draft with a summary whose [actual_offer_cents] is NULL, and
    [save_offer_allocations] of the same migration keeps it NULL while the
    offer is in draft.  [save_booking_offer], the function the client calls
    to save a draft, succeeds only on the table of "Add Offer Summaries
    Table", and stores the caller's [p_total_cost_cents] in
    [actual_offer_cents] of the summary it creates. *)
Theorem new_offer_headline_figure :
  (forall d uid now new_id p_inquiry_id p_total p_valid p_notes p_spaces p_services,
      caller_is_administrator d uid = true ->
      offer_summaries_table d = Fix_Offer_Summaries_Constraints ->
      (forall o, In o (booking_offers d) -> bo_id o <> new_id) ->
      (forall os, In os (offer_summaries d) -> os_offer_id os <> new_id) ->
      (exists i, In i (booking_inquiries d) /\ bi_id i = p_inquiry_id) ->
      exists d',
        NullableActual.create_booking_offer d uid now new_id p_inquiry_id
          p_total p_valid p_notes p_spaces p_services = Ok (d', new_id)
        /\ List.length (summaries_of d' new_id) = 1%nat
        /\ forall os, In os (summaries_of d' new_id) ->
                      os_actual_offer_cents os = None)
  /\ (forall d uid now new_id p_inquiry_id p_total p_valid p_notes p_spaces
             p_services d' id,
        NullableActual.create_booking_offer d uid now new_id p_inquiry_id
          p_total p_valid p_notes p_spaces p_services = Ok (d', id) ->
        offer_summaries_table d = Fix_Offer_Summaries_Constraints)
  /\ (forall d uid now p sp sv bo bi,
        caller_is_administrator d uid = true ->
        offer_summaries_table d = Fix_Offer_Summaries_Constraints ->
        offer_with_inquiry d p = Some (bo, bi) ->
        bo_status bo = draft ->
        exists d',
          NullableActual.save_offer_allocations d uid now p sp sv = Ok (d', p)
          /\ forall os, In os (summaries_of d' p) ->
                        os_actual_offer_cents os = None)
  /\ (forall d uid now new_id p_inquiry_id p_total p_valid p_notes
             p_spaces p_services p_terms d' id,
        save_booking_offer d uid now new_id p_inquiry_id p_total p_valid p_notes
          p_spaces p_services p_terms = Ok (d', id) ->
        offer_summaries_table d = Add_Offer_Summaries_Table
        /\ exists os,
             offer_summaries d' = offer_summaries d ++ [os]
             /\ os_offer_id os = id
             /\ os_actual_offer_cents os = Some p_total).
Proof.
  split; [| split; [| split]].
  - intros d uid now new_id p_inquiry_id p_total p_valid p_notes p_spaces p_services
           Hadm Htable Hfresh Hfresh_os Hinq.
    destruct (is_administrator_some _ _ _ Hadm) as [u ->].
    unfold NullableActual.create_booking_offer. rewrite Hadm. cbn [negb].
    cbv zeta.
    assert (Hex : inquiry_exists d p_inquiry_id = true).
    { destruct Hinq as [i [Hi Hid]]. unfold inquiry_exists.
      apply existsb_exists. exists i. split; [exact Hi|].
      apply Z.eqb_eq. exact Hid. }
    rewrite Hex. cbn [negb].
    set (o := {| bo_id := new_id; bo_inquiry_id := p_inquiry_id; bo_admin_id := u;
                 bo_total_cost_cents := p_total; bo_valid_until := p_valid;
                 bo_notes := p_notes; bo_status := draft; bo_updated_at := now |}).
    set (os0 := {| os_offer_id := new_id; os_inquiry_id := Some p_inquiry_id;
                   os_quoted_price_cents :=
                     coalesce (inquiry_estimated_cost d p_inquiry_id) 0;
                   os_calculated_price_cents := Some 0;
                   os_actual_offer_cents := None;
                   os_space_total_cents := 0; os_services_total_cents := 0;
                   os_updated_at := now |}).
    assert (Hins : insert_offer_summary
                     (set_booking_offers d (booking_offers d ++ [o])) os0
                   = Ok (offer_summaries d ++ [os0])).
    { unfold insert_offer_summary, check_offer_summary.
      cbn [offer_summaries_table set_booking_offers]. rewrite Htable.
      cbn [os_inquiry_id os0 is_null bind os_offer_id].
      unfold offer_exists. cbn [booking_offers set_booking_offers].
      rewrite existsb_app. cbn [existsb bo_id o]. rewrite Z.eqb_refl.
      rewrite orb_true_r. reflexivity. }
    rewrite Hins. cbn [bind].
    set (d2 := set_offer_summaries (set_booking_offers d (booking_offers d ++ [o]))
                 (offer_summaries d ++ [os0])).
    assert (Hsum2 : summaries_of d2 new_id = [os0]).
    { unfold summaries_of, d2. simpl. rewrite filter_app. simpl.
      rewrite Z.eqb_refl. rewrite filter_none; [reflexivity |].
      intros x Hx. apply Z.eqb_neq. apply Hfresh_os. exact Hx. }
    destruct (negb (is_null p_spaces) || negb (is_null p_services)).
    + destruct (offer_with_inquiry_new d o Hfresh Hinq) as [i Hjoin].
      destruct (save_offer_allocations_draft d2 (Some u) now new_id
                  p_spaces p_services o i Hadm Htable Hjoin eq_refl)
        as [d' [Hok [_ [Hlen Hnull]]]].
      rewrite Hok. simpl. exists d'. split; [reflexivity |].
      split; [rewrite Hlen, Hsum2; reflexivity | exact Hnull].
    + exists d2. split; [reflexivity |]. rewrite Hsum2.
      split; [reflexivity |]. intros os [<- | []]. reflexivity.
  - intros d uid now new_id p_inquiry_id p_total p_valid p_notes p_spaces
           p_services d' id H.
    unfold NullableActual.create_booking_offer in H.
    destruct uid as [u|]; [|discriminate H].
    destruct (negb (caller_is_administrator d (Some u))); [discriminate H|].
    cbv zeta in H.
    destruct (negb (inquiry_exists d p_inquiry_id)); [discriminate H|].
    apply bind_ok in H. destruct H as [summaries [Hs _]].
    apply insert_offer_summary_ok in Hs. destruct Hs as [_ [Hc _]].
    apply check_offer_summary_null_actual in Hc;
      [exact Hc | discriminate | reflexivity].
  - intros d uid now p sp sv bo bi Hadm Htable Hjoin Hdraft.
    destruct (save_offer_allocations_draft d uid now p sp sv bo bi Hadm Htable
                Hjoin Hdraft)
      as [d' [Hok [_ [_ Hnull]]]].
    exists d'. split; assumption.
  - intros d uid now new_id p_inquiry_id p_total p_valid p_notes
           p_spaces p_services p_terms d' id H.
    split.
    + unfold save_booking_offer in H.
      destruct uid as [u|]; [|discriminate H].
      destruct (negb (caller_is_administrator d (Some u))); [discriminate H|].
      cbv zeta in H.
      destruct (negb (inquiry_exists d p_inquiry_id)); [discriminate H|].
      apply bind_ok in H. destruct H as [sp [_ H]].
      apply bind_ok in H. destruct H as [sv [_ H]].
      apply bind_ok in H. destruct H as [tm [_ H]].
      apply bind_ok in H. destruct H as [calc [_ H]].
      apply bind_ok in H. destruct H as [summaries [Hs _]].
      apply insert_offer_summary_ok in Hs. destruct Hs as [_ [Hc _]].
      apply check_offer_summary_no_inquiry in Hc; [exact Hc | reflexivity].
    + apply save_booking_offer_summary in H. destruct H as [-> H].
      eexists. split; [exact H |]. split; reflexivity.
Qed.

Lemma new_offer_headline_figure_witness :
  exists d',
    NullableActual.create_booking_offer (sample_db draft None) (Some 1) 1000 11
      100 90000 2000 None None None = Ok (d', 11)
    /\ forall os, In os (summaries_of d' 11) -> os_actual_offer_cents os = None.
Proof.
  destruct (proj1 new_offer_headline_figure
              (sample_db draft None) (Some 1) 1000 11 100 90000 2000
              None None None) as [d' [H1 [_ H3]]].
  - reflexivity.
  - reflexivity.
  - simpl. intros o [<- | []]. simpl. discriminate.
  - simpl. intros os [<- | []]. simpl. discriminate.
  - eexists. split; [simpl; left; reflexivity | reflexivity].
  - exists d'. split; assumption.
Defined.

(** Each function on the table of the other: [save_booking_offer] leaves
    [inquiry_id] out, [create_booking_offer] names a column the first
    table does not have. *)
Remark create_and_save_on_the_other_table :
  save_booking_offer (sample_db draft None) (Some 1) 1000 11 100 90000 2000
    None None None None
  = Err (Not_null_violation "offer_summaries.inquiry_id")
  /\ NullableActual.create_booking_offer (sample_db draft (Some 90000)) (Some 1)
       1000 11 100 90000 2000 None None None
     = Err (Undefined_column "inquiry_id").
Proof. split; vm_compute; reflexivity. Qed.

(* ------------------------------------------------------------------ *)
(** ** Replacing the lines of an offer *)

Lemma sum_bigint_nonneg (l : list bigint) :
  (forall x, In x l -> 0 <= x) -> 0 <= sum_bigint l.
Proof.
  induction l as [| x l IH]; intro H; simpl; [lia |].
  assert (0 <= x) by (apply H; left; reflexivity).
  assert (0 <= sum_bigint l) by (apply IH; intros; apply H; right; assumption).
  unfold sum_bigint in *. lia.
Qed.

Lemma bigint_add_fits (a b : bigint) :
  0 <= a + b < 2 ^ 63 -> bigint_add a b = Ok (a + b).
Proof.
  intro H. unfold bigint_add, bigint_in_range.
  replace (- 2 ^ 63 <=? a + b) with true by (symmetry; apply Z.leb_le; lia).
  replace (a + b <? 2 ^ 63) with true by (symmetry; apply Z.ltb_lt; lia).
  reflexivity.
Qed.

Lemma existsb_eqb_in (x : uuid) (l : list uuid) :
  In x l -> existsb (Z.eqb x) l = true.
Proof.
  intro H. apply existsb_exists. exists x. split; [exact H | apply Z.eqb_refl].
Qed.

Lemma update_offer_rows_same_status (d : db) where_ set (rows : list booking_offer) :
  (forall o, bo_status (set o) = bo_status o) ->
  exists fired,
    update_offer_rows d where_ set rows
    = Ok (map (fun o => if where_ o then set o else o) rows, fired).
Proof.
  intro Hst. induction rows as [| o rows [fired IH]]; simpl.
  - exists []. reflexivity.
  - rewrite IH. destruct (where_ o); simpl.
    + unfold validate_offer_before_send. rewrite Hst.
      destruct (status_eqb (bo_status o) offer_sent); simpl;
        eexists; reflexivity.
    + eexists. reflexivity.
Qed.

Lemma insert_booking_offer_space_pass (d : db) row rows :
  offer_exists d (bos_offer_id row) = true ->
  existsb (Z.eqb (bos_space_id row)) (m_warehouse_spaces d) = true ->
  insert_booking_offer_space d row rows = Ok (rows ++ [row]).
Proof.
  intros H1 H2. unfold insert_booking_offer_space. rewrite H1, H2. reflexivity.
Qed.

Lemma insert_booking_offer_service_pass (d : db) row rows :
  pricing_type_check (bsv_pricing_type row) = true ->
  offer_exists d (bsv_offer_id row) = true ->
  insert_booking_offer_service d row rows = Ok (rows ++ [row]).
Proof.
  intros H1 H2. unfold insert_booking_offer_service. rewrite H1, H2.
  reflexivity.
Qed.

Lemma insert_booking_offer_term_pass (d : db) row rows :
  offer_exists d (bot_offer_id row) = true ->
  insert_booking_offer_term d row rows = Ok (rows ++ [row]).
Proof.
  intros H1. unfold insert_booking_offer_term. rewrite H1. reflexivity.
Qed.

Lemma update_spaces_ok (d : db) (p : uuid) (l : list space_json) :
  offer_exists d p = true ->
  spaces_exist d l ->
  (forall v, In v l -> 0 <= coalesce (sj_offer_total_cents v) 0) ->
  forall rows t,
    0 <= t ->
    t + sum_bigint (map (fun v => coalesce (sj_offer_total_cents v) 0) l) < 2 ^ 63 ->
    update_spaces d p l rows t
    = Ok (rows ++ map (fun v => space_row p (coalesce (sj_space_id v) 0) v) l,
          t + sum_bigint (map (fun v => coalesce (sj_offer_total_cents v) 0) l)).
Proof.
  intro Hoffer.
  induction l as [| v l IH]; intros Hex Hpos rows t Ht Hfit;
    cbn [update_spaces map].
  - rewrite app_nil_r. cbn [sum_bigint fold_right]. rewrite Z.add_0_r.
    reflexivity.
  - destruct (Hex v (or_introl eq_refl)) as [sid [Hsid Hin]].
    rewrite Hsid. cbv zeta. rewrite (existsb_eqb_in sid _ Hin). cbn [negb].
    rewrite insert_booking_offer_space_pass
      by (first [exact Hoffer | exact (existsb_eqb_in sid _ Hin)]).
    cbn [bind].
    assert (Hv : 0 <= coalesce (sj_offer_total_cents v) 0)
      by (apply Hpos; left; reflexivity).
    assert (Hl : 0 <= sum_bigint (map (fun v => coalesce (sj_offer_total_cents v) 0) l)).
    { apply sum_bigint_nonneg. intros x Hx. apply in_map_iff in Hx.
      destruct Hx as [w [<- Hw]]. apply Hpos. right. exact Hw. }
    cbn [map sum_bigint fold_right] in Hfit.
    fold (sum_bigint (map (fun v => coalesce (sj_offer_total_cents v) 0) l)) in Hfit.
    rewrite bigint_add_fits by lia. cbn [bind].
    rewrite IH.
    + rewrite <- app_assoc. cbn [app coalesce sum_bigint fold_right].
      fold (sum_bigint (map (fun v => coalesce (sj_offer_total_cents v) 0) l)).
      f_equal. f_equal. lia.
    + intros w Hw. apply Hex. right. exact Hw.
    + intros w Hw. apply Hpos. right. exact Hw.
    + lia.
    + lia.
Qed.

Lemma update_services_ok (d : db) (p : uuid) (l : list service_json) :
  offer_exists d p = true ->
  services_exist d l ->
  (forall v, In v l -> 0 <= coalesce (vj_offer_total_cents v) 0) ->
  forall rows t,
    0 <= t ->
    t + sum_bigint (map (fun v => coalesce (vj_offer_total_cents v) 0) l) < 2 ^ 63 ->
    update_services d p l rows t
    = Ok (rows ++ map (fun v => service_row p (coalesce (vj_service_id v) 0) v) l,
          t + sum_bigint (map (fun v => coalesce (vj_offer_total_cents v) 0) l)).
Proof.
  intro Hoffer.
  induction l as [| v l IH]; intros Hex Hpos rows t Ht Hfit;
    cbn [update_services map].
  - rewrite app_nil_r. cbn [sum_bigint fold_right]. rewrite Z.add_0_r.
    reflexivity.
  - destruct (Hex v (or_introl eq_refl)) as [[sid [Hsid Hin]] Hpt].
    rewrite Hsid. rewrite (existsb_eqb_in sid _ Hin). cbn [negb].
    rewrite insert_booking_offer_service_pass
      by (first [exact Hpt | exact Hoffer]).
    cbn [bind].
    assert (Hv : 0 <= coalesce (vj_offer_total_cents v) 0)
      by (apply Hpos; left; reflexivity).
    assert (Hl : 0 <= sum_bigint (map (fun v => coalesce (vj_offer_total_cents v) 0) l)).
    { apply sum_bigint_nonneg. intros x Hx. apply in_map_iff in Hx.
      destruct Hx as [w [<- Hw]]. apply Hpos. right. exact Hw. }
    cbn [map sum_bigint fold_right] in Hfit.
    fold (sum_bigint (map (fun v => coalesce (vj_offer_total_cents v) 0) l)) in Hfit.
    rewrite bigint_add_fits by lia. cbn [bind].
    rewrite IH.
    + rewrite <- app_assoc. cbn [app coalesce sum_bigint fold_right].
      fold (sum_bigint (map (fun v => coalesce (vj_offer_total_cents v) 0) l)).
      f_equal. f_equal. lia.
    + intros w Hw. apply Hex. right. exact Hw.
    + intros w Hw. apply Hpos. right. exact Hw.
    + lia.
    + lia.
Qed.

Lemma insert_terms_ok (d : db) (p : uuid) (l : list term_json) :
  offer_exists d p = true ->
  terms_complete l ->
  forall rows,
    insert_terms d p l rows = Ok (rows ++ map (term_row p) l).
Proof.
  intro Hoffer.
  induction l as [| v l IH]; intros Hc rows; cbn [insert_terms map].
  - rewrite app_nil_r. reflexivity.
  - destruct (Hc v (or_introl eq_refl)) as [ty [de [Hty Hde]]].
    rewrite Hty, Hde.
    rewrite insert_booking_offer_term_pass by exact Hoffer.
    cbn [bind]. rewrite IH.
    + rewrite <- app_assoc. unfold term_row at 2. rewrite Hty, Hde.
      reflexivity.
    + intros w Hw. apply Hc. right. exact Hw.
Qed.

Lemma update_spaces_json (d : db) (p : uuid) (o : option (list space_json))
    (rows : list booking_offer_space) :
  offer_exists d p = true ->
  spaces_exist d (json_array o) ->
  (forall v, In v (json_array o) -> 0 <= coalesce (sj_offer_total_cents v) 0) ->
  sum_bigint (map (fun v => coalesce (sj_offer_total_cents v) 0) (json_array o))
    < 2 ^ 63 ->
  match o with
  | Some l => update_spaces d p l rows 0
  | None => Ok (rows, 0)
  end
  = Ok (rows ++ map (fun v => space_row p (coalesce (sj_space_id v) 0) v) (json_array o),
        sum_bigint (map (fun v => coalesce (sj_offer_total_cents v) 0) (json_array o))).
Proof.
  intros Hoffer Hex Hpos Hfit. destruct o as [l |]; simpl in *.
  - rewrite (update_spaces_ok d p l Hoffer Hex Hpos rows 0) by lia. reflexivity.
  - rewrite app_nil_r. reflexivity.
Qed.

Lemma update_services_json (d : db) (p : uuid) (o : option (list service_json))
    (rows : list booking_offer_service) :
  offer_exists d p = true ->
  services_exist d (json_array o) ->
  (forall v, In v (json_array o) -> 0 <= coalesce (vj_offer_total_cents v) 0) ->
  sum_bigint (map (fun v => coalesce (vj_offer_total_cents v) 0) (json_array o))
    < 2 ^ 63 ->
  match o with
  | Some l => update_services d p l rows 0
  | None => Ok (rows, 0)
  end
  = Ok (rows ++ map (fun v => service_row p (coalesce (vj_service_id v) 0) v) (json_array o),
        sum_bigint (map (fun v => coalesce (vj_offer_total_cents v) 0) (json_array o))).
Proof.
  intros Hoffer Hex Hpos Hfit. destruct o as [l |]; simpl in *.
  - rewrite (update_services_ok d p l Hoffer Hex Hpos rows 0) by lia.
    reflexivity.
  - rewrite app_nil_r. reflexivity.
Qed.

Lemma insert_terms_json (d : db) (p : uuid) (o : option (list term_json))
    (rows : list booking_offer_term) :
  offer_exists d p = true ->
  terms_complete (json_array o) ->
  match o with
  | Some l => insert_terms d p l rows
  | None => Ok rows
  end = Ok (rows ++ map (term_row p) (json_array o)).
Proof.
  intros Hoffer Hc. destruct o as [l |]; simpl in *.
  - apply insert_terms_ok; assumption.
  - rewrite app_nil_r. reflexivity.
Qed.

Lemma upsert_offer_summary_rows (l : list offer_summary) now p quoted calc actual st sv :
  (exists os, In os (filter (fun os => os_offer_id os =? p)
                            (upsert_offer_summary l now p quoted calc actual st sv)))
  /\ forall os,
       In os (filter (fun os => os_offer_id os =? p)
                     (upsert_offer_summary l now p quoted calc actual st sv)) ->
       os_calculated_price_cents os = Some calc
       /\ os_actual_offer_cents os = actual
       /\ os_space_total_cents os = st
       /\ os_services_total_cents os = sv.
Proof.
  unfold upsert_offer_summary.
  destruct (existsb (fun os => os_offer_id os =? p) l) eqn:E.
  - split.
    + apply existsb_exists in E. destruct E as [os [Hos Hid]].
      eexists. apply filter_In. split.
      * apply in_map_iff. exists os. split; [reflexivity | exact Hos].
      * rewrite Hid. simpl. exact Hid.
    + intros os Hos. apply filter_In in Hos. destruct Hos as [Hos Hid].
      apply in_map_iff in Hos. destruct Hos as [os0 [<- Hos0]].
      destruct (os_offer_id os0 =? p) eqn:E0.
      * simpl. repeat split; reflexivity.
      * rewrite E0 in Hid. discriminate Hid.
  - split.
    + eexists. apply filter_In. split.
      * apply in_or_app. right. left. reflexivity.
      * simpl. apply Z.eqb_refl.
    + intros os Hos. apply filter_In in Hos. destruct Hos as [Hos Hid].
      apply in_app_or in Hos. destruct Hos as [Hos | [<- | []]].
      * exfalso. assert (existsb (fun os => os_offer_id os =? p) l = true).
        { apply existsb_exists. exists os. split; assumption. }
        congruence.
      * simpl. repeat split; reflexivity.
Qed.

Lemma filter_replaced_rows {A} (f : A -> bool) (l new : list A) :
  (forall a, In a new -> f a = true) ->
  filter f (filter (fun a => negb (f a)) l ++ new) = new.
Proof.
  intro H. rewrite filter_app.
  rewrite filter_none.
  - simpl. induction new as [| a new IH]; simpl; [reflexivity |].
    rewrite (H a (or_introl eq_refl)). f_equal. apply IH.
    intros b Hb. apply H. right. exact Hb.
  - intros a Ha. apply filter_In in Ha. destruct Ha as [_ Ha].
    destruct (f a); [discriminate Ha | reflexivity].
Qed.

Lemma offer_exists_header (d : db) (p q : uuid) (f : booking_offer -> booking_offer)
    (g : booking_offer -> bool) :
  (forall o, bo_id (f o) = bo_id o) ->
  existsb (fun o => bo_id o =? q)
          (map (fun o => if g o then f o else o) (booking_offers d))
  = offer_exists d q.
Proof.
  intro Hf. unfold offer_exists.
  induction (booking_offers d) as [| o l IH]; [reflexivity |].
  cbn [map existsb]. rewrite IH.
  destruct (g o); rewrite ?Hf; reflexivity.
Qed.

(** C5, as the code has it.  [update_booking_offer] does not look at the
    status of the offer: called by an administrator for an existing offer
    with well-formed lines (existing spaces and services, allowed pricing
    types, complete terms, line totals that are not negative and add up to
    a bigint), on the table of summaries its INSERT fits, it succeeds on an
    offer in any status, a sent one included; it overwrites the header
    fields, replaces the space, service and term rows of the offer by those
    supplied, rewrites the summary, and leaves the status column of every
    offer as it was. *)
Theorem update_booking_offer_any_status :
  forall d uid now p p_total p_valid p_notes p_spaces p_services p_terms,
    caller_is_administrator d uid = true ->
    offer_exists d p = true ->
    offer_summaries_table d = Add_Offer_Summaries_Table ->
    spaces_exist d (json_array p_spaces) ->
    services_exist d (json_array p_services) ->
    terms_complete (json_array p_terms) ->
    totals_fit (json_array p_spaces) (json_array p_services) ->
    exists d',
      update_booking_offer d uid now p p_total p_valid p_notes
        p_spaces p_services p_terms = Ok (d', true)
      /\ booking_offers d'
         = map (fun o => if bo_id o =? p
                         then set_offer_header p_total p_valid p_notes now o
                         else o)
               (booking_offers d)
      /\ map bo_status (booking_offers d') = map bo_status (booking_offers d)
      /\ offer_spaces d' p
         = map (fun v => space_row p (coalesce (sj_space_id v) 0) v)
               (json_array p_spaces)
      /\ offer_services d' p
         = map (fun v => service_row p (coalesce (vj_service_id v) 0) v)
               (json_array p_services)
      /\ offer_terms d' p = map (term_row p) (json_array p_terms)
      /\ (exists os, In os (summaries_of d' p))
      /\ (forall os, In os (summaries_of d' p) ->
            os_actual_offer_cents os = Some p_total
            /\ os_space_total_cents os
               = sum_bigint (map (fun v => coalesce (sj_offer_total_cents v) 0)
                                 (json_array p_spaces))
            /\ os_services_total_cents os
               = sum_bigint (map (fun v => coalesce (vj_offer_total_cents v) 0)
                                 (json_array p_services))).
Proof.
  intros d uid now p p_total p_valid p_notes p_spaces p_services p_terms
         Hadm Hoffer Htable Hsp Hsv Htm [Hpos_sp [Hpos_sv Hfit]].
  assert (Hnn_sp := sum_bigint_nonneg _
            (fun x Hx => match proj1 (in_map_iff _ _ _) Hx with
                         | ex_intro _ w (conj Hw Hin) =>
                             eq_ind _ (fun z => 0 <= z) (Hpos_sp w Hin) _ Hw
                         end)).
  assert (Hnn_sv := sum_bigint_nonneg _
            (fun x Hx => match proj1 (in_map_iff _ _ _) Hx with
                         | ex_intro _ w (conj Hw Hin) =>
                             eq_ind _ (fun z => 0 <= z) (Hpos_sv w Hin) _ Hw
                         end)).
  unfold update_booking_offer. rewrite Hadm. cbn [negb].
  unfold update_booking_offers.
  destruct (update_offer_rows_same_status d (fun o => bo_id o =? p)
              (set_offer_header p_total p_valid p_notes now) (booking_offers d)
              (fun o => eq_refl)) as [fired Hrows].
  rewrite Hrows. cbn [bind fst snd].
  match goal with
  | |- context [set_allocations ?a ?b ?c ?e] => set (d2 := set_allocations a b c e)
  end.
  assert (Hoffer2 : offer_exists d2 p = true).
  { rewrite <- Hoffer.
    apply (offer_exists_header d p p
             (set_offer_header p_total p_valid p_notes now)
             (fun o => bo_id o =? p)).
    intro o. reflexivity. }
  rewrite (update_spaces_json d2 p p_spaces (booking_offer_spaces d2)
             Hoffer2 Hsp Hpos_sp) by lia.
  cbn [bind fst snd].
  rewrite (update_services_json d2 p p_services (booking_offer_services d2)
             Hoffer2 Hsv Hpos_sv) by lia.
  cbn [bind fst snd].
  rewrite (insert_terms_json d2 p p_terms (booking_offer_terms d2) Hoffer2 Htm).
  cbn [bind fst snd].
  rewrite bigint_add_fits by lia. cbn [bind].
  unfold check_upsert_offer_summary, check_offer_summary.
  cbn [offer_summaries_table set_allocations].
  change (offer_summaries_table d2) with (offer_summaries_table d).
  rewrite Htable. cbn [os_inquiry_id os_calculated_price_cents
                       os_actual_offer_cents is_null negb bind].
  change (offer_exists (set_allocations d2 _ _ _) p) with (offer_exists d2 p).
  rewrite Hoffer2. cbn [negb].
  match goal with
  | |- context [if ?c then Ok tt else Ok tt] => destruct c
  end; cbn [bind].
  all: eexists; split; [reflexivity |].
  all: split; [reflexivity |].
  all: split;
    [ simpl; rewrite map_map; apply map_ext; intro o;
      destruct (bo_id o =? p); reflexivity |].
  all: split;
    [ unfold offer_spaces; simpl;
      apply (filter_replaced_rows (fun s => bos_offer_id s =? p));
      intros a Ha; apply in_map_iff in Ha; destruct Ha as [v [<- _]];
      simpl; apply Z.eqb_refl |].
  all: split;
    [ unfold offer_services; simpl;
      apply (filter_replaced_rows (fun s => bsv_offer_id s =? p));
      intros a Ha; apply in_map_iff in Ha; destruct Ha as [v [<- _]];
      simpl; apply Z.eqb_refl |].
  all: split;
    [ unfold offer_terms; simpl;
      apply (filter_replaced_rows (fun s => bot_offer_id s =? p));
      intros a Ha; apply in_map_iff in Ha; destruct Ha as [v [<- _]];
      simpl; apply Z.eqb_refl |].
  all: unfold summaries_of; simpl.
  all: match goal with
       | |- context [upsert_offer_summary ?l ?n ?q ?a ?c ?t ?x ?y] =>
           destruct (upsert_offer_summary_rows l n q a c t x y) as [Hex Hall]
       end.
  all: split; [exact Hex |].
  all: intros os Hos; destruct (Hall os Hos) as [_ [H1 [H2 H3]]].
  all: repeat split; assumption.
Qed.

Lemma update_booking_offer_any_status_witness :
  exists d',
    update_booking_offer sent_db (Some 1) 3000 10
      50000 2000 None (Some [other_space_line]) (Some [quote_only_line])
      (Some [{| tj_term_type := Some "payment";
                tj_description := Some "30 days" |}])
    = Ok (d', true)
    /\ map bo_status (booking_offers d') = [offer_sent]
    /\ map bsv_service_id (offer_services d' 10) = [400]
    /\ map bot_description (offer_terms d' 10) = ["30 days"].
Proof.
  destruct (update_booking_offer_any_status sent_db (Some 1) 3000 10
              50000 2000 None (Some [other_space_line]) (Some [quote_only_line])
              (Some [{| tj_term_type := Some "payment";
                        tj_description := Some "30 days" |}]))
    as [d' [H1 [_ [H3 [_ [H5 [H6 _]]]]]]].
  - reflexivity.
  - reflexivity.
  - reflexivity.
  - intros v [<- | []]. exists 300. split; [reflexivity | left; reflexivity].
  - intros v [<- | []]. split; [| reflexivity].
    exists 400. split; [reflexivity | left; reflexivity].
  - intros v [<- | []]. eexists. eexists. split; reflexivity.
  - split; [| split].
    + intros v [<- | []]. simpl. lia.
    + intros v [<- | []]. simpl. lia.
    + reflexivity.
  - exists d'. split; [exact H1 |]. split; [exact H3 |].
    rewrite H5, H6. split; reflexivity.
Defined.

(** Replacing the lines of the offer that was sent succeeds and rewrites
    its header, its space rows and its summary. *)
Lemma update_booking_offer_on_sent_offer :
  match update_booking_offer sent_db (Some 1) 3000 10
          50000 2000 None (Some [other_space_line]) None None with
  | Ok (d', b) =>
      b = true
      /\ map (fun o => (bo_status o, bo_total_cost_cents o, bo_valid_until o))
             (booking_offers d') = [(offer_sent, 50000, 2000)]
      /\ map bos_offer_total_cents (offer_spaces d' 10) = [50000]
      /\ map os_actual_offer_cents (summaries_of d' 10) = [Some 50000]
      /\ d' <> sent_db
  | Err _ => False
  end.
Proof.
  vm_compute. repeat split; try reflexivity.
  intro H. discriminate H.
Qed.

(** For an id that is no offer the first INSERT of a child row, or that of
    the summary, fails on its foreign key. *)
Remark update_booking_offer_unknown_offer :
  update_booking_offer (sample_db offer_sent (Some 90000)) (Some 1) 1000 999
    50000 2000 None (Some [other_space_line]) None None
  = Err (Foreign_key_violation "booking_offer_spaces_offer_id_fkey")
  /\ update_booking_offer (sample_db offer_sent (Some 90000)) (Some 1) 1000 999
       50000 2000 None None None None
     = Err (Foreign_key_violation "offer_summaries_offer_id_fkey").
Proof. split; vm_compute; reflexivity. Qed.

(* ------------------------------------------------------------------ *)
(** ** Sending an offer *)

Lemma numeric_ltb_true (a b : numeric) : numeric_ltb a b = true <-> (a < b)%Q.
Proof.
  unfold numeric_ltb. split; intro H.
  - apply Qnot_le_lt. intro Hle. apply Qle_bool_iff in Hle.
    rewrite Hle in H. discriminate H.
  - destruct (Qle_bool b a) eqn:E; [| reflexivity].
    apply Qle_bool_iff in E. exfalso. apply (Qlt_not_le _ _ H E).
Qed.

Lemma numeric_ltb_false (a b : numeric) : numeric_ltb a b = false <-> (b <= a)%Q.
Proof.
  unfold numeric_ltb. split; intro H.
  - apply Qle_bool_iff. destruct (Qle_bool b a); [reflexivity | discriminate H].
  - apply Qle_bool_iff in H. rewrite H. reflexivity.
Qed.

Lemma update_offer_rows_fired (d : db) where_ set (rows : list booking_offer) :
  (forall x, In x rows -> where_ x = true ->
             validate_offer_before_send d x (set x) = Ok (set x)) ->
  update_offer_rows d where_ set rows
  = Ok (map (fun o => if where_ o then set o else o) rows,
        map (fun o => (o, set o)) (filter where_ rows)).
Proof.
  induction rows as [| o rows IH]; intro H; [reflexivity |].
  cbn [update_offer_rows map filter].
  rewrite IH by (intros x Hx; apply H; right; exact Hx).
  destruct (where_ o) eqn:E; [| reflexivity].
  rewrite (H o (or_introl eq_refl) E). reflexivity.
Qed.

Lemma filter_andb {A} (f g : A -> bool) (l : list A) :
  filter (fun x => f x && g x) l = filter g (filter f l).
Proof.
  induction l as [| x l IH]; [reflexivity |].
  cbn [filter]. destruct (f x); cbn [andb filter]; rewrite IH; reflexivity.
Qed.

Lemma offer_with_inquiry_filter (d : db) (p : uuid) (o : booking_offer)
    (i : booking_inquiry) :
  filter (fun x => bo_id x =? p) (booking_offers d) = [o] ->
  filter (fun x => bi_id x =? bo_inquiry_id o) (booking_inquiries d) = [i] ->
  offer_with_inquiry d p = Some (o, i).
Proof.
  intros Ho Hi. unfold offer_with_inquiry. rewrite Ho.
  cbn [flat_map]. rewrite Hi. reflexivity.
Qed.

Lemma guard_passes (d : db) (p : uuid) (x : booking_offer) now :
  existsb (fun os => (os_offer_id os =? p)
                     && negb (is_null (os_actual_offer_cents os)))
          (offer_summaries d) = true ->
  bo_id x = p ->
  validate_offer_before_send d x (set_offer_status offer_sent now x)
  = Ok (set_offer_status offer_sent now x).
Proof.
  intros Hact Hid.
  unfold validate_offer_before_send, validate_offer_for_send_trigger.
  cbn [bo_status bo_id set_offer_status status_eqb].
  rewrite Hid, Hact. destruct (negb _ && true); reflexivity.
Qed.

Lemma inquiry_rows_written_twice (id : uuid) s now (l : list booking_inquiry) :
  inquiry_rows_written id s now (inquiry_rows_written id s now l)
  = inquiry_rows_written id s now l.
Proof.
  unfold inquiry_rows_written. rewrite map_map. apply map_ext. intro x.
  destruct (bi_id x =? id) eqn:E; [| rewrite E; reflexivity].
  cbn [written_inquiry bi_id]. rewrite E.
  unfold written_inquiry. cbn. destruct s; reflexivity.
Qed.

(** The UPDATE of [send_booking_offer] on the draft offer, with the
    triggers it fires. *)
Lemma update_booking_offers_send_draft (d : db) uid now p
    (o : booking_offer) (i : booking_inquiry) :
  caller_is_administrator d uid = true ->
  filter (fun x => bo_id x =? p) (booking_offers d) = [o] ->
  bo_status o = draft ->
  existsb (fun os => (os_offer_id os =? p)
                     && negb (is_null (os_actual_offer_cents os)))
          (offer_summaries d) = true ->
  filter (fun x => bi_id x =? bo_inquiry_id o) (booking_inquiries d) = [i] ->
  bi_status i = offer_draft ->
  existsb (fun pr => pr_user_id pr =? bi_trader_id i) (profiles d) = true ->
  update_booking_offers d uid now true
    (fun x => (bo_id x =? p) && status_eqb (bo_status x) draft)
    (set_offer_status offer_sent now)
  = Ok (sent_offer d now p (bo_inquiry_id o) (bi_trader_id i)
          [offer_sent_notification (bi_trader_id i) (bo_inquiry_id o)],
        true).
Proof.
  intros Hadm Ho Hdraft Hact Hi Hst Hpr.
  unfold update_booking_offers.
  rewrite update_offer_rows_fired.
  2:{ intros x _ Hw. apply andb_prop in Hw. destruct Hw as [Hid _].
      apply Z.eqb_eq in Hid. exact (guard_passes d p x now Hact Hid). }
  cbn [bind fst snd].
  rewrite (filter_andb (fun x => bo_id x =? p)
             (fun x => status_eqb (bo_status x) draft)), Ho.
  cbn [filter]. rewrite Hdraft. cbn [status_eqb map List.length Nat.eqb negb].
  rewrite after_row_triggers_cons. cbn [fst snd].
  rewrite update_inquiry_status_on_offer_eq.
  cbn [set_offer_status bo_status bo_inquiry_id]. rewrite Hdraft.
  cbn [inquiry_status_coupling].
  match goal with
  | |- context [update_inquiry_status ?d1 _ _ _ _] =>
      rewrite (update_inquiry_status_unique d1 uid now (bo_inquiry_id o)
                 offer_sent i Hi)
  end.
  change (caller_is_administrator (set_booking_offers d _) uid)
    with (caller_is_administrator d uid).
  rewrite Hadm, Hst. cbn [validate_status_transition status_eqb status_in
                          existsb orb negb].
  cbv zeta.
  match goal with
  | |- context [create_status_notification ?d1 _ _] =>
      rewrite (create_status_notification_offer_sent d1 (bo_inquiry_id o)
                 (written_inquiry i offer_sent now))
  end.
  2:{ cbn [booking_inquiries set_booking_inquiries set_booking_offers].
      rewrite filter_written, Hi. reflexivity. }
  cbn [profiles set_booking_inquiries set_booking_offers written_inquiry
       bi_trader_id].
  rewrite Hpr. reflexivity.
Qed.

Lemma update_offer_rows_none (d : db) where_ set (rows : list booking_offer) :
  existsb where_ rows = false ->
  update_offer_rows d where_ set rows = Ok (rows, []).
Proof.
  induction rows as [|o rows IH]; intro H; [reflexivity|].
  cbn [existsb] in H. apply orb_false_iff in H. destruct H as [Ho Hr].
  cbn [update_offer_rows]. rewrite Ho, (IH Hr). reflexivity.
Qed.

Lemma offer_rows_sent_none (p : uuid) now (l : list booking_offer) :
  existsb (fun x => (bo_id x =? p) && status_eqb (bo_status x) draft) l = false ->
  offer_rows_sent p now l = l.
Proof.
  unfold offer_rows_sent.
  induction l as [| x l IH]; intro H; [reflexivity |].
  cbn [existsb] in H. apply orb_false_iff in H. destruct H as [Hx Hl].
  cbn [map]. rewrite Hx, (IH Hl). reflexivity.
Qed.

Lemma existsb_filter_nil {A} (f g : A -> bool) (l : list A) :
  filter f l = [] -> existsb (fun x => f x && g x) l = false.
Proof.
  induction l as [| x l IH]; intro H; [reflexivity |].
  cbn [filter] in H. cbn [existsb].
  destruct (f x); [discriminate H |]. cbn [andb orb]. exact (IH H).
Qed.

Lemma existsb_filter_singleton {A} (f g : A -> bool) (l : list A) (a : A) :
  filter f l = [a] -> existsb (fun x => f x && g x) l = g a.
Proof.
  induction l as [| x l IH]; intro H; [discriminate H |].
  cbn [filter] in H. cbn [existsb].
  destruct (f x); cbn [andb orb].
  - injection H as -> H. rewrite (existsb_filter_nil f g l H).
    apply orb_false_r.
  - exact (IH H).
Qed.

(** [send_booking_offer] on a draft offer whose inquiry is at offer_draft. *)
Lemma send_booking_offer_draft (d : db) uid now p
    (o : booking_offer) (i : booking_inquiry) :
  caller_is_administrator d uid = true ->
  validate_offer_for_send d p = Ok true ->
  filter (fun x => bo_id x =? p) (booking_offers d) = [o] ->
  bo_status o = draft ->
  existsb (fun os => (os_offer_id os =? p)
                     && negb (is_null (os_actual_offer_cents os)))
          (offer_summaries d) = true ->
  filter (fun x => bi_id x =? bo_inquiry_id o) (booking_inquiries d) = [i] ->
  bi_status i = offer_draft ->
  existsb (fun pr => pr_user_id pr =? bi_trader_id i) (profiles d) = true ->
  send_booking_offer d uid now p
  = Ok (sent_offer d now p (bo_inquiry_id o) (bi_trader_id i)
          [offer_sent_notification (bi_trader_id i) (bo_inquiry_id o);
           offer_sent_notification (bi_trader_id i) (bo_inquiry_id o)],
        true).
Proof.
  intros Hadm Hval Ho Hdraft Hact Hi Hst Hpr.
  unfold send_booking_offer. rewrite Hadm, Hval. cbn [negb bind].
  rewrite (offer_with_inquiry_filter d p o i Ho Hi). cbn [option_map fst snd].
  rewrite (update_booking_offers_send_draft d uid now p o i
             Hadm Ho Hdraft Hact Hi Hst Hpr).
  cbn [bind fst].
  match goal with
  | |- context [update_inquiry_status ?d1 _ _ _ _] =>
      rewrite (update_inquiry_status_unique d1 uid now (bo_inquiry_id o)
                 offer_sent (written_inquiry i offer_sent now))
  end.
  2:{ unfold sent_offer, inquiry_rows_written.
      cbn [booking_inquiries set_notifications set_booking_inquiries].
      rewrite filter_written, Hi. reflexivity. }
  cbn [written_inquiry bi_status validate_status_transition status_eqb negb].
  cbv zeta. cbn [bind insert_notification].
  pose proof (inquiry_rows_written_twice (bo_inquiry_id o) offer_sent now
                (booking_inquiries d)) as Htw.
  unfold sent_offer, inquiry_rows_written in Htw |- *.
  cbn [notifications booking_inquiries set_notifications set_booking_inquiries
       set_booking_offers].
  rewrite Htw, <- app_assoc. reflexivity.
Qed.

(** [send_booking_offer] on an offer that is not a draft any more and whose
    inquiry is at offer_sent. *)
Lemma send_booking_offer_sent (d : db) uid now p
    (o : booking_offer) (i : booking_inquiry) :
  caller_is_administrator d uid = true ->
  validate_offer_for_send d p = Ok true ->
  filter (fun x => bo_id x =? p) (booking_offers d) = [o] ->
  bo_status o <> draft ->
  filter (fun x => bi_id x =? bo_inquiry_id o) (booking_inquiries d) = [i] ->
  bi_status i = offer_sent ->
  send_booking_offer d uid now p
  = Ok (sent_offer d now p (bo_inquiry_id o) (bi_trader_id i)
          [offer_sent_notification (bi_trader_id i) (bo_inquiry_id o)],
        true)
  /\ offer_rows_sent p now (booking_offers d) = booking_offers d.
Proof.
  intros Hadm Hval Ho Hdraft Hi Hst.
  assert (Hnone : existsb (fun x => (bo_id x =? p)
                                    && status_eqb (bo_status x) draft)
                          (booking_offers d) = false).
  { rewrite (existsb_filter_singleton _ _ _ _ Ho).
    destruct (status_eqb (bo_status o) draft) eqn:E; [| reflexivity].
    apply status_eqb_eq in E. contradiction. }
  split; [| exact (offer_rows_sent_none p now _ Hnone)].
  unfold send_booking_offer. rewrite Hadm, Hval. cbn [negb bind].
  rewrite (offer_with_inquiry_filter d p o i Ho Hi). cbn [option_map fst snd].
  unfold update_booking_offers.
  rewrite (update_offer_rows_none d _ _ _ Hnone).
  cbn [bind fst snd]. unfold after_row_triggers at 1. cbn [fold_left bind fst].
  match goal with
  | |- context [update_inquiry_status ?d1 _ _ _ _] =>
      rewrite (update_inquiry_status_unique d1 uid now (bo_inquiry_id o)
                 offer_sent i Hi)
  end.
  rewrite Hst.
  cbn [validate_status_transition status_eqb negb]. cbv zeta.
  cbn [bind insert_notification].
  unfold sent_offer. rewrite (offer_rows_sent_none p now _ Hnone).
  reflexivity.
Qed.

Lemma find_filter_hd {A} (f : A -> bool) (l : list A) :
  find f l = hd_error (filter f l).
Proof.
  induction l as [| x l IH]; [reflexivity |].
  cbn [find filter]. destruct (f x); [reflexivity | exact IH].
Qed.

(** The validation's verdict when the allocated total is below the
    requested total. *)
Lemma validate_offer_for_send_short (d : db) (p : uuid) (o : booking_offer) :
  find (fun x => bo_id x =? p) (booking_offers d) = Some o ->
  (sum_numeric (map bos_space_allocated_m2 (allocated_spaces d p))
   < total_requested d (Some (bo_inquiry_id o)))%Q ->
  validate_offer_for_send d p
  = Err (Exception "At least one space must be allocated" [])
  \/ validate_offer_for_send d p
     = Err (Exception
              "Total allocated space (%) must meet or exceed requested space (%)"
              [ANumeric (sum_numeric (map bos_space_allocated_m2
                                          (allocated_spaces d p)));
               ANumeric (total_requested d (Some (bo_inquiry_id o)))]).
Proof.
  intros Hfind Hlt. unfold validate_offer_for_send. rewrite Hfind. simpl.
  destruct (Z.of_nat (List.length (allocated_spaces d p)) =? 0);
    [left; reflexivity | right].
  assert (H : numeric_ltb
                (sum_numeric (map bos_space_allocated_m2 (allocated_spaces d p)))
                (total_requested d (Some (bo_inquiry_id o))) = true).
  { apply numeric_ltb_true. exact Hlt. }
  rewrite H. reflexivity.
Qed.

(** The validation passes under the send preconditions. *)
Lemma validate_offer_for_send_ok (d : db) (p : uuid) (o : booking_offer) :
  find (fun x => bo_id x =? p) (booking_offers d) = Some o ->
  In o (booking_offers d) -> bo_id o = p ->
  allocated_spaces d p <> [] ->
  (total_requested d (Some (bo_inquiry_id o))
   <= sum_numeric (map bos_space_allocated_m2 (allocated_spaces d p)))%Q ->
  (forall s, In s (booking_offer_services d) -> bsv_offer_id s = p ->
             bsv_pricing_type s <> "ask_quote" ->
             service_pricing_missing s = false) ->
  0 < bo_total_cost_cents o ->
  validate_offer_for_send d p = Ok true.
Proof.
  intros Hfind Hin Hid Hpos Hge Hsv Hcost.
  unfold validate_offer_for_send. rewrite Hfind. simpl.
  assert (Hcount : (Z.of_nat (List.length (allocated_spaces d p)) =? 0) = false).
  { destruct (allocated_spaces d p); [contradiction | reflexivity]. }
  rewrite Hcount.
  assert (Hlt : numeric_ltb
                  (sum_numeric (map bos_space_allocated_m2 (allocated_spaces d p)))
                  (total_requested d (Some (bo_inquiry_id o))) = false).
  { apply numeric_ltb_false. exact Hge. }
  rewrite Hlt.
  assert (Hserv : existsb (fun s0 =>
                     (bsv_offer_id s0 =? p)
                     && negb (String.eqb (bsv_pricing_type s0) "ask_quote")
                     && service_pricing_missing s0)
                    (booking_offer_services d) = false).
  { destruct (existsb _ (booking_offer_services d)) eqn:E; [| reflexivity].
    apply existsb_exists in E. destruct E as [x [Hx E]].
    apply andb_prop in E. destruct E as [E E3].
    apply andb_prop in E. destruct E as [E1 E2].
    apply Z.eqb_eq in E1.
    rewrite (Hsv x Hx E1) in E3; [discriminate E3 |].
    intro Hq. rewrite Hq in E2. discriminate E2. }
  rewrite Hserv.
  assert (Htot : existsb (fun x => (bo_id x =? p) && (0 <? bo_total_cost_cents x))
                         (booking_offers d) = true).
  { apply existsb_exists. exists o. split; [exact Hin |].
    rewrite Hid, Z.eqb_refl. simpl. apply Z.ltb_lt. exact Hcost. }
  rewrite Htot. reflexivity.
Qed.

Lemma sent_offer_rows (d : db) now p (o : booking_offer) inquiry_id trader_id
    added :
  filter (fun x => bo_id x =? p) (booking_offers d) = [o] ->
  bo_status o = draft ->
  (exists o', In o' (booking_offers
                       (sent_offer d now p inquiry_id trader_id added))
              /\ bo_id o' = p)
  /\ (forall o', In o' (booking_offers
                          (sent_offer d now p inquiry_id trader_id added)) ->
                 bo_id o' = p ->
                 bo_status o' = offer_sent
                 /\ bo_valid_until o' = bo_valid_until o)
  /\ (forall i', In i' (booking_inquiries
                          (sent_offer d now p inquiry_id trader_id added)) ->
                 bi_id i' = inquiry_id ->
                 bi_status i' = offer_sent
                 /\ bi_valid_until i' = Some (now + 604800000000)).
Proof.
  intros Ho Hdraft.
  destruct (filter_singleton_self _ _ _ Ho) as [Hin Hid].
  unfold sent_offer, offer_rows_sent, inquiry_rows_written.
  cbn [booking_offers booking_inquiries set_notifications
       set_booking_inquiries set_booking_offers].
  split; [| split].
  - exists (set_offer_status offer_sent now o).
    split; [| apply Z.eqb_eq; exact Hid].
    apply in_map_iff. exists o. split; [| exact Hin].
    rewrite Hid, Hdraft. reflexivity.
  - intros o' Ho' Hid'. apply in_map_iff in Ho'. destruct Ho' as [x [<- Hx]].
    assert (x = o).
    { apply (filter_singleton_in _ _ _ _ Ho Hx). apply Z.eqb_eq.
      destruct ((bo_id x =? p) && status_eqb (bo_status x) draft);
        exact Hid'. }
    subst x. rewrite Hid, Hdraft. split; reflexivity.
  - intros i' Hi' Hid'. apply in_map_iff in Hi'. destruct Hi' as [x [<- Hx]].
    destruct (bi_id x =? inquiry_id) eqn:E; [split; reflexivity |].
    apply Z.eqb_neq in E. contradiction.
Qed.

(** C4, as the code has it.  [send_booking_offer] fails whenever the
    positive sizes allocated to the offer sum to less than the inquiry's
    requested total, for an administrator with the validation's 'At least
    one space must be allocated' or 'Total allocated space (%) must meet or
    exceed requested space (%)'; rows with a size that is not positive are
    left out of the sum.  When the sum reaches the requested total and the
    other send preconditions hold (administrator, draft offer, a positive
    allocation, priced services, a positive total cost, a headline figure
    in the summary, the inquiry at offer_draft and its trader with a
    profile), the call returns true and the offer's status becomes
    [offer_sent]; the offer's [valid_until] keeps the value stored with it,
    and it is the inquiry that moves to offer_sent with its [valid_until]
    set to the time of the call plus seven days. *)
Theorem send_booking_offer_allocation_check :
  forall d uid now p o,
    filter (fun x => bo_id x =? p) (booking_offers d) = [o] ->
    ((sum_numeric (map bos_space_allocated_m2 (allocated_spaces d p))
      < total_requested d (Some (bo_inquiry_id o)))%Q ->
       (exists e, send_booking_offer d uid now p = Err e)
       /\ commit d (send_booking_offer d uid now p) = d
       /\ (caller_is_administrator d uid = true ->
           send_booking_offer d uid now p
           = Err (Exception "At least one space must be allocated" [])
           \/ send_booking_offer d uid now p
              = Err (Exception
                       "Total allocated space (%) must meet or exceed requested space (%)"
                       [ANumeric (sum_numeric (map bos_space_allocated_m2
                                                   (allocated_spaces d p)));
                        ANumeric (total_requested d (Some (bo_inquiry_id o)))])))
    /\ ((total_requested d (Some (bo_inquiry_id o))
         <= sum_numeric (map bos_space_allocated_m2 (allocated_spaces d p)))%Q ->
        caller_is_administrator d uid = true ->
        bo_status o = draft ->
        allocated_spaces d p <> [] ->
        (forall s, In s (booking_offer_services d) -> bsv_offer_id s = p ->
                   bsv_pricing_type s <> "ask_quote" ->
                   service_pricing_missing s = false) ->
        0 < bo_total_cost_cents o ->
        (exists os, In os (offer_summaries d) /\ os_offer_id os = p
                    /\ os_actual_offer_cents os <> None) ->
        forall i,
          filter (fun x => bi_id x =? bo_inquiry_id o) (booking_inquiries d)
          = [i] ->
          bi_status i = offer_draft ->
          (exists pr, In pr (profiles d) /\ pr_user_id pr = bi_trader_id i) ->
          exists d',
            send_booking_offer d uid now p = Ok (d', true)
            /\ (exists o', In o' (booking_offers d') /\ bo_id o' = p)
            /\ (forall o', In o' (booking_offers d') -> bo_id o' = p ->
                  bo_status o' = offer_sent
                  /\ bo_valid_until o' = bo_valid_until o)
            /\ (forall i', In i' (booking_inquiries d') ->
                  bi_id i' = bo_inquiry_id o ->
                  bi_status i' = offer_sent
                  /\ bi_valid_until i' = Some (now + 604800000000))).
Proof.
  intros d uid now p o Ho.
  destruct (filter_singleton_self _ _ _ Ho) as [Hin Hid].
  apply Z.eqb_eq in Hid.
  assert (Hfind : find (fun x => bo_id x =? p) (booking_offers d) = Some o).
  { rewrite find_filter_hd, Ho. reflexivity. }
  split.
  - intro Hlt.
    assert (Hv := validate_offer_for_send_short d p o Hfind Hlt).
    assert (Hadm : caller_is_administrator d uid = true ->
              send_booking_offer d uid now p
              = Err (Exception "At least one space must be allocated" [])
              \/ send_booking_offer d uid now p
                 = Err (Exception
                          "Total allocated space (%) must meet or exceed requested space (%)"
                          [ANumeric (sum_numeric (map bos_space_allocated_m2
                                                      (allocated_spaces d p)));
                           ANumeric (total_requested d (Some (bo_inquiry_id o)))])).
    { intro Ha. unfold send_booking_offer. rewrite Ha. cbn [negb].
      destruct Hv as [-> | ->]; [left | right]; reflexivity. }
    assert (Herr : exists e, send_booking_offer d uid now p = Err e).
    { destruct (caller_is_administrator d uid) eqn:Ha.
      - destruct (Hadm eq_refl) as [E | E]; rewrite E; eexists; reflexivity.
      - unfold send_booking_offer. rewrite Ha. eexists. reflexivity. }
    split; [exact Herr |]. split; [| exact Hadm].
    destruct Herr as [e ->]. reflexivity.
  - intros Hge Hadm Hdraft Hpos Hsv Hcost [os [Hos [Hosid Hact]]]
           i Hi Hst [pr [Hpr Hprid]].
    eexists. split.
    + apply (send_booking_offer_draft d uid now p o i Hadm); try assumption.
      * exact (validate_offer_for_send_ok d p o Hfind Hin Hid Hpos Hge Hsv Hcost).
      * apply existsb_exists. exists os. split; [exact Hos |].
        rewrite Hosid, Z.eqb_refl.
        destruct (os_actual_offer_cents os); [reflexivity | contradiction].
      * apply existsb_exists. exists pr. split; [exact Hpr |].
        apply Z.eqb_eq. exact Hprid.
    + exact (sent_offer_rows d now p o _ _ _ Ho Hdraft).
Qed.

Lemma send_booking_offer_allocation_check_witness :
  exists d',
    send_booking_offer (sample_db draft (Some 90000)) (Some 1) 1000 10
    = Ok (d', true)
    /\ (forall o', In o' (booking_offers d') -> bo_id o' = 10 ->
          bo_status o' = offer_sent /\ bo_valid_until o' = 5)
    /\ (forall i', In i' (booking_inquiries d') -> bi_id i' = 100 ->
          bi_status i' = offer_sent
          /\ bi_valid_until i' = Some 604800001000).
Proof.
  destruct (send_booking_offer_allocation_check
              (sample_db draft (Some 90000)) (Some 1) 1000 10 (sample_offer draft)
              eq_refl)
    as [_ H].
  destruct (H ltac:(unfold Qle; simpl; lia) eq_refl eq_refl
              ltac:(simpl; discriminate)
              ltac:(simpl; intros s [])
              ltac:(simpl; lia)
              ltac:(eexists; split; [simpl; left; reflexivity |];
                    split; [reflexivity | simpl; discriminate])
              {| bi_id := 100; bi_trader_id := 2; bi_status := offer_draft;
                 bi_estimated_cost_cents := Some 80000; bi_valid_until := None;
                 bi_updated_at := 0 |}
              eq_refl eq_refl
              ltac:(eexists; split; [simpl; left; reflexivity | reflexivity]))
    as [d' [H1 [_ [H3 H4]]]].
  exists d'. split; [exact H1 |]. split; [exact H3 | exact H4].
Defined.

(** Sending an offer whose allocation covers the request succeeds and moves
    it to [offer_sent], and its [valid_until] stays at the stored value
    instead of becoming the send time plus seven days.  And an offer whose
    sizes sum to less than the requested total is sent all the same when
    the positive ones reach it: 60 m2 and -20 m2 against 50 m2. *)
Lemma send_booking_offer_keeps_valid_until :
  (Qle (total_requested (sample_db draft (Some 90000)) (Some 100))
       (sum_numeric (map bos_space_allocated_m2
                         (offer_spaces (sample_db draft (Some 90000)) 10)))
   /\ match send_booking_offer (sample_db draft (Some 90000)) (Some 1) 1000 10 with
      | Ok (d', b) =>
          b = true
          /\ map (fun o => (bo_status o, bo_valid_until o)) (booking_offers d')
             = [(offer_sent, 5)]
          /\ 5 <> 1000 + 604800000000
      | Err _ => False
      end)
  /\ (Qlt (sum_numeric (map bos_space_allocated_m2
                            (offer_spaces negative_row_db 10)))
          (total_requested negative_row_db (Some 100))
      /\ match send_booking_offer negative_row_db (Some 1) 1000 10 with
         | Ok (d', b) =>
             b = true
             /\ map bo_status (booking_offers d') = [offer_sent]
         | Err _ => False
         end).
Proof.
  split; split.
  - unfold Qle. simpl. lia.
  - vm_compute. repeat split; try reflexivity. intro H. discriminate H.
  - vm_compute. reflexivity.
  - vm_compute. split; reflexivity.
Qed.

(** The body of the first [send_booking_offer] reads no allocation table:
    for an administrator it returns without raising, and it assigns
    [status] and [updated_at] only, never [valid_until]. *)
Lemma first_send_booking_offer_no_validation (d : OfferSchema.db) uid now p :
  is_administrator (OfferSchema.user_roles d) (OfferSchema.roles d) uid = true ->
  exists d' b,
    OfferSchema.send_booking_offer d uid now p = Ok (d', b)
    /\ map OfferSchema.bo_valid_until (OfferSchema.booking_offers d')
       = map OfferSchema.bo_valid_until (OfferSchema.booking_offers d).
Proof.
  intro Hadm. unfold OfferSchema.send_booking_offer. rewrite Hadm. simpl.
  eexists. eexists. split; [reflexivity |]. simpl.
  rewrite map_map. apply map_ext. intro bo.
  destruct ((OfferSchema.bo_id bo =? p)
            && String.eqb (OfferSchema.bo_status bo) "draft"); reflexivity.
Qed.

(* ================================================================== *)
(** * Further properties of the status machine *)

(** X1.  The statuses no role can leave are exactly rejected, cancelled,
    expired and archived: from each of them [validate_status_transition]
    permits only the unchanged status, and from every other status it
    permits some role a change. *)
Theorem terminal_statuses (s : unified_status) :
  (forall t is_admin, validate_status_transition s t is_admin = true -> t = s)
  <-> status_in s [rejected; cancelled; expired; archived] = true.
Proof.
  split.
  - intro H.
    destruct s; try reflexivity; exfalso.
    + specialize (H submitted false eq_refl); discriminate.
    + specialize (H under_review true eq_refl); discriminate.
    + specialize (H offer_draft true eq_refl); discriminate.
    + specialize (H offer_sent true eq_refl); discriminate.
    + specialize (H accepted false eq_refl); discriminate.
    + specialize (H offer_draft true eq_refl); discriminate.
    + specialize (H confirmed true eq_refl); discriminate.
    + specialize (H completed true eq_refl); discriminate.
    + specialize (H archived true eq_refl); discriminate.
  - intros H t is_admin Ht.
    destruct s; cbv in H; try discriminate H; destruct t, is_admin;
      solve [reflexivity | cbv in Ht; discriminate Ht].
Qed.

(** X2.  The two roles never share a transition: a change of status that
    [validate_status_transition] permits to an administrator it refuses to
    a trader, and the other way round; only the unchanged status is
    permitted to both. *)
Theorem roles_share_no_transition (s t : unified_status) :
  validate_status_transition s t true && validate_status_transition s t false
  = status_eqb s t.
Proof. destruct s, t; reflexivity. Qed.

Lemma expired_not_entered (t : unified_status) (is_admin : bool) :
  validate_status_transition t expired is_admin = true -> t = expired.
Proof.
  destruct t, is_admin; intro H; solve [reflexivity | cbv in H; discriminate H].
Qed.

(** X3.  From draft, chains of permitted transitions lead to every status
    except expired, and to expired they never lead. *)
Theorem reachable_from_draft (s : unified_status) :
  reachable draft s <-> s <> expired.
Proof.
  split.
  - intro H. induction H as [|t u a Ht IH Hv].
    + discriminate.
    + intro Hu. subst u. apply IH. exact (expired_not_entered t a Hv).
  - intro Hs.
    assert (R1 : reachable draft submitted)
      by exact (reach_step draft draft submitted false (reach_here draft) eq_refl).
    assert (R2 : reachable draft under_review)
      by exact (reach_step draft submitted under_review true R1 eq_refl).
    assert (R3 : reachable draft offer_draft)
      by exact (reach_step draft under_review offer_draft true R2 eq_refl).
    assert (R4 : reachable draft offer_sent)
      by exact (reach_step draft offer_draft offer_sent true R3 eq_refl).
    assert (R5 : reachable draft accepted)
      by exact (reach_step draft offer_sent accepted false R4 eq_refl).
    assert (R6 : reachable draft confirmed)
      by exact (reach_step draft accepted confirmed true R5 eq_refl).
    assert (R7 : reachable draft completed)
      by exact (reach_step draft confirmed completed true R6 eq_refl).
    destruct s.
    + apply reach_here.
    + exact R1.
    + exact R2.
    + exact R3.
    + exact R4.
    + exact (reach_step draft offer_sent changes_requested false R4 eq_refl).
    + exact R5.
    + exact (reach_step draft offer_sent rejected false R4 eq_refl).
    + exact (reach_step draft draft cancelled false (reach_here draft) eq_refl).
    + contradiction Hs; reflexivity.
    + exact R6.
    + exact R7.
    + exact (reach_step draft completed archived true R7 eq_refl).
Qed.

(** X4.  The transition trigger lets a row become expired only when it is
    expired already: its branch that clears [valid_until] never runs on a
    change of status. *)
Theorem handle_status_transition_never_expires
    (urs : list user_role) (rs : list role) (uid : option uuid)
    (now : timestamptz) (OLD NEW row : status_row) :
  handle_status_transition urs rs uid now OLD NEW = Ok row ->
  sr_status row = expired ->
  sr_status OLD = expired.
Proof.
  unfold handle_status_transition.
  destruct (validate_status_transition (sr_status OLD) (sr_status NEW)
              (is_administrator urs rs uid)) eqn:Hv; cbn [negb]; [|discriminate].
  intros H Hrow. injection H as H. subst row. cbn in Hrow.
  assert (Hnew : sr_status NEW = expired).
  { destruct (sr_status NEW) eqn:E; cbn in Hrow; try rewrite E in Hrow;
      solve [discriminate Hrow | reflexivity]. }
  rewrite Hnew in Hv. exact (expired_not_entered _ _ Hv).
Qed.

Lemma handle_status_transition_never_expires_witness :
  sr_status
    {| sr_status := expired; sr_valid_until := Some 5; sr_updated_at := 1 |}
  = expired.
Proof.
  apply (handle_status_transition_never_expires [] [] None 9
           {| sr_status := expired; sr_valid_until := Some 5; sr_updated_at := 1 |}
           {| sr_status := expired; sr_valid_until := Some 5; sr_updated_at := 2 |}
           {| sr_status := expired; sr_valid_until := None; sr_updated_at := 9 |});
    reflexivity.
Defined.

Lemma valid_validate (s t : unified_status) (a : bool) :
  StatusTransitionFunction.valid s t a = validate_status_transition s t a.
Proof. destruct s, t, a; reflexivity. Qed.

(** X5.  The two revisions of the transition trigger accept the same
    changes and return the same row; where the one of "Add Unified Status
    Workflow" raises, the one of "Add Status Transition Function" raises
    too, and its message is never NULL. *)
Theorem transition_trigger_revisions_agree
    (urs : list user_role) (rs : list role) (uid : option uuid)
    (now : timestamptz) (OLD NEW : status_row) :
  match handle_status_transition urs rs uid now OLD NEW with
  | Ok row =>
      StatusTransitionFunction.handle_status_transition urs rs uid now OLD NEW
      = StatusTransitionFunction.Returned row
  | Err _ =>
      exists m,
        StatusTransitionFunction.handle_status_transition urs rs uid now OLD NEW
        = StatusTransitionFunction.Raised "Invalid status transition: %" (Some m)
  end.
Proof.
  unfold handle_status_transition,
    StatusTransitionFunction.handle_status_transition.
  rewrite valid_validate.
  destruct (validate_status_transition (sr_status OLD) (sr_status NEW)
              (is_administrator urs rs uid)) eqn:Hv; cbn [negb].
  - reflexivity.
  - destruct (sr_status OLD), (sr_status NEW), (is_administrator urs rs uid);
      cbv in Hv; try discriminate Hv; eexists; reflexivity.
Qed.

(** X6.  A caller who is not an administrator and changes the status of a
    row that is neither draft nor offer_sent is always refused, with the
    message 'You cannot change the status at this stage'. *)
Theorem trader_cannot_change_at_this_stage
    (urs : list user_role) (rs : list role) (uid : option uuid)
    (now : timestamptz) (OLD NEW : status_row) :
  is_administrator urs rs uid = false ->
  status_in (sr_status OLD) [draft; offer_sent] = false ->
  sr_status NEW <> sr_status OLD ->
  StatusTransitionFunction.handle_status_transition urs rs uid now OLD NEW
  = StatusTransitionFunction.Raised "Invalid status transition: %"
      (Some "You cannot change the status at this stage").
Proof.
  intros Ha Hold Hne.
  unfold StatusTransitionFunction.handle_status_transition.
  rewrite Ha.
  destruct (sr_status OLD), (sr_status NEW); cbv in Hold;
    try discriminate Hold; try (contradiction Hne; reflexivity); reflexivity.
Qed.

Lemma trader_cannot_change_at_this_stage_witness :
  StatusTransitionFunction.handle_status_transition [] [] (Some 7) 9
    {| sr_status := submitted; sr_valid_until := None; sr_updated_at := 1 |}
    {| sr_status := cancelled; sr_valid_until := None; sr_updated_at := 1 |}
  = StatusTransitionFunction.Raised "Invalid status transition: %"
      (Some "You cannot change the status at this stage").
Proof.
  apply (trader_cannot_change_at_this_stage [] [] (Some 7) 9
           {| sr_status := submitted; sr_valid_until := None; sr_updated_at := 1 |}
           {| sr_status := cancelled; sr_valid_until := None; sr_updated_at := 1 |});
    [reflexivity | reflexivity | discriminate].
Defined.

(* ================================================================== *)
(** * Notifications on inquiry status *)

Lemma v_admin_ids_administrator (d : db) (u : uuid) :
  In u (v_admin_ids d) <-> is_administrator (user_roles d) (roles d) (Some u) = true.
Proof.
  unfold v_admin_ids, is_administrator.
  rewrite in_flat_map, existsb_exists.
  split.
  - intros [ur [Hur Hin]].
    apply in_map_iff in Hin. destruct Hin as [r [Hu Hr]].
    apply filter_In in Hr. destruct Hr as [Hr Hc].
    apply andb_true_iff in Hc. destruct Hc as [Hid Hname].
    exists ur. split; [exact Hur|].
    apply existsb_exists. exists r. split; [exact Hr|].
    rewrite Hid, Hname, Hu, Z.eqb_refl. reflexivity.
  - intros [ur [Hur Hex]].
    apply existsb_exists in Hex. destruct Hex as [r [Hr Hc]].
    apply andb_true_iff in Hc. destruct Hc as [Hc Hname].
    apply andb_true_iff in Hc. destruct Hc as [Hid Hu].
    apply Z.eqb_eq in Hu.
    exists ur. split; [exact Hur|].
    apply in_map_iff. exists r. split; [exact Hu|].
    apply filter_In. split; [exact Hr|].
    rewrite Hid, Hname. reflexivity.
Qed.

(** X7.  When an inquiry becomes submitted or changes_requested, the
    notification trigger adds notifications for that inquiry whose
    recipients are exactly the users holding the administrator role, and
    writes nothing else. *)
Theorem handle_status_notification_administrators (d : db) (NEW : booking_inquiry) :
  status_in (bi_status NEW) [submitted; changes_requested] = true ->
  exists added,
    handle_status_notification d NEW
    = Inserted (set_notifications d (notifications d ++ added))
    /\ (forall u, In u (map n_user_id added)
                  <-> is_administrator (user_roles d) (roles d) (Some u) = true)
    /\ (forall n, In n added -> n_inquiry_id n = Some (bi_id NEW)).
Proof.
  intro Hs. unfold handle_status_notification, notify_admins.
  destruct (bi_status NEW); cbv in Hs; try discriminate Hs;
    (eexists; split; [reflexivity|]; split;
     [ intro u; rewrite map_map; cbn [n_user_id]; rewrite map_id;
       apply v_admin_ids_administrator
     | intros n Hn; apply in_map_iff in Hn; destruct Hn as [a [Hn _]];
       subst n; reflexivity ]).
Qed.

Lemma handle_status_notification_administrators_witness :
  exists added,
    handle_status_notification (sample_db draft None)
      {| bi_id := 10; bi_trader_id := 20; bi_status := submitted;
         bi_estimated_cost_cents := None; bi_valid_until := None;
         bi_updated_at := 0 |}
    = Inserted (set_notifications (sample_db draft None)
                  (notifications (sample_db draft None) ++ added))
    /\ (forall u, In u (map n_user_id added)
                  <-> is_administrator (user_roles (sample_db draft None))
                        (roles (sample_db draft None)) (Some u) = true)
    /\ (forall n, In n added -> n_inquiry_id n = Some 10).
Proof.
  apply (handle_status_notification_administrators (sample_db draft None)
           {| bi_id := 10; bi_trader_id := 20; bi_status := submitted;
              bi_estimated_cost_cents := None; bi_valid_until := None;
         bi_updated_at := 0 |}).
  reflexivity.
Defined.

(** X8.  The notification for an accepted inquiry is never stored: the
    label 'offer_accepted' the trigger function inserts is none of the
    labels of [notification_type], so the branch for accepted ends in the
    error of the cast, whatever the tables hold, and the update of the
    status that fired the trigger fails with it. *)
Theorem handle_status_notification_accepted (d : db) (NEW : booking_inquiry) :
  bi_status NEW = accepted <->
  handle_status_notification d NEW
  = Invalid_input_value_for_enum "notification_type" "offer_accepted".
Proof.
  unfold handle_status_notification, notify_admins. split.
  - intros ->. reflexivity.
  - destruct (bi_status NEW); try reflexivity; cbn [negb existsb];
      try discriminate.
    destruct (option_map _ _); discriminate.
Qed.

(* ================================================================== *)
(** * Read status of messages *)

Lemma is_read_app (l1 l2 : list MessageReadStatus.read_status) (m v : uuid) :
  MessageReadStatus.is_read (l1 ++ l2) m v
  = MessageReadStatus.is_read l1 m v || MessageReadStatus.is_read l2 m v.
Proof. unfold MessageReadStatus.is_read. apply existsb_app. Qed.

Lemma is_read_insert (msgs : list MessageReadStatus.booking_message)
    (ids : list uuid) :
  forall (l l' : list MessageReadStatus.read_status) (u m v : uuid),
    MessageReadStatus.insert_read_status msgs l ids u = inl l' ->
    MessageReadStatus.is_read l' m v
    = MessageReadStatus.is_read l m v
      || ((v =? u) && existsb (Z.eqb m) ids).
Proof.
  induction ids as [|id rest IH]; intros l l' u m v H;
    cbn [MessageReadStatus.insert_read_status existsb] in *.
  - injection H as H. subst l'. rewrite andb_false_r, orb_false_r. reflexivity.
  - destruct (MessageReadStatus.is_read l id u) eqn:Hr.
    + rewrite (IH _ _ _ _ _ H).
      destruct (MessageReadStatus.is_read l m v) eqn:Hm; [reflexivity|].
      cbn [orb].
      destruct (v =? u) eqn:Hv; [|reflexivity]. cbn [andb].
      destruct (m =? id) eqn:Hid; [|reflexivity].
      apply Z.eqb_eq in Hv. apply Z.eqb_eq in Hid. subst v m.
      rewrite Hr in Hm. discriminate Hm.
    + destruct (negb _); [discriminate H|].
      rewrite (IH _ _ _ _ _ H), is_read_app.
      unfold MessageReadStatus.is_read at 2.
      cbn [existsb MessageReadStatus.rs_message_id MessageReadStatus.rs_user_id].
      rewrite orb_false_r.
      rewrite (Z.eqb_sym id m), (Z.eqb_sym u v).
      destruct (MessageReadStatus.is_read l m v), (v =? u), (m =? id),
        (existsb (Z.eqb m) rest); reflexivity.
Qed.

Lemma filter_length_ext {A} (f g : A -> bool) (l : list A) :
  (forall x, In x l -> f x = g x) ->
  List.length (filter f l) = List.length (filter g l).
Proof.
  intro H. rewrite (filter_ext_in f g l H). reflexivity.
Qed.

Lemma mark_messages_read_fields
    (d d' : MessageReadStatus.db) (u : uuid) (ids : list uuid) :
  MessageReadStatus.mark_messages_read d (Some u) ids = inl d' ->
  MessageReadStatus.user_roles d' = MessageReadStatus.user_roles d
  /\ MessageReadStatus.roles d' = MessageReadStatus.roles d
  /\ MessageReadStatus.profiles d' = MessageReadStatus.profiles d
  /\ MessageReadStatus.booking_inquiries d' = MessageReadStatus.booking_inquiries d
  /\ MessageReadStatus.booking_messages d' = MessageReadStatus.booking_messages d
  /\ MessageReadStatus.insert_read_status (MessageReadStatus.booking_messages d)
       (MessageReadStatus.message_read_status d) ids u
     = inl (MessageReadStatus.message_read_status d').
Proof.
  intro H.
  destruct ids as [|id rest]; unfold MessageReadStatus.mark_messages_read in H.
  - injection H as H. subst d'. repeat split; reflexivity.
  - destruct (MessageReadStatus.insert_read_status _ _ (id :: rest) u) as [l|e];
      [|discriminate H].
    injection H as H. subst d'. repeat split; reflexivity.
Qed.

(** X9.  After a user has marked messages read, that user's unread count
    is the number of messages that were counted before and are not among
    the marked ids. *)
Theorem mark_messages_read_count
    (d d' : MessageReadStatus.db) (u : uuid) (ids : list uuid) :
  MessageReadStatus.mark_messages_read d (Some u) ids = inl d' ->
  MessageReadStatus.get_unread_message_count d' u
  = Z.of_nat (List.length
      (filter (fun m => MessageReadStatus.counted d u m
                        && negb (existsb (Z.eqb (MessageReadStatus.m_id m)) ids))
              (MessageReadStatus.booking_messages d))).
Proof.
  intro H.
  destruct (mark_messages_read_fields d d' u ids H) as (H1 & H2 & _ & H3 & H4 & H5).
  unfold MessageReadStatus.get_unread_message_count.
  rewrite H4. apply f_equal.
  apply filter_length_ext. intros m _.
  unfold MessageReadStatus.counted.
  rewrite H1, H2, H3, (is_read_insert _ _ _ _ _ _ _ H5), Z.eqb_refl.
  cbn [andb]. rewrite negb_orb, andb_assoc. reflexivity.
Qed.

Lemma mark_messages_read_count_witness :
  MessageReadStatus.get_unread_message_count
    (sample_messages [{| MessageReadStatus.rs_message_id := 100;
                         MessageReadStatus.rs_user_id := 2 |}]) 2
  = 0.
Proof.
  rewrite (mark_messages_read_count (sample_messages [])
             (sample_messages [{| MessageReadStatus.rs_message_id := 100;
                                  MessageReadStatus.rs_user_id := 2 |}])
             2 [100]);
    reflexivity.
Defined.

Lemma filter_none_length {A} (f : A -> bool) (l : list A) :
  (forall x, In x l -> f x = false) -> List.length (filter f l) = 0%nat.
Proof.
  induction l as [|a l IH]; intro H; [reflexivity|].
  cbn [filter]. rewrite (H a (or_introl eq_refl)).
  apply IH. intros x Hx. apply H. right. exact Hx.
Qed.

Lemma insert_read_status_known (msgs : list MessageReadStatus.booking_message)
    (ids : list uuid) :
  (forall id, In id ids ->
     existsb (fun m => MessageReadStatus.m_id m =? id) msgs = true) ->
  forall l u, exists l', MessageReadStatus.insert_read_status msgs l ids u = inl l'.
Proof.
  induction ids as [|id rest IH]; intros Hk l u;
    cbn [MessageReadStatus.insert_read_status].
  - exists l. reflexivity.
  - assert (Hrest : forall x, In x rest ->
              existsb (fun m => MessageReadStatus.m_id m =? x) msgs = true)
      by (intros x Hx; apply Hk; right; exact Hx).
    destruct (MessageReadStatus.is_read l id u); [apply (IH Hrest)|].
    rewrite (Hk id (or_introl eq_refl)). cbn [negb]. apply (IH Hrest).
Qed.

(** X10.  A user who marks every message read has no unread message
    left: the call goes through and the count is 0 afterwards. *)
Theorem mark_all_messages_read (d : MessageReadStatus.db) (u : uuid) :
  exists d',
    MessageReadStatus.mark_messages_read d (Some u)
      (map MessageReadStatus.m_id (MessageReadStatus.booking_messages d)) = inl d'
    /\ MessageReadStatus.get_unread_message_count d' u = 0.
Proof.
  assert (Hex : exists d',
            MessageReadStatus.mark_messages_read d (Some u)
              (map MessageReadStatus.m_id (MessageReadStatus.booking_messages d))
            = inl d').
  { unfold MessageReadStatus.mark_messages_read.
    destruct (map MessageReadStatus.m_id (MessageReadStatus.booking_messages d))
      as [|id rest] eqn:E; [exists d; reflexivity|].
    destruct (insert_read_status_known (MessageReadStatus.booking_messages d)
                (id :: rest)) with (l := MessageReadStatus.message_read_status d)
                                   (u := u) as [l' Hl'].
    - rewrite <- E. intros x Hx. apply in_map_iff in Hx.
      destruct Hx as [m [Hm Hin]]. apply existsb_exists. exists m.
      split; [exact Hin | apply Z.eqb_eq; exact Hm].
    - rewrite Hl'. eexists. reflexivity. }
  destruct Hex as [d' Hd']. exists d'. split; [exact Hd'|].
  destruct (mark_messages_read_fields d d' u _ Hd') as (_ & _ & _ & _ & H4 & H5).
  unfold MessageReadStatus.get_unread_message_count.
  rewrite H4, filter_none_length; [reflexivity|].
  intros m Hm'.
  assert (He : existsb (Z.eqb (MessageReadStatus.m_id m))
                 (map MessageReadStatus.m_id (MessageReadStatus.booking_messages d))
               = true).
  { apply existsb_exists. exists (MessageReadStatus.m_id m).
    split; [apply in_map; exact Hm' | apply Z.eqb_refl]. }
  unfold MessageReadStatus.counted.
  rewrite (is_read_insert _ _ _ _ _ _ _ H5), Z.eqb_refl, He.
  cbn [andb]. rewrite orb_true_r. apply andb_false_r.
Qed.

(** X11.  Marking messages read is per user: it leaves the unread count of
    every other user as it was. *)
Theorem mark_messages_read_other_user
    (d d' : MessageReadStatus.db) (u v : uuid) (ids : list uuid) :
  v <> u ->
  MessageReadStatus.mark_messages_read d (Some u) ids = inl d' ->
  MessageReadStatus.get_unread_message_count d' v
  = MessageReadStatus.get_unread_message_count d v.
Proof.
  intros Hvu H.
  destruct (mark_messages_read_fields d d' u ids H) as (H1 & H2 & _ & H3 & H4 & H5).
  unfold MessageReadStatus.get_unread_message_count.
  rewrite H4. apply f_equal.
  apply filter_length_ext. intros m _.
  unfold MessageReadStatus.counted.
  rewrite H1, H2, H3, (is_read_insert _ _ _ _ _ _ _ H5).
  apply Z.eqb_neq in Hvu. rewrite Hvu. cbn [andb].
  rewrite orb_false_r. reflexivity.
Qed.

Lemma mark_messages_read_other_user_witness :
  MessageReadStatus.get_unread_message_count
    (sample_messages [{| MessageReadStatus.rs_message_id := 100;
                         MessageReadStatus.rs_user_id := 1 |}]) 2
  = MessageReadStatus.get_unread_message_count (sample_messages []) 2.
Proof.
  apply (mark_messages_read_other_user (sample_messages [])
           (sample_messages [{| MessageReadStatus.rs_message_id := 100;
                                MessageReadStatus.rs_user_id := 1 |}])
           1 2 [100]);
    [discriminate | reflexivity].
Defined.

Lemma insert_read_status_all_read (msgs : list MessageReadStatus.booking_message)
    (ids : list uuid) :
  forall (l : list MessageReadStatus.read_status) (u : uuid),
    (forall m, In m ids -> MessageReadStatus.is_read l m u = true) ->
    MessageReadStatus.insert_read_status msgs l ids u = inl l.
Proof.
  induction ids as [|id rest IH]; intros l u H; [reflexivity|].
  cbn [MessageReadStatus.insert_read_status].
  rewrite (H id (or_introl eq_refl)).
  apply IH. intros m Hm. apply H. right. exact Hm.
Qed.

(** X12.  Marking the same messages read a second time changes nothing
    and cannot fail. *)
Theorem mark_messages_read_twice
    (d d' : MessageReadStatus.db) (u : uuid) (ids : list uuid) :
  MessageReadStatus.mark_messages_read d (Some u) ids = inl d' ->
  MessageReadStatus.mark_messages_read d' (Some u) ids = inl d'.
Proof.
  intro H.
  destruct (mark_messages_read_fields d d' u ids H) as (_ & _ & _ & _ & _ & H5).
  destruct ids as [|id rest]; [reflexivity|].
  unfold MessageReadStatus.mark_messages_read.
  rewrite insert_read_status_all_read.
  - destruct d'; reflexivity.
  - intros m Hm. rewrite (is_read_insert _ _ _ _ _ _ _ H5), Z.eqb_refl.
    cbn [andb].
    assert (He : existsb (Z.eqb m) (id :: rest) = true).
    { apply existsb_exists. exists m. split; [exact Hm | apply Z.eqb_refl]. }
    rewrite He. apply orb_true_r.
Qed.

Lemma mark_messages_read_twice_witness :
  MessageReadStatus.mark_messages_read
    (sample_messages [{| MessageReadStatus.rs_message_id := 100;
                         MessageReadStatus.rs_user_id := 1 |}])
    (Some 1) [100; 100]
  = inl (sample_messages [{| MessageReadStatus.rs_message_id := 100;
                             MessageReadStatus.rs_user_id := 1 |}]).
Proof.
  apply (mark_messages_read_twice (sample_messages [])
           (sample_messages [{| MessageReadStatus.rs_message_id := 100;
                                MessageReadStatus.rs_user_id := 1 |}])
           1 [100; 100]).
  reflexivity.
Defined.

Lemma is_read_false_not_in (l : list MessageReadStatus.read_status) (m u : uuid) :
  MessageReadStatus.is_read l m u = false ->
  ~ In (m, u)
       (map (fun rs => (MessageReadStatus.rs_message_id rs,
                        MessageReadStatus.rs_user_id rs)) l).
Proof.
  intros H Hin. apply in_map_iff in Hin. destruct Hin as [rs [Heq Hrs]].
  injection Heq as Hm Hu.
  assert (Ht : MessageReadStatus.is_read l m u = true).
  { apply existsb_exists. exists rs. split; [exact Hrs|].
    rewrite Hm, Hu, !Z.eqb_refl. reflexivity. }
  rewrite Ht in H. discriminate H.
Qed.

Lemma NoDup_snoc {A} (l : list A) (x : A) :
  NoDup l -> ~ In x l -> NoDup (l ++ [x]).
Proof.
  induction l as [|a l IH]; intros Hl Hx; cbn [app].
  - constructor; [intros []| constructor].
  - inversion Hl as [|a' l' Ha Hl']. subst.
    constructor.
    + intro Hin. apply in_app_or in Hin. destruct Hin as [Hin|[Hin|[]]].
      * exact (Ha Hin).
      * apply Hx. left. symmetry. exact Hin.
    + apply IH; [exact Hl'|]. intro Hin. apply Hx. right. exact Hin.
Qed.

Lemma insert_read_status_NoDup (msgs : list MessageReadStatus.booking_message)
    (ids : list uuid) :
  forall (l l' : list MessageReadStatus.read_status) (u : uuid),
    MessageReadStatus.insert_read_status msgs l ids u = inl l' ->
    NoDup (map (fun rs => (MessageReadStatus.rs_message_id rs,
                           MessageReadStatus.rs_user_id rs)) l) ->
    NoDup (map (fun rs => (MessageReadStatus.rs_message_id rs,
                           MessageReadStatus.rs_user_id rs)) l').
Proof.
  induction ids as [|id rest IH]; intros l l' u Hi H;
    cbn [MessageReadStatus.insert_read_status] in Hi.
  - injection Hi as Hi. subst l'. exact H.
  - destruct (MessageReadStatus.is_read l id u) eqn:Hr.
    + exact (IH _ _ _ Hi H).
    + destruct (negb _); [discriminate Hi|].
      apply (IH _ _ _ Hi). rewrite map_app.
      cbn [map MessageReadStatus.rs_message_id MessageReadStatus.rs_user_id].
      apply NoDup_snoc; [exact H | apply is_read_false_not_in; exact Hr].
Qed.

(** X13.  [mark_messages_read] keeps [message_read_status] free of
    duplicate (message, user) pairs, whatever ids it is given, repeated ids
    included. *)
Theorem mark_messages_read_unique
    (d d' : MessageReadStatus.db) (auth_uid : option uuid) (ids : list uuid) :
  NoDup (map (fun rs => (MessageReadStatus.rs_message_id rs,
                         MessageReadStatus.rs_user_id rs))
             (MessageReadStatus.message_read_status d)) ->
  MessageReadStatus.mark_messages_read d auth_uid ids = inl d' ->
  NoDup (map (fun rs => (MessageReadStatus.rs_message_id rs,
                         MessageReadStatus.rs_user_id rs))
             (MessageReadStatus.message_read_status d')).
Proof.
  intros Hd H.
  destruct auth_uid as [u|].
  - destruct (mark_messages_read_fields d d' u ids H) as (_ & _ & _ & _ & _ & H5).
    exact (insert_read_status_NoDup _ _ _ _ _ H5 Hd).
  - destruct ids as [|id rest]; [|discriminate H].
    injection H as H. subst d'. exact Hd.
Qed.

Lemma mark_messages_read_unique_witness :
  NoDup (map (fun rs => (MessageReadStatus.rs_message_id rs,
                         MessageReadStatus.rs_user_id rs))
             (MessageReadStatus.message_read_status
                (sample_messages [{| MessageReadStatus.rs_message_id := 100;
                                     MessageReadStatus.rs_user_id := 1 |}]))).
Proof.
  apply (mark_messages_read_unique (sample_messages [])
           (sample_messages [{| MessageReadStatus.rs_message_id := 100;
                                MessageReadStatus.rs_user_id := 1 |}])
           (Some 1) [100; 100]).
  - constructor.
  - reflexivity.
Defined.

(* ================================================================== *)
(** * Sending and answering an offer, text statuses *)

Lemma map_unselected {A} (sel : A -> bool) (f : A -> A) (l : list A) :
  existsb sel l = false ->
  map (fun x => if sel x then f x else x) l = l.
Proof.
  induction l as [|a l IH]; intro H; [reflexivity|].
  cbn [existsb] in H. apply orb_false_iff in H. destruct H as [Ha Hl].
  cbn [map]. rewrite Ha, (IH Hl). reflexivity.
Qed.

Lemma existsb_map_selected {A} (sel : A -> bool) (f : A -> A) (l : list A) :
  (forall x, sel (f x) = false) ->
  existsb sel (map (fun x => if sel x then f x else x) l) = false.
Proof.
  intro Hf. induction l as [|a l IH]; [reflexivity|].
  cbn [map existsb]. rewrite IH, orb_false_r.
  destruct (sel a) eqn:Ha; [apply Hf | exact Ha].
Qed.

Lemma existsb_map_keys {A} (g : A -> bool) (f : A -> A) (l : list A) :
  (forall x, g (f x) = g x) ->
  existsb g (map f l) = existsb g l.
Proof.
  intro H. induction l as [|a l IH]; [reflexivity|].
  cbn [map existsb]. rewrite H, IH. reflexivity.
Qed.

Lemma respond_to_offer_no_sent_row
    (d : OfferSchema.db) (auth_uid : option uuid) (now : timestamptz)
    (p : uuid) (action : string) :
  action = "accept" \/ action = "reject" ->
  OfferSchema.caller_owns_inquiry d auth_uid p = true ->
  existsb (fun bo => (OfferSchema.bo_id bo =? p)
                     && String.eqb (OfferSchema.bo_status bo) "sent")
          (OfferSchema.booking_offers d) = false ->
  OfferSchema.respond_to_offer d auth_uid now p action = Ok (d, false).
Proof.
  intros Hact Hown Hnone.
  unfold OfferSchema.respond_to_offer.
  assert (Hvalid : negb (String.eqb action "accept" || String.eqb action "reject")
                   = false).
  { destruct Hact as [-> | ->]; reflexivity. }
  rewrite Hvalid, Hown, Hnone. cbn [negb].
  rewrite andb_false_r.
  rewrite map_unselected by exact Hnone.
  destruct d; reflexivity.
Qed.

(** X14.  When the trader of the inquiry answers an offer of which no row
    is in status 'sent' (a draft, or an offer answered already),
    [respond_to_offer] returns false and leaves offers and bookings as they
    are. *)
Theorem respond_to_offer_not_sent
    (d : OfferSchema.db) (u : uuid) (now : timestamptz)
    (p : uuid) (action : string) :
  action = "accept" \/ action = "reject" ->
  trader_owns_offer d u p ->
  (forall bo, In bo (OfferSchema.booking_offers d) ->
              OfferSchema.bo_id bo = p -> OfferSchema.bo_status bo <> "sent") ->
  OfferSchema.respond_to_offer d (Some u) now p action = Ok (d, false).
Proof.
  intros Hact Hown Hnone.
  apply respond_to_offer_no_sent_row; [exact Hact | |].
  - apply caller_owns_inquiry_true. exact Hown.
  - destruct (existsb _ (OfferSchema.booking_offers d)) eqn:E; [|reflexivity].
    exfalso. apply existsb_exists in E. destruct E as [bo [Hbo E]].
    apply andb_true_iff in E. destruct E as [E1 E2].
    apply Z.eqb_eq in E1. apply String.eqb_eq in E2.
    exact (Hnone bo Hbo E1 E2).
Qed.

Lemma respond_to_offer_not_sent_witness :
  OfferSchema.respond_to_offer (sample_text_db "draft") (Some 2) 1000 10 "accept"
  = Ok (sample_text_db "draft", false).
Proof.
  apply (respond_to_offer_not_sent (sample_text_db "draft") 2 1000 10 "accept").
  - left; reflexivity.
  - exists {| OfferSchema.bo_id := 10; OfferSchema.bo_inquiry_id := 100;
              OfferSchema.bo_status := "draft";
              OfferSchema.bo_valid_until := 5;
              OfferSchema.bo_updated_at := 0 |},
           {| OfferSchema.bi_id := 100; OfferSchema.bi_trader_id := 2 |}.
    repeat split; left; reflexivity.
  - intros bo [<- | []] _. discriminate.
Defined.

(** X15.  An offer is answered once: after a call of [respond_to_offer]
    that went through, a second answer to the same offer, accept or reject,
    returns false, creates no booking and changes nothing. *)
Theorem respond_to_offer_twice
    (d d1 : OfferSchema.db) (auth_uid : option uuid) (now now' : timestamptz)
    (p : uuid) (action action' : string) (b : bool) :
  OfferSchema.respond_to_offer d auth_uid now p action = Ok (d1, b) ->
  action' = "accept" \/ action' = "reject" ->
  OfferSchema.respond_to_offer d1 auth_uid now' p action' = Ok (d1, false).
Proof.
  intros H Hact'.
  unfold OfferSchema.respond_to_offer in H.
  destruct (negb (String.eqb action "accept" || String.eqb action "reject"))
    eqn:Hvalid; [discriminate H|].
  destruct (OfferSchema.caller_owns_inquiry d auth_uid p) eqn:Hown;
    cbn [negb] in H; [|discriminate H].
  assert (Hnew : String.eqb
                   (if String.eqb action "accept" then "accepted" else "rejected")
                   "sent" = false).
  { destruct (String.eqb action "accept"); reflexivity. }
  match type of H with
  | context [map ?f (OfferSchema.booking_offers d)] => set (upd := f) in H
  end.
  assert (Hown1 : forall bk,
            OfferSchema.caller_owns_inquiry
              {| OfferSchema.user_roles := OfferSchema.user_roles d;
                 OfferSchema.roles := OfferSchema.roles d;
                 OfferSchema.booking_inquiries := OfferSchema.booking_inquiries d;
                 OfferSchema.booking_offers :=
                   map upd (OfferSchema.booking_offers d);
                 OfferSchema.bookings := bk |} auth_uid p = true).
  { intro bk. rewrite <- Hown. unfold OfferSchema.caller_owns_inquiry.
    destruct auth_uid as [u|]; [|reflexivity].
    cbn [OfferSchema.booking_offers OfferSchema.booking_inquiries].
    apply existsb_map_keys. intro bo. unfold upd.
    destruct ((OfferSchema.bo_id bo =? p)
              && String.eqb (OfferSchema.bo_status bo) "sent"); reflexivity. }
  assert (Hnone : existsb (fun bo => (OfferSchema.bo_id bo =? p)
                             && String.eqb (OfferSchema.bo_status bo) "sent")
                    (map upd (OfferSchema.booking_offers d)) = false).
  { unfold upd. apply existsb_map_selected.
    intro bo. cbn [OfferSchema.bo_id OfferSchema.bo_status].
    rewrite Hnew. apply andb_false_r. }
  destruct (String.eqb action "accept"
            && existsb _ (OfferSchema.booking_offers d));
    injection H as H _; subst d1;
    apply respond_to_offer_no_sent_row;
    solve [exact Hact' | apply Hown1 | exact Hnone].
Qed.

Lemma respond_to_offer_twice_witness :
  OfferSchema.respond_to_offer (sample_text_db "rejected") (Some 2) 2000 10 "accept"
  = Ok (sample_text_db "rejected", false).
Proof.
  apply (respond_to_offer_twice (sample_text_db "sent")
           (sample_text_db "rejected") (Some 2) 0 2000 10 "reject" "accept" true).
  - reflexivity.
  - left; reflexivity.
Defined.

Lemma send_booking_offer_no_draft_row
    (d : OfferSchema.db) (auth_uid : option uuid) (now : timestamptz) (p : uuid) :
  is_administrator (OfferSchema.user_roles d) (OfferSchema.roles d) auth_uid = true ->
  existsb (fun bo => (OfferSchema.bo_id bo =? p)
                     && String.eqb (OfferSchema.bo_status bo) "draft")
          (OfferSchema.booking_offers d) = false ->
  OfferSchema.send_booking_offer d auth_uid now p = Ok (d, false).
Proof.
  intros Hadm Hnone. unfold OfferSchema.send_booking_offer.
  rewrite Hadm, Hnone. cbn [negb].
  rewrite map_unselected by exact Hnone.
  destruct d; reflexivity.
Qed.

(** X16.  An offer is sent once: after a call of [send_booking_offer] of
    the offer schema that went through, sending the same offer again
    returns false and changes nothing, the time of the update included. *)
Theorem offer_sent_once
    (d d1 : OfferSchema.db) (auth_uid : option uuid) (now now' : timestamptz)
    (p : uuid) (b : bool) :
  OfferSchema.send_booking_offer d auth_uid now p = Ok (d1, b) ->
  OfferSchema.send_booking_offer d1 auth_uid now' p = Ok (d1, false).
Proof.
  intro H. unfold OfferSchema.send_booking_offer in H.
  destruct (is_administrator (OfferSchema.user_roles d) (OfferSchema.roles d)
              auth_uid) eqn:Hadm; cbn [negb] in H; [|discriminate H].
  injection H as H _. subst d1.
  apply send_booking_offer_no_draft_row; [exact Hadm|].
  cbn [OfferSchema.booking_offers].
  apply existsb_map_selected. intro bo. apply andb_false_r.
Qed.

Lemma offer_sent_once_witness :
  OfferSchema.send_booking_offer (sample_text_db "sent") (Some 1) 2000 10
  = Ok (sample_text_db "sent", false).
Proof.
  apply (offer_sent_once (sample_text_db "draft") (sample_text_db "sent")
           (Some 1) 0 2000 10 true).
  reflexivity.
Defined.

Lemma respond_to_offer_accept_sent
    (d : OfferSchema.db) (auth_uid : option uuid) (now : timestamptz) (p : uuid) :
  OfferSchema.caller_owns_inquiry d auth_uid p = true ->
  existsb (fun bo => (OfferSchema.bo_id bo =? p)
                     && String.eqb (OfferSchema.bo_status bo) "sent")
          (OfferSchema.booking_offers d) = true ->
  exists d2,
    OfferSchema.respond_to_offer d auth_uid now p "accept" = Ok (d2, true)
    /\ (exists bk, In bk (OfferSchema.bookings d2)
                   /\ OfferSchema.b_offer_id bk = p
                   /\ OfferSchema.b_status bk = "confirmed"
                   /\ OfferSchema.b_created_at bk = now)
    /\ (forall bo, In bo (OfferSchema.booking_offers d2) ->
                   OfferSchema.bo_id bo = p ->
                   OfferSchema.bo_status bo <> "sent").
Proof.
  intros Hown Hfound.
  unfold OfferSchema.respond_to_offer.
  change (String.eqb "accept" "accept") with true.
  cbn [orb negb]. rewrite Hown, Hfound. cbn [negb andb].
  match goal with
  | |- context [map ?f (OfferSchema.booking_offers d)] => set (upd := f)
  end.
  match goal with
  | |- context [List.length ?l] => set (inserted := l)
  end.
  apply existsb_exists in Hfound. destruct Hfound as [bo [Hbo Hsel]].
  assert (Hid : OfferSchema.bo_id bo = p).
  { apply andb_true_iff in Hsel. destruct Hsel as [Hid _].
    apply Z.eqb_eq. exact Hid. }
  assert (Hrow : In {| OfferSchema.b_inquiry_id := OfferSchema.bo_inquiry_id bo;
                       OfferSchema.b_offer_id := p;
                       OfferSchema.b_status := "confirmed";
                       OfferSchema.b_created_at := now;
                       OfferSchema.b_updated_at := now |} inserted).
  { unfold inserted. apply in_map_iff. exists (upd bo).
    unfold upd at 1 2. rewrite Hsel.
    cbn [OfferSchema.bo_id OfferSchema.bo_inquiry_id].
    split; [rewrite Hid; reflexivity|].
    apply filter_In. split.
    - apply in_map. exact Hbo.
    - unfold upd. rewrite Hsel. cbn [OfferSchema.bo_id]. rewrite Hid.
      apply Z.eqb_refl. }
  assert (Hlen : negb (Nat.eqb (List.length inserted) 0) = true).
  { destruct inserted; [contradiction | reflexivity]. }
  rewrite Hlen.
  eexists. split; [reflexivity|]. split.
  - eexists. split.
    + cbn [OfferSchema.bookings]. apply in_or_app. right. exact Hrow.
    + repeat split.
  - cbn [OfferSchema.booking_offers]. intros x Hx Hxid Hxs.
    assert (Hnone : existsb (fun bo => (OfferSchema.bo_id bo =? p)
                               && String.eqb (OfferSchema.bo_status bo) "sent")
                      (map upd (OfferSchema.booking_offers d)) = false).
    { unfold upd. apply existsb_map_selected. intro y. apply andb_false_r. }
    assert (Hsome : existsb (fun bo => (OfferSchema.bo_id bo =? p)
                               && String.eqb (OfferSchema.bo_status bo) "sent")
                      (map upd (OfferSchema.booking_offers d)) = true).
    { apply existsb_exists. exists x. split; [exact Hx|].
      rewrite Hxid, Hxs, Z.eqb_refl. reflexivity. }
    rewrite Hsome in Hnone. discriminate Hnone.
Qed.

(** X17.  Sending and accepting compose: once the administrator's
    [send_booking_offer] has returned true for an offer, the trader of its
    inquiry can accept it; [respond_to_offer] then returns true, the stored
    result holds a confirmed booking of that offer, and no row of the offer
    is left in status 'sent'. *)
Theorem send_then_accept
    (d d1 : OfferSchema.db) (admin : option uuid) (u : uuid)
    (now now' : timestamptz) (p : uuid) :
  OfferSchema.send_booking_offer d admin now p = Ok (d1, true) ->
  trader_owns_offer d u p ->
  exists d2,
    OfferSchema.respond_to_offer d1 (Some u) now' p "accept" = Ok (d2, true)
    /\ (exists bk, In bk (OfferSchema.bookings d2)
                   /\ OfferSchema.b_offer_id bk = p
                   /\ OfferSchema.b_status bk = "confirmed"
                   /\ OfferSchema.b_created_at bk = now')
    /\ (forall bo, In bo (OfferSchema.booking_offers d2) ->
                   OfferSchema.bo_id bo = p ->
                   OfferSchema.bo_status bo <> "sent").
Proof.
  intros H Hown. unfold OfferSchema.send_booking_offer in H.
  destruct (is_administrator (OfferSchema.user_roles d) (OfferSchema.roles d)
              admin); cbn [negb] in H; [|discriminate H].
  injection H as H Hfound. subst d1.
  match goal with
  | |- context [map ?f (OfferSchema.booking_offers d)] => set (upd := f)
  end.
  apply respond_to_offer_accept_sent.
  - rewrite <- (caller_owns_inquiry_true d u p Hown).
    unfold OfferSchema.caller_owns_inquiry.
    cbn [OfferSchema.booking_offers OfferSchema.booking_inquiries].
    apply existsb_map_keys. intro bo. unfold upd.
    destruct ((OfferSchema.bo_id bo =? p)
              && String.eqb (OfferSchema.bo_status bo) "draft"); reflexivity.
  - cbn [OfferSchema.booking_offers].
    apply existsb_exists in Hfound. destruct Hfound as [bo [Hbo Hsel]].
    apply existsb_exists. exists (upd bo). split; [apply in_map; exact Hbo|].
    unfold upd. rewrite Hsel. cbn [OfferSchema.bo_id OfferSchema.bo_status].
    apply andb_true_iff in Hsel. destruct Hsel as [Hid _]. rewrite Hid.
    reflexivity.
Qed.

Lemma send_then_accept_witness :
  exists d2,
    OfferSchema.respond_to_offer (sample_text_db "sent") (Some 2) 2000 10 "accept"
    = Ok (d2, true)
    /\ (exists bk, In bk (OfferSchema.bookings d2)
                   /\ OfferSchema.b_offer_id bk = 10
                   /\ OfferSchema.b_status bk = "confirmed"
                   /\ OfferSchema.b_created_at bk = 2000)
    /\ (forall bo, In bo (OfferSchema.booking_offers d2) ->
                   OfferSchema.bo_id bo = 10 ->
                   OfferSchema.bo_status bo <> "sent").
Proof.
  apply (send_then_accept (sample_text_db "draft") (sample_text_db "sent")
           (Some 1) 2 0 2000 10).
  - reflexivity.
  - exists {| OfferSchema.bo_id := 10; OfferSchema.bo_inquiry_id := 100;
              OfferSchema.bo_status := "draft";
              OfferSchema.bo_valid_until := 5;
              OfferSchema.bo_updated_at := 0 |},
           {| OfferSchema.bi_id := 100; OfferSchema.bi_trader_id := 2 |}.
    repeat split; left; reflexivity.
Defined.

(* ================================================================== *)
(** * Sending an offer: what a successful call leaves behind *)

(** X18.  A [send_booking_offer] that meets the send preconditions returns
    true and leaves exactly this behind: the draft row of the offer is set
    to offer_sent with the time of the call, the row of its inquiry is
    written with status offer_sent, and two 'offer_sent' notifications for
    that inquiry are added, addressed to its trader: the one the
    notification trigger of [booking_inquiries] inserts when the inquiry
    moves, and the one the function inserts itself.  No other offer or
    inquiry row, no allocation row, term or summary is touched. *)
Theorem send_booking_offer_effects
    (d : db) (uid : option uuid) (now : timestamptz) (p : uuid)
    (o : booking_offer) (i : booking_inquiry) :
  caller_is_administrator d uid = true ->
  validate_offer_for_send d p = Ok true ->
  filter (fun x => bo_id x =? p) (booking_offers d) = [o] ->
  bo_status o = draft ->
  existsb (fun os => (os_offer_id os =? p)
                     && negb (is_null (os_actual_offer_cents os)))
          (offer_summaries d) = true ->
  filter (fun x => bi_id x =? bo_inquiry_id o) (booking_inquiries d) = [i] ->
  bi_status i = offer_draft ->
  existsb (fun pr => pr_user_id pr =? bi_trader_id i) (profiles d) = true ->
  exists d',
    send_booking_offer d uid now p = Ok (d', true)
    /\ notifications d'
       = notifications d ++
         [{| n_user_id := bi_trader_id i;
             n_type := "offer_sent";
             n_title := "New Offer Available";
             n_message := "A new offer is available for your inquiry";
             n_inquiry_id := Some (bo_inquiry_id o) |};
          {| n_user_id := bi_trader_id i;
             n_type := "offer_sent";
             n_title := "New Offer Available";
             n_message := "A new offer is available for your inquiry";
             n_inquiry_id := Some (bo_inquiry_id o) |}]
    /\ booking_offers d'
       = map (fun x => if bo_id x =? p
                       then set_offer_status offer_sent now x else x)
             (booking_offers d)
    /\ booking_inquiries d'
       = map (fun x => if bi_id x =? bo_inquiry_id o
                       then {| bi_id := bi_id x;
                               bi_trader_id := bi_trader_id x;
                               bi_status := offer_sent;
                               bi_estimated_cost_cents :=
                                 bi_estimated_cost_cents x;
                               bi_valid_until := Some (now + 604800000000);
                               bi_updated_at := now |}
                       else x)
             (booking_inquiries d)
    /\ booking_offer_spaces d' = booking_offer_spaces d
    /\ booking_offer_services d' = booking_offer_services d
    /\ booking_offer_terms d' = booking_offer_terms d
    /\ offer_summaries d' = offer_summaries d
    /\ booking_inquiry_space_requests d' = booking_inquiry_space_requests d.
Proof.
  intros Hadm Hval Ho Hdraft Hact Hi Hst Hpr.
  eexists. split.
  - exact (send_booking_offer_draft d uid now p o i
             Hadm Hval Ho Hdraft Hact Hi Hst Hpr).
  - unfold sent_offer, offer_rows_sent, inquiry_rows_written.
    cbn [notifications booking_offers booking_inquiries booking_offer_spaces
         booking_offer_services booking_offer_terms offer_summaries
         booking_inquiry_space_requests set_notifications
         set_booking_inquiries set_booking_offers].
    split; [reflexivity |].
    split; [| repeat split].
    apply map_ext_in. intros x Hx.
    destruct (bo_id x =? p) eqn:E; [| reflexivity].
    rewrite (filter_singleton_in _ _ _ _ Ho Hx E), Hdraft. reflexivity.
Qed.

Lemma send_booking_offer_effects_witness :
  exists d',
    send_booking_offer (sample_db draft (Some 90000)) (Some 1) 1000 10
    = Ok (d', true)
    /\ map n_user_id (notifications d') = [2; 2]
    /\ map bo_status (booking_offers d') = [offer_sent]
    /\ map bi_status (booking_inquiries d') = [offer_sent].
Proof.
  destruct (send_booking_offer_effects (sample_db draft (Some 90000)) (Some 1)
              1000 10 (sample_offer draft)
              {| bi_id := 100; bi_trader_id := 2; bi_status := offer_draft;
                 bi_estimated_cost_cents := Some 80000; bi_valid_until := None;
                 bi_updated_at := 0 |}
              eq_refl eq_refl eq_refl eq_refl eq_refl eq_refl eq_refl eq_refl)
    as [d' [H1 [H2 [H3 [H4 _]]]]].
  exists d'. split; [exact H1 |].
  rewrite H2, H3, H4. repeat split.
Defined.

(** X19.  [validate_offer_for_send] passes exactly when the offer has a
    space row with a positive size, the sizes of those rows add up to at
    least the size the inquiry asks for, every service of the offer that is
    not quote-only has the price fields of its pricing type, and an offer
    row with that id has a positive total; it never returns false. *)
Theorem validate_offer_for_send_passes (d : db) (p : uuid) :
  (validate_offer_for_send d p = Ok true
   <-> allocated_spaces d p <> []
       /\ Qle (total_requested d
                 (option_map bo_inquiry_id
                    (find (fun o => bo_id o =? p) (booking_offers d))))
              (sum_numeric (map bos_space_allocated_m2 (allocated_spaces d p)))
       /\ (forall s, In s (booking_offer_services d) -> bsv_offer_id s = p ->
                     bsv_pricing_type s <> "ask_quote" ->
                     service_pricing_missing s = false)
       /\ (exists o, In o (booking_offers d) /\ bo_id o = p
                     /\ 0 < bo_total_cost_cents o))
  /\ validate_offer_for_send d p <> Ok false.
Proof.
  unfold validate_offer_for_send.
  set (req := total_requested d _).
  set (alloc := sum_numeric _).
  set (svc := existsb _ (booking_offer_services d)).
  set (cost := existsb _ (booking_offers d)).
  assert (Hsvc : svc = false <->
                 (forall s, In s (booking_offer_services d) -> bsv_offer_id s = p ->
                            bsv_pricing_type s <> "ask_quote" ->
                            service_pricing_missing s = false)).
  { unfold svc. split.
    - intros H s Hs Hid Hq.
      destruct (service_pricing_missing s) eqn:Hm; [|reflexivity].
      assert (Ht : existsb (fun s => (bsv_offer_id s =? p)
                              && negb (String.eqb (bsv_pricing_type s) "ask_quote")
                              && service_pricing_missing s)
                     (booking_offer_services d) = true).
      { apply existsb_exists. exists s. split; [exact Hs|].
        rewrite Hid, Z.eqb_refl, Hm.
        apply String.eqb_neq in Hq. rewrite Hq. reflexivity. }
      rewrite Ht in H. discriminate H.
    - intro H.
      destruct (existsb _ (booking_offer_services d)) eqn:E; [|reflexivity].
      apply existsb_exists in E. destruct E as [s [Hs E]].
      apply andb_true_iff in E. destruct E as [E Hm].
      apply andb_true_iff in E. destruct E as [Hid Hq].
      apply Z.eqb_eq in Hid. apply negb_true_iff in Hq.
      apply String.eqb_neq in Hq.
      rewrite (H s Hs Hid Hq) in Hm. discriminate Hm. }
  assert (Hcost : cost = true <->
                  exists o, In o (booking_offers d) /\ bo_id o = p
                            /\ 0 < bo_total_cost_cents o).
  { unfold cost. rewrite existsb_exists. split.
    - intros [o [Ho E]]. apply andb_true_iff in E. destruct E as [E1 E2].
      exists o. repeat split; [exact Ho | apply Z.eqb_eq; exact E1
                               | apply Z.ltb_lt; exact E2].
    - intros [o [Ho [E1 E2]]]. exists o. split; [exact Ho|].
      apply andb_true_iff. split; [apply Z.eqb_eq; exact E1
                                  | apply Z.ltb_lt; exact E2]. }
  assert (Hcount : (Z.of_nat (List.length (allocated_spaces d p)) =? 0) = false
                   <-> allocated_spaces d p <> []).
  { destruct (allocated_spaces d p) as [|s l].
    - split; [discriminate | intro H; contradiction H; reflexivity].
    - split; [discriminate | reflexivity]. }
  destruct (Z.of_nat (List.length (allocated_spaces d p)) =? 0) eqn:Ec.
  { split; [|discriminate]. split; [discriminate|].
    intros [H _]. apply Hcount in H. discriminate H. }
  destruct (numeric_ltb alloc req) eqn:El.
  { split; [|discriminate]. split; [discriminate|].
    intros [_ [H _]]. apply numeric_ltb_true in El.
    exfalso. exact (Qlt_not_le _ _ El H). }
  destruct svc eqn:Es.
  { split; [|discriminate]. split; [discriminate|].
    intros [_ [_ [H _]]]. apply Hsvc in H. discriminate H. }
  destruct cost eqn:Eco; cbn [negb].
  - split; [|discriminate]. split; [|reflexivity].
    intros _. split; [apply Hcount; reflexivity|].
    split; [apply numeric_ltb_false; exact El|].
    split; [apply Hsvc; reflexivity | apply Hcost; reflexivity].
  - split; [|discriminate]. split; [discriminate|].
    intros [_ [_ [_ H]]]. apply Hcost in H. discriminate H.
Qed.

(* ================================================================== *)
(** * Replacing an offer: [update_booking_offer] as a whole *)

Lemma update_spaces_from_nil (d : db) (p : uuid) (l : list space_json) :
  forall rows t,
    update_spaces d p l rows t
    = match update_spaces d p l [] t with
      | Ok (app, t') => Ok (rows ++ app, t')
      | Err e => Err e
      end.
Proof.
  induction l as [|v l IH]; intros rows t; cbn [update_spaces].
  - rewrite app_nil_r. reflexivity.
  - destruct (sj_space_id v) as [sid|]; [|reflexivity].
    cbv zeta. unfold insert_booking_offer_space.
    cbn [bos_offer_id bos_space_id space_row].
    destruct (negb (existsb (Z.eqb sid) (m_warehouse_spaces d))); [reflexivity|].
    destruct (negb (offer_exists d p)); [reflexivity|].
    cbn [bind].
    destruct (bigint_add t (coalesce (sj_offer_total_cents v) 0)) as [t1|e];
      cbn [bind]; [|reflexivity].
    rewrite (IH (rows ++ [space_row p sid v]) t1).
    rewrite (IH ([] ++ [space_row p sid v]) t1).
    destruct (update_spaces d p l [] t1) as [[ins t']|e]; [|reflexivity].
    cbn [app]. rewrite <- app_assoc. reflexivity.
Qed.

Lemma update_services_from_nil (d : db) (p : uuid) (l : list service_json) :
  forall rows t,
    update_services d p l rows t
    = match update_services d p l [] t with
      | Ok (app, t') => Ok (rows ++ app, t')
      | Err e => Err e
      end.
Proof.
  induction l as [|v l IH]; intros rows t; cbn [update_services].
  - rewrite app_nil_r. reflexivity.
  - destruct (vj_service_id v) as [sid|]; [|reflexivity].
    destruct (negb (existsb (Z.eqb sid) (warehouse_services d))); [reflexivity|].
    unfold insert_booking_offer_service.
    destruct (negb (pricing_type_check _)); [reflexivity|].
    destruct (negb (offer_exists d _)); [reflexivity|].
    cbn [bind].
    destruct (bigint_add t (coalesce (vj_offer_total_cents v) 0)) as [t1|e];
      cbn [bind]; [|reflexivity].
    rewrite (IH (rows ++ [service_row p sid v]) t1).
    rewrite (IH ([] ++ [service_row p sid v]) t1).
    destruct (update_services d p l [] t1) as [[ins t']|e]; [|reflexivity].
    cbn [app]. rewrite <- app_assoc. reflexivity.
Qed.

Lemma insert_terms_from_nil (d : db) (p : uuid) (l : list term_json) :
  forall rows,
    insert_terms d p l rows
    = match insert_terms d p l [] with
      | Ok app => Ok (rows ++ app)
      | Err e => Err e
      end.
Proof.
  induction l as [|v l IH]; intro rows; cbn [insert_terms].
  - rewrite app_nil_r. reflexivity.
  - destruct (tj_term_type v) as [ty|]; [|reflexivity].
    destruct (tj_description v) as [de|]; [|reflexivity].
    unfold insert_booking_offer_term.
    destruct (negb (offer_exists d _)); [reflexivity|].
    cbn [bind].
    rewrite (IH (rows ++ _)). rewrite (IH ([] ++ _)).
    destruct (insert_terms d p l []) as [ins|e]; [|reflexivity].
    cbn [app]. rewrite <- app_assoc. reflexivity.
Qed.

Lemma update_spaces_tables (d1 d : db) (p : uuid) (l : list space_json) :
  m_warehouse_spaces d1 = m_warehouse_spaces d ->
  offer_exists d1 p = offer_exists d p ->
  forall rows t, update_spaces d1 p l rows t = update_spaces d p l rows t.
Proof.
  intros Hm Ho. induction l as [|v l IH]; intros rows t; cbn [update_spaces];
    [reflexivity|].
  unfold insert_booking_offer_space. cbn [bos_offer_id space_row].
  destruct (sj_space_id v) as [sid|]; [|reflexivity].
  cbv zeta. cbn [bos_space_id space_row]. rewrite Hm, Ho.
  destruct (negb (existsb (Z.eqb sid) (m_warehouse_spaces d))); [reflexivity|].
  destruct (negb (offer_exists d p)); [reflexivity|]. cbn [bind].
  destruct (bigint_add _ _); cbn [bind]; [apply IH | reflexivity].
Qed.

Lemma update_services_tables (d1 d : db) (p : uuid) (l : list service_json) :
  warehouse_services d1 = warehouse_services d ->
  offer_exists d1 p = offer_exists d p ->
  forall rows t, update_services d1 p l rows t = update_services d p l rows t.
Proof.
  intros Hm Ho. induction l as [|v l IH]; intros rows t; cbn [update_services];
    [reflexivity|].
  unfold insert_booking_offer_service. cbn [bsv_offer_id service_row].
  rewrite Hm, Ho. destruct (vj_service_id v); [|reflexivity].
  destruct (negb (existsb _ _)); [reflexivity|].
  destruct (negb (pricing_type_check _)); [reflexivity|].
  destruct (negb (offer_exists d p)); [reflexivity|]. cbn [bind].
  destruct (bigint_add _ _); cbn [bind]; [apply IH | reflexivity].
Qed.

Lemma insert_terms_tables (d1 d : db) (p : uuid) (l : list term_json) :
  offer_exists d1 p = offer_exists d p ->
  forall rows, insert_terms d1 p l rows = insert_terms d p l rows.
Proof.
  intros Ho. induction l as [|v l IH]; intros rows; cbn [insert_terms];
    [reflexivity|].
  unfold insert_booking_offer_term. cbn [bot_offer_id].
  rewrite Ho. destruct (tj_term_type v); [|reflexivity].
  destruct (tj_description v); [|reflexivity].
  destruct (negb (offer_exists d p)); [reflexivity|]. cbn [bind].
  apply IH.
Qed.

Lemma check_upsert_offer_summary_tables (d1 d : db) p quoted calc actual st svt
    now :
  offer_summaries_table d1 = offer_summaries_table d ->
  offer_summaries d1 = offer_summaries d ->
  offer_exists d1 p = offer_exists d p ->
  check_upsert_offer_summary d1 p quoted calc actual st svt now
  = check_upsert_offer_summary d p quoted calc actual st svt now.
Proof.
  intros Ht Hs Ho. unfold check_upsert_offer_summary, check_offer_summary.
  rewrite Ht, Hs, Ho. reflexivity.
Qed.

Lemma existsb_upsert_offer_summary (l : list offer_summary) now p quoted calc
    actual st sv :
  existsb (fun os => os_offer_id os =? p)
          (upsert_offer_summary l now p quoted calc actual st sv) = true.
Proof.
  unfold upsert_offer_summary.
  destruct (existsb (fun os => os_offer_id os =? p) l) eqn:E.
  - rewrite existsb_map_keys; [exact E|].
    intro os. cbv beta.
    destruct (os_offer_id os =? p) eqn:Hp; cbn [os_offer_id];
      rewrite ?Hp; reflexivity.
  - rewrite existsb_app. cbn [existsb os_offer_id]. rewrite Z.eqb_refl.
    rewrite orb_true_r. reflexivity.
Qed.

(** The foreign key of the summary is met once: a row of the offer, when
    there is one, is updated in place. *)
Lemma check_upsert_offer_summary_replaced (d : db) now p T V N sp sv tm st svt
    calc quoted' calc' actual' st' svt' now' :
  existsb (fun os => os_offer_id os =? p) (offer_summaries d) = true
  \/ offer_exists d p = true ->
  check_upsert_offer_summary
    (replaced_offer d now p T V N sp sv tm st svt calc)
    p quoted' calc' actual' st' svt' now'
  = check_upsert_offer_summary d p quoted' calc' actual' st' svt' now'.
Proof.
  intro H. unfold check_upsert_offer_summary, check_offer_summary.
  cbn [offer_summaries_table offer_summaries replaced_offer].
  rewrite existsb_upsert_offer_summary.
  destruct H as [H | H]; [rewrite H; reflexivity|].
  rewrite H. cbn [negb].
  destruct (existsb _ (offer_summaries d)); reflexivity.
Qed.

Lemma update_booking_offers_header (d : db) uid now p T V N :
  exists b,
    update_booking_offers d uid now false (fun o => bo_id o =? p)
      (set_offer_header T V N now)
    = Ok (set_booking_offers d
            (map (fun o => if bo_id o =? p then set_offer_header T V N now o else o)
                 (booking_offers d)), b).
Proof.
  unfold update_booking_offers.
  destruct (update_offer_rows_same_status d (fun o => bo_id o =? p)
              (set_offer_header T V N now) (booking_offers d)) as [fired Hf].
  - intro o. reflexivity.
  - rewrite Hf. cbn [bind fst snd]. eexists. reflexivity.
Qed.

(** [update_booking_offer] in one piece: the three loops run on the
    reference tables alone, and what is stored is [replaced_offer]. *)
Lemma update_booking_offer_replaced
    (d : db) uid now p T V N
    (sp : option (list space_json)) (sv : option (list service_json))
    (tm : option (list term_json)) :
  caller_is_administrator d uid = true ->
  update_booking_offer d uid now p T V N sp sv tm
  = (spr <- match sp with
            | Some l => update_spaces d p l [] 0
            | None => Ok ([], 0)
            end ;;
     svr <- match sv with
            | Some l => update_services d p l [] 0
            | None => Ok ([], 0)
            end ;;
     tmr <- match tm with
            | Some l => insert_terms d p l []
            | None => Ok []
            end ;;
     calc <- bigint_add (snd spr) (snd svr) ;;
     _ <- check_upsert_offer_summary d p
            (coalesce match offer_with_inquiry d p with
                      | Some q => bi_estimated_cost_cents (snd q)
                      | None => None
                      end 0)
            calc (Some T) (snd spr) (snd svr) now ;;
     Ok (replaced_offer d now p T V N (fst spr) (fst svr) tmr
           (snd spr) (snd svr) calc, true)).
Proof.
  intro Hadm. unfold update_booking_offer. rewrite Hadm. cbn [negb].
  destruct (update_booking_offers_header d uid now p T V N) as [b Hb].
  rewrite Hb. cbn [bind fst].
  set (d1 := set_booking_offers d _).
  set (d2 := set_allocations d1 _ _ _).
  assert (Ho : offer_exists d2 p = offer_exists d p).
  { apply (offer_exists_header d p p (set_offer_header T V N now)
             (fun o => bo_id o =? p)).
    intro o. reflexivity. }
  assert (Hsp : match sp with
                | Some l => update_spaces d2 p l (booking_offer_spaces d2) 0
                | None => Ok (booking_offer_spaces d2, 0)
                end
                = match (match sp with
                         | Some l => update_spaces d p l [] 0
                         | None => Ok ([], 0)
                         end) with
                  | Ok (app, t') => Ok (booking_offer_spaces d2 ++ app, t')
                  | Err e => Err e
                  end).
  { destruct sp as [l|].
    - rewrite update_spaces_from_nil.
      rewrite (update_spaces_tables d2 d p l eq_refl Ho). reflexivity.
    - rewrite app_nil_r. reflexivity. }
  assert (Hsv : match sv with
                | Some l => update_services d2 p l (booking_offer_services d2) 0
                | None => Ok (booking_offer_services d2, 0)
                end
                = match (match sv with
                         | Some l => update_services d p l [] 0
                         | None => Ok ([], 0)
                         end) with
                  | Ok (app, t') => Ok (booking_offer_services d2 ++ app, t')
                  | Err e => Err e
                  end).
  { destruct sv as [l|].
    - rewrite update_services_from_nil.
      rewrite (update_services_tables d2 d p l eq_refl Ho). reflexivity.
    - rewrite app_nil_r. reflexivity. }
  assert (Htm : match tm with
                | Some l => insert_terms d2 p l (booking_offer_terms d2)
                | None => Ok (booking_offer_terms d2)
                end
                = match (match tm with
                         | Some l => insert_terms d p l []
                         | None => Ok []
                         end) with
                  | Ok app => Ok (booking_offer_terms d2 ++ app)
                  | Err e => Err e
                  end).
  { destruct tm as [l|].
    - rewrite insert_terms_from_nil.
      rewrite (insert_terms_tables d2 d p l Ho). reflexivity.
    - rewrite app_nil_r. reflexivity. }
  rewrite Hsp, Hsv, Htm. clear Hsp Hsv Htm.
  destruct (match sp with Some l => update_spaces d p l [] 0 | None => Ok ([], 0) end)
    as [[spa st]|e]; cbn [bind]; [|reflexivity].
  destruct (match sv with Some l => update_services d p l [] 0 | None => Ok ([], 0) end)
    as [[sva svt]|e]; cbn [bind]; [|reflexivity].
  destruct (match tm with Some l => insert_terms d p l [] | None => Ok [] end)
    as [tma|e]; cbn [bind]; [|reflexivity].
  cbn [fst snd].
  destruct (bigint_add st svt) as [calc|e]; cbn [bind]; [|reflexivity].
  match goal with
  | |- context [check_upsert_offer_summary ?D p ?q calc ?a st svt now] =>
      rewrite (check_upsert_offer_summary_tables D d p q calc a st svt now
                 eq_refl eq_refl Ho)
  end.
  destruct (check_upsert_offer_summary d p _ calc _ st svt now) as [[]|e];
    cbn [bind]; reflexivity.
Qed.

Lemma update_spaces_inv (d : db) (p : uuid) (l : list space_json) :
  forall rows t rows' t',
    update_spaces d p l rows t = Ok (rows', t') ->
    spaces_exist d l
    /\ rows' = rows ++ map (fun v => space_row p (coalesce (sj_space_id v) 0) v) l
    /\ t' = t + sum_bigint (map (fun v => coalesce (sj_offer_total_cents v) 0) l).
Proof.
  induction l as [|v l IH]; intros rows t rows' t' H; cbn [update_spaces] in H.
  - injection H as H1 H2. subst. cbn [map sum_bigint fold_right].
    rewrite app_nil_r, Z.add_0_r. repeat split. intros v [].
  - destruct (sj_space_id v) as [sid|] eqn:Hsid; [|discriminate H].
    cbv zeta in H.
    destruct (existsb (Z.eqb sid) (m_warehouse_spaces d)) eqn:Hex;
      cbn [negb] in H; [|discriminate H].
    apply bind_ok in H. destruct H as [rows1 [Hins H]].
    apply insert_booking_offer_space_ok in Hins. destruct Hins as [-> _].
    apply bind_ok in H. destruct H as [t1 [Ht1 H]].
    apply bigint_add_ok in Ht1.
    destruct (IH _ _ _ _ H) as [Hsp [Hrows Ht]].
    split; [|split].
    + intros w [<- | Hw]; [|exact (Hsp w Hw)].
      exists sid. split; [exact Hsid|].
      apply existsb_exists in Hex. destruct Hex as [x [Hx E]].
      apply Z.eqb_eq in E. subst x. exact Hx.
    + rewrite Hrows. cbn [map]. rewrite Hsid. cbn [coalesce].
      rewrite <- app_assoc. reflexivity.
    + rewrite Ht, Ht1. cbn [map]. unfold sum_bigint. cbn [fold_right]. lia.
Qed.

Lemma update_services_inv (d : db) (p : uuid) (l : list service_json) :
  forall rows t rows' t',
    update_services d p l rows t = Ok (rows', t') ->
    services_exist d l
    /\ rows' = rows ++ map (fun v => service_row p (coalesce (vj_service_id v) 0) v) l
    /\ t' = t + sum_bigint (map (fun v => coalesce (vj_offer_total_cents v) 0) l).
Proof.
  induction l as [|v l IH]; intros rows t rows' t' H; cbn [update_services] in H.
  - injection H as H1 H2. subst. cbn [map sum_bigint fold_right].
    rewrite app_nil_r, Z.add_0_r. repeat split; destruct H.
  - destruct (vj_service_id v) as [sid|] eqn:Hsid; [|discriminate H].
    destruct (existsb (Z.eqb sid) (warehouse_services d)) eqn:Hex;
      cbn [negb] in H; [|discriminate H].
    apply bind_ok in H. destruct H as [rows1 [Hins H]].
    apply insert_booking_offer_service_ok in Hins.
    destruct Hins as [-> [Hpt _]]. cbn [bsv_pricing_type service_row] in Hpt.
    apply bind_ok in H. destruct H as [t1 [Ht1 H]].
    apply bigint_add_ok in Ht1.
    destruct (IH _ _ _ _ H) as [Hsp [Hrows Ht]].
    split; [|split].
    + intros w [<- | Hw]; [|exact (Hsp w Hw)].
      split; [|exact Hpt].
      exists sid. split; [exact Hsid|].
      apply existsb_exists in Hex. destruct Hex as [x [Hx E]].
      apply Z.eqb_eq in E. subst x. exact Hx.
    + rewrite Hrows. cbn [map]. rewrite Hsid. cbn [coalesce].
      rewrite <- app_assoc. reflexivity.
    + rewrite Ht, Ht1. cbn [map]. unfold sum_bigint. cbn [fold_right]. lia.
Qed.

Lemma insert_terms_inv (d : db) (p : uuid) (l : list term_json) :
  forall rows rows',
    insert_terms d p l rows = Ok rows' ->
    terms_complete l
    /\ rows' = rows ++ map (fun v => {| bot_offer_id := p;
                                        bot_term_type := coalesce (tj_term_type v) "";
                                        bot_description := coalesce (tj_description v) "" |}) l.
Proof.
  induction l as [|v l IH]; intros rows rows' H; cbn [insert_terms] in H.
  - injection H as H. subst. cbn [map]. rewrite app_nil_r.
    split; [intros v []| reflexivity].
  - destruct (tj_term_type v) as [ty|] eqn:Hty; [|discriminate H].
    destruct (tj_description v) as [de|] eqn:Hde; [|discriminate H].
    apply bind_ok in H. destruct H as [rows1 [Hins H]].
    apply insert_booking_offer_term_ok in Hins. destruct Hins as [-> _].
    destruct (IH _ _ H) as [Htc Hrows].
    split.
    + intros w [<- | Hw]; [|exact (Htc w Hw)].
      exists ty, de. split; assumption.
    + rewrite Hrows. cbn [map]. rewrite Hty, Hde. cbn [coalesce].
      rewrite <- app_assoc. reflexivity.
Qed.

Lemma update_spaces_json_inv (d : db) (p : uuid) (o : option (list space_json))
    (ins : list booking_offer_space) (t : bigint) :
  match o with Some l => update_spaces d p l [] 0 | None => Ok ([], 0) end
  = Ok (ins, t) ->
  spaces_exist d (json_array o)
  /\ ins = map (fun v => space_row p (coalesce (sj_space_id v) 0) v) (json_array o)
  /\ t = sum_bigint (map (fun v => coalesce (sj_offer_total_cents v) 0)
                         (json_array o)).
Proof.
  destruct o as [l|]; intro H; cbn [json_array].
  - destruct (update_spaces_inv d p l _ _ _ _ H) as [H1 [H2 H3]].
    split; [exact H1 | split; [exact H2 | exact H3]].
  - injection H as H1 H2. subst.
    split; [intros v [] | split; reflexivity].
Qed.

Lemma update_services_json_inv (d : db) (p : uuid)
    (o : option (list service_json))
    (ins : list booking_offer_service) (t : bigint) :
  match o with Some l => update_services d p l [] 0 | None => Ok ([], 0) end
  = Ok (ins, t) ->
  services_exist d (json_array o)
  /\ ins = map (fun v => service_row p (coalesce (vj_service_id v) 0) v)
               (json_array o)
  /\ t = sum_bigint (map (fun v => coalesce (vj_offer_total_cents v) 0)
                         (json_array o)).
Proof.
  destruct o as [l|]; intro H; cbn [json_array].
  - destruct (update_services_inv d p l _ _ _ _ H) as [H1 [H2 H3]].
    split; [exact H1 | split; [exact H2 | exact H3]].
  - injection H as H1 H2. subst.
    split; [intros v [] | split; reflexivity].
Qed.

Lemma insert_terms_json_inv (d : db) (p : uuid) (o : option (list term_json))
    (ins : list booking_offer_term) :
  match o with Some l => insert_terms d p l [] | None => Ok [] end = Ok ins ->
  terms_complete (json_array o)
  /\ ins = map (fun v => {| bot_offer_id := p;
                           bot_term_type := coalesce (tj_term_type v) "";
                           bot_description := coalesce (tj_description v) "" |})
               (json_array o).
Proof.
  destruct o as [l|]; intro H; cbn [json_array].
  - destruct (insert_terms_inv d p l _ _ H) as [H1 H2]. split; assumption.
  - injection H as H. subst. split; [intros v [] | reflexivity].
Qed.

(** What a successful [update_booking_offer] has checked and stored. *)
Lemma update_booking_offer_inv
    (d d' : db) uid now p T V N
    (sp : option (list space_json)) (sv : option (list service_json))
    (tm : option (list term_json)) (b : bool) :
  update_booking_offer d uid now p T V N sp sv tm = Ok (d', b) ->
  caller_is_administrator d uid = true
  /\ spaces_exist d (json_array sp)
  /\ services_exist d (json_array sv)
  /\ terms_complete (json_array tm)
  /\ b = true
  /\ (existsb (fun os => os_offer_id os =? p) (offer_summaries d) = true
      \/ offer_exists d p = true)
  /\ d' = replaced_offer d now p T V N
            (map (fun v => space_row p (coalesce (sj_space_id v) 0) v) (json_array sp))
            (map (fun v => service_row p (coalesce (vj_service_id v) 0) v)
                 (json_array sv))
            (map (fun v => {| bot_offer_id := p;
                              bot_term_type := coalesce (tj_term_type v) "";
                              bot_description := coalesce (tj_description v) "" |})
                 (json_array tm))
            (sum_bigint (map (fun v => coalesce (sj_offer_total_cents v) 0)
                             (json_array sp)))
            (sum_bigint (map (fun v => coalesce (vj_offer_total_cents v) 0)
                             (json_array sv)))
            (sum_bigint (map (fun v => coalesce (sj_offer_total_cents v) 0)
                             (json_array sp))
             + sum_bigint (map (fun v => coalesce (vj_offer_total_cents v) 0)
                               (json_array sv))).
Proof.
  intro H.
  destruct (caller_is_administrator d uid) eqn:Hadm;
    [|unfold update_booking_offer in H; rewrite Hadm in H; discriminate H].
  rewrite (update_booking_offer_replaced d uid now p T V N sp sv tm Hadm) in H.
  apply bind_ok in H. destruct H as [[spa st] [Hsp H]].
  apply bind_ok in H. destruct H as [[sva svt] [Hsv H]].
  apply bind_ok in H. destruct H as [tma [Htm H]].
  apply bind_ok in H. destruct H as [calc [Hc H]].
  apply bind_ok in H. destruct H as [[] [Hchk H]].
  cbn [fst snd] in *.
  apply bigint_add_ok in Hc.
  destruct (update_spaces_json_inv d p sp spa st Hsp) as [E1 [E2 E3]].
  destruct (update_services_json_inv d p sv sva svt Hsv) as [F1 [F2 F3]].
  destruct (insert_terms_json_inv d p tm tma Htm) as [G1 G2].
  assert (Hfk : existsb (fun os => os_offer_id os =? p) (offer_summaries d) = true
                \/ offer_exists d p = true).
  { unfold check_upsert_offer_summary in Hchk.
    apply bind_ok in Hchk. destruct Hchk as [_ [_ Hchk]].
    destruct (existsb _ (offer_summaries d)); [left; reflexivity|].
    destruct (offer_exists d p); [right; reflexivity | discriminate Hchk]. }
  injection H as H Hb. subst.
  split; [reflexivity|]. split; [exact E1|]. split; [exact F1|].
  split; [exact G1|]. split; [reflexivity|]. split; [exact Hfk | reflexivity].
Qed.

Lemma filter_filter_other {A} (f g : A -> bool) (l : list A) :
  (forall x, f x = true -> g x = true) ->
  filter f (filter g l) = filter f l.
Proof.
  intro H. induction l as [|a l IH]; [reflexivity|].
  cbn [filter]. destruct (g a) eqn:Hg.
  - cbn [filter]. rewrite IH. reflexivity.
  - rewrite IH. destruct (f a) eqn:Hf; [|reflexivity].
    rewrite (H a Hf) in Hg. discriminate Hg.
Qed.

Lemma filter_map_other {A} (key : A -> Z) (p q : Z) (f : A -> A) (l : list A) :
  (forall x, key (f x) = key x) -> q <> p ->
  filter (fun x => key x =? q) (map (fun x => if key x =? p then f x else x) l)
  = filter (fun x => key x =? q) l.
Proof.
  intros Hk Hq. induction l as [|a l IH]; [reflexivity|].
  cbn [map filter]. rewrite IH.
  destruct (key a =? p) eqn:Hp; [|reflexivity].
  rewrite Hk. apply Z.eqb_eq in Hp. rewrite Hp.
  apply not_eq_sym in Hq. apply Z.eqb_neq in Hq. rewrite Hq. reflexivity.
Qed.

Lemma upsert_offer_summary_other (l : list offer_summary) now p q quoted calc
    actual st sv :
  q <> p ->
  filter (fun os => os_offer_id os =? q)
         (upsert_offer_summary l now p quoted calc actual st sv)
  = filter (fun os => os_offer_id os =? q) l.
Proof.
  intro Hq. unfold upsert_offer_summary.
  destruct (existsb (fun os => os_offer_id os =? p) l).
  - apply (filter_map_other os_offer_id p q); [reflexivity | exact Hq].
  - rewrite filter_app. cbn [filter os_offer_id].
    apply not_eq_sym in Hq. apply Z.eqb_neq in Hq. rewrite Hq.
    apply app_nil_r.
Qed.

(** X20.  [update_booking_offer] goes through only for an administrator
    and only when every space element names a row of [m_warehouse_spaces],
    every service element names a row of [warehouse_services] and has one of
    the four pricing types, and every term has a type and a description;
    the service and term rows of the offer are then exactly the elements
    given, in their order. *)
Theorem update_booking_offer_checked
    (d d' : db) (uid : option uuid) (now : timestamptz) (p : uuid)
    (T : bigint) (V : timestamptz) (N : option string)
    (sp : option (list space_json)) (sv : option (list service_json))
    (tm : option (list term_json)) (b : bool) :
  update_booking_offer d uid now p T V N sp sv tm = Ok (d', b) ->
  caller_is_administrator d uid = true
  /\ spaces_exist d (json_array sp)
  /\ services_exist d (json_array sv)
  /\ terms_complete (json_array tm)
  /\ filter (fun s => bsv_offer_id s =? p) (booking_offer_services d')
     = map (fun v => service_row p (coalesce (vj_service_id v) 0) v) (json_array sv)
  /\ filter (fun t => bot_offer_id t =? p) (booking_offer_terms d')
     = map (fun v => {| bot_offer_id := p;
                        bot_term_type := coalesce (tj_term_type v) "";
                        bot_description := coalesce (tj_description v) "" |})
           (json_array tm).
Proof.
  intro H.
  destruct (update_booking_offer_inv d d' uid now p T V N sp sv tm b H)
    as (Hadm & Hsp & Hsv & Htm & _ & _ & Hd).
  split; [exact Hadm|]. split; [exact Hsp|]. split; [exact Hsv|].
  split; [exact Htm|].
  subst d'. cbn [booking_offer_services booking_offer_terms replaced_offer].
  split.
  - apply (filter_replaced_rows (fun s => bsv_offer_id s =? p)).
    intros a Ha. apply in_map_iff in Ha. destruct Ha as [v [<- _]].
    apply Z.eqb_refl.
  - apply (filter_replaced_rows (fun t => bot_offer_id t =? p)).
    intros a Ha. apply in_map_iff in Ha. destruct Ha as [v [<- _]].
    apply Z.eqb_refl.
Qed.

Lemma update_booking_offer_checked_witness :
  spaces_exist (sample_db offer_sent (Some 90000)) [other_space_line].
Proof.
  destruct (update_booking_offer (sample_db offer_sent (Some 90000)) (Some 1)
              1000 10 50000 2000 None (Some [other_space_line]) None None)
    as [[d' b]|e] eqn:E; [|vm_compute in E; discriminate E].
  exact (proj1 (proj2 (update_booking_offer_checked _ d' (Some 1) 1000 10 50000
                         2000 None (Some [other_space_line]) None None b E))).
Defined.

(** X21.  [update_booking_offer] touches one offer only: the space,
    service, term and summary rows and the header rows of every other offer
    are as before, and so are inquiries, space requests and notifications;
    no offer changes its status. *)
Theorem update_booking_offer_frame
    (d d' : db) (uid : option uuid) (now : timestamptz) (p : uuid)
    (T : bigint) (V : timestamptz) (N : option string)
    (sp : option (list space_json)) (sv : option (list service_json))
    (tm : option (list term_json)) (b : bool) :
  update_booking_offer d uid now p T V N sp sv tm = Ok (d', b) ->
  (forall q, q <> p ->
     filter (fun o => bo_id o =? q) (booking_offers d')
     = filter (fun o => bo_id o =? q) (booking_offers d)
     /\ offer_spaces d' q = offer_spaces d q
     /\ filter (fun s => bsv_offer_id s =? q) (booking_offer_services d')
        = filter (fun s => bsv_offer_id s =? q) (booking_offer_services d)
     /\ filter (fun t => bot_offer_id t =? q) (booking_offer_terms d')
        = filter (fun t => bot_offer_id t =? q) (booking_offer_terms d)
     /\ summaries_of d' q = summaries_of d q)
  /\ map bo_status (booking_offers d') = map bo_status (booking_offers d)
  /\ booking_inquiries d' = booking_inquiries d
  /\ booking_inquiry_space_requests d' = booking_inquiry_space_requests d
  /\ notifications d' = notifications d.
Proof.
  intro H.
  destruct (update_booking_offer_inv d d' uid now p T V N sp sv tm b H)
    as (_ & _ & _ & _ & _ & _ & Hd).
  subst d'. unfold offer_spaces, summaries_of.
  cbn [booking_offers booking_offer_spaces booking_offer_services
       booking_offer_terms offer_summaries booking_inquiries
       booking_inquiry_space_requests notifications replaced_offer].
  split; [|split; [|repeat split]].
  - intros q Hq.
    assert (Hqp : (q =? p) = false) by (apply Z.eqb_neq; exact Hq).
    split; [|split; [|split; [|split]]].
    + apply (filter_map_other bo_id p q); [reflexivity | exact Hq].
    + rewrite filter_app, filter_filter_other.
      * match goal with
        | |- _ ++ filter ?f ?l = _ => rewrite (filter_none f l); [apply app_nil_r|]
        end.
        intros a Ha. apply in_map_iff in Ha. destruct Ha as [v [<- _]].
        cbn [bos_offer_id space_row]. rewrite Z.eqb_sym. exact Hqp.
      * intros x Hx. apply Z.eqb_eq in Hx. rewrite Hx, Hqp. reflexivity.
    + rewrite filter_app, filter_filter_other.
      * match goal with
        | |- _ ++ filter ?f ?l = _ => rewrite (filter_none f l); [apply app_nil_r|]
        end.
        intros a Ha. apply in_map_iff in Ha. destruct Ha as [v [<- _]].
        cbn [bsv_offer_id service_row]. rewrite Z.eqb_sym. exact Hqp.
      * intros x Hx. apply Z.eqb_eq in Hx. rewrite Hx, Hqp. reflexivity.
    + rewrite filter_app, filter_filter_other.
      * match goal with
        | |- _ ++ filter ?f ?l = _ => rewrite (filter_none f l); [apply app_nil_r|]
        end.
        intros a Ha. apply in_map_iff in Ha. destruct Ha as [v [<- _]].
        cbn [bot_offer_id]. rewrite Z.eqb_sym. exact Hqp.
      * intros x Hx. apply Z.eqb_eq in Hx. rewrite Hx, Hqp. reflexivity.
    + apply upsert_offer_summary_other. exact Hq.
  - rewrite map_map. apply map_ext. intro o.
    destruct (bo_id o =? p); reflexivity.
Qed.

Lemma update_booking_offer_frame_witness :
  booking_inquiries
    (commit (sample_db offer_sent (Some 90000))
       (update_booking_offer (sample_db offer_sent (Some 90000)) (Some 1)
          1000 10 50000 2000 None (Some [other_space_line]) None None))
  = booking_inquiries (sample_db offer_sent (Some 90000)).
Proof.
  destruct (update_booking_offer (sample_db offer_sent (Some 90000)) (Some 1)
              1000 10 50000 2000 None (Some [other_space_line]) None None)
    as [[d' b]|e] eqn:E; [|reflexivity].
  exact (proj1 (proj2 (proj2 (update_booking_offer_frame _ d' (Some 1) 1000 10
                                50000 2000 None (Some [other_space_line])
                                None None b E)))).
Defined.

Lemma estimated_cost_of_join (inqs : list booking_inquiry) (L : list booking_offer) :
  match hd_error
          (flat_map (fun bo =>
                       map (fun bi => (bo, bi))
                           (filter (fun bi => bi_id bi =? bo_inquiry_id bo) inqs)) L)
  with
  | Some q => bi_estimated_cost_cents (snd q)
  | None => None
  end
  = match hd_error
            (flat_map (fun bo => filter (fun bi => bi_id bi =? bo_inquiry_id bo) inqs)
                      L)
    with
    | Some i => bi_estimated_cost_cents i
    | None => None
    end.
Proof.
  induction L as [|bo L IH]; [reflexivity|].
  cbn [flat_map].
  destruct (filter (fun bi => bi_id bi =? bo_inquiry_id bo) inqs) as [|i rest].
  - exact IH.
  - reflexivity.
Qed.

Lemma join_after_header (inqs : list booking_inquiry) (p : uuid)
    (h : booking_offer -> booking_offer) (l : list booking_offer) :
  (forall o, bo_id (h o) = bo_id o) ->
  (forall o, bo_inquiry_id (h o) = bo_inquiry_id o) ->
  flat_map (fun bo => filter (fun bi => bi_id bi =? bo_inquiry_id bo) inqs)
           (filter (fun bo => bo_id bo =? p)
                   (map (fun o => if bo_id o =? p then h o else o) l))
  = flat_map (fun bo => filter (fun bi => bi_id bi =? bo_inquiry_id bo) inqs)
             (filter (fun bo => bo_id bo =? p) l).
Proof.
  intros Hid Hinq. induction l as [|o l IH]; [reflexivity|].
  cbn [map filter].
  destruct (bo_id o =? p) eqn:Hp.
  - rewrite Hid, Hp. cbn [flat_map]. rewrite Hinq, IH. reflexivity.
  - rewrite Hp. exact IH.
Qed.

Lemma estimated_cost_replaced (d : db) now p T V N sp sv tm st svt calc :
  match offer_with_inquiry (replaced_offer d now p T V N sp sv tm st svt calc) p with
  | Some q => bi_estimated_cost_cents (snd q)
  | None => None
  end
  = match offer_with_inquiry d p with
    | Some q => bi_estimated_cost_cents (snd q)
    | None => None
    end.
Proof.
  unfold offer_with_inquiry.
  rewrite !estimated_cost_of_join.
  cbn [booking_offers booking_inquiries replaced_offer].
  rewrite (join_after_header (booking_inquiries d) p (set_offer_header T V N now));
    reflexivity.
Qed.

Lemma upsert_offer_summary_twice (l : list offer_summary) now now' p quoted
    calc actual st sv calc' actual' st' sv' :
  upsert_offer_summary (upsert_offer_summary l now p quoted calc actual st sv)
    now' p quoted calc' actual' st' sv'
  = upsert_offer_summary l now' p quoted calc' actual' st' sv'.
Proof.
  unfold upsert_offer_summary at 2 3.
  destruct (existsb (fun os => os_offer_id os =? p) l) eqn:E.
  - unfold upsert_offer_summary.
    rewrite existsb_map_keys, E.
    + rewrite map_map. apply map_ext. intro os. cbv beta.
      destruct (os_offer_id os =? p) eqn:Hp; cbn [os_offer_id];
        rewrite ?Hp; reflexivity.
    + intro os. cbv beta.
      destruct (os_offer_id os =? p) eqn:Hp; cbn [os_offer_id];
        rewrite ?Hp; reflexivity.
  - unfold upsert_offer_summary.
    rewrite existsb_app. cbn [existsb os_offer_id]. rewrite Z.eqb_refl.
    rewrite orb_true_r. rewrite map_app.
    rewrite (map_unselected (fun os => os_offer_id os =? p)) by exact E.
    cbn [map os_offer_id]. rewrite Z.eqb_refl. reflexivity.
Qed.

Lemma filter_negb_twice {A} (f : A -> bool) (l ins : list A) :
  (forall a, In a ins -> f a = true) ->
  filter (fun a => negb (f a)) (filter (fun a => negb (f a)) l ++ ins)
  = filter (fun a => negb (f a)) l.
Proof.
  intro H. rewrite filter_app.
  rewrite filter_filter_other by (intros x Hx; exact Hx).
  rewrite (filter_none (fun a => negb (f a)) ins); [apply app_nil_r|].
  intros a Ha. rewrite (H a Ha). reflexivity.
Qed.

Lemma replaced_offer_twice (d : db) now now' p
    T V N sp sv tm st svt calc T' V' N' sp' sv' tm' st' svt' calc' :
  (forall s, In s sp -> bos_offer_id s = p) ->
  (forall s, In s sv -> bsv_offer_id s = p) ->
  (forall t, In t tm -> bot_offer_id t = p) ->
  replaced_offer (replaced_offer d now p T V N sp sv tm st svt calc)
    now' p T' V' N' sp' sv' tm' st' svt' calc'
  = replaced_offer d now' p T' V' N' sp' sv' tm' st' svt' calc'.
Proof.
  intros Hsp Hsv Htm.
  unfold replaced_offer at 1 3.
  rewrite estimated_cost_replaced.
  cbn [user_roles roles booking_inquiries booking_offers booking_offer_spaces
       booking_offer_services booking_offer_terms offer_summaries
       booking_inquiry_space_requests m_warehouse_spaces warehouse_services
       notifications replaced_offer].
  rewrite upsert_offer_summary_twice.
  rewrite (filter_negb_twice (fun s => bos_offer_id s =? p))
    by (intros a Ha; rewrite (Hsp a Ha); apply Z.eqb_refl).
  rewrite (filter_negb_twice (fun s => bsv_offer_id s =? p))
    by (intros a Ha; rewrite (Hsv a Ha); apply Z.eqb_refl).
  rewrite (filter_negb_twice (fun t => bot_offer_id t =? p))
    by (intros a Ha; rewrite (Htm a Ha); apply Z.eqb_refl).
  rewrite map_map.
  f_equal. apply map_ext. intro o. cbv beta.
  destruct (bo_id o =? p) eqn:Hp; cbn [bo_id set_offer_header];
    rewrite ?Hp; reflexivity.
Qed.

(** X22.  [update_booking_offer] replaces, it does not accumulate: after a
    successful update of an offer, a further update of the same offer has
    the outcome it would have had on the tables before the first one.  In
    particular the same update repeated stores the same rows again. *)
Theorem update_booking_offer_overwrites
    (d d1 : db) (uid uid' : option uuid) (now now' : timestamptz) (p : uuid)
    (T T' : bigint) (V V' : timestamptz) (N N' : option string)
    (sp sp' : option (list space_json)) (sv sv' : option (list service_json))
    (tm tm' : option (list term_json)) (b : bool) :
  update_booking_offer d uid now p T V N sp sv tm = Ok (d1, b) ->
  update_booking_offer d1 uid' now' p T' V' N' sp' sv' tm'
  = update_booking_offer d uid' now' p T' V' N' sp' sv' tm'.
Proof.
  intro H.
  destruct (update_booking_offer_inv d d1 uid now p T V N sp sv tm b H)
    as (_ & _ & _ & _ & _ & Hfk & Hd).
  clear H. subst d1.
  match goal with
  | |- update_booking_offer ?D _ _ _ _ _ _ _ _ _ = _ => set (d1 := D)
  end.
  assert (Hadm : caller_is_administrator d1 uid' = caller_is_administrator d uid')
    by reflexivity.
  assert (Ho : offer_exists d1 p = offer_exists d p).
  { apply (offer_exists_header d p p (set_offer_header T V N now)
             (fun o => bo_id o =? p)).
    intro o. reflexivity. }
  destruct (caller_is_administrator d uid') eqn:Hadm'.
  - rewrite (update_booking_offer_replaced d1 uid' now' p T' V' N' sp' sv' tm' Hadm).
    rewrite (update_booking_offer_replaced d uid' now' p T' V' N' sp' sv' tm' Hadm').
    assert (Hsp : match sp' with
                  | Some l => update_spaces d1 p l [] 0
                  | None => Ok ([], 0)
                  end
                  = match sp' with
                    | Some l => update_spaces d p l [] 0
                    | None => Ok ([], 0)
                    end).
    { destruct sp' as [l|]; [|reflexivity].
      apply update_spaces_tables; [reflexivity | exact Ho]. }
    assert (Hsv : match sv' with
                  | Some l => update_services d1 p l [] 0
                  | None => Ok ([], 0)
                  end
                  = match sv' with
                    | Some l => update_services d p l [] 0
                    | None => Ok ([], 0)
                    end).
    { destruct sv' as [l|]; [|reflexivity].
      apply update_services_tables; [reflexivity | exact Ho]. }
    assert (Htm : match tm' with
                  | Some l => insert_terms d1 p l []
                  | None => Ok []
                  end
                  = match tm' with
                    | Some l => insert_terms d p l []
                    | None => Ok []
                    end).
    { destruct tm' as [l|]; [|reflexivity].
      apply insert_terms_tables. exact Ho. }
    rewrite Hsp, Hsv, Htm. clear Hsp Hsv Htm.
    destruct (match sp' with Some l => update_spaces d p l [] 0 | None => Ok ([], 0) end)
      as [[spa st]|e]; cbn [bind]; [|reflexivity].
    destruct (match sv' with Some l => update_services d p l [] 0 | None => Ok ([], 0) end)
      as [[sva svt]|e]; cbn [bind]; [|reflexivity].
    destruct (match tm' with Some l => insert_terms d p l [] | None => Ok [] end)
      as [tma|e]; cbn [bind]; [|reflexivity].
    destruct (bigint_add (snd (spa, st)) (snd (sva, svt))) as [calc|e];
      cbn [bind]; [|reflexivity].
    unfold d1. rewrite estimated_cost_replaced.
    rewrite check_upsert_offer_summary_replaced by exact Hfk.
    destruct (check_upsert_offer_summary d p _ calc _ _ _ now') as [[]|e];
      cbn [bind]; [|reflexivity].
    rewrite replaced_offer_twice; [reflexivity | | |];
      intros a Ha; apply in_map_iff in Ha; destruct Ha as [v [<- _]]; reflexivity.
  - unfold update_booking_offer. rewrite Hadm, Hadm'. reflexivity.
Qed.

Lemma update_booking_offer_overwrites_witness :
  update_booking_offer
    (commit (sample_db offer_sent (Some 90000))
       (update_booking_offer (sample_db offer_sent (Some 90000)) (Some 1) 1000 10
          50000 2000 None (Some [other_space_line]) None None))
    (Some 1) 1000 10 50000 2000 None (Some [other_space_line]) None None
  = update_booking_offer (sample_db offer_sent (Some 90000)) (Some 1) 1000 10
      50000 2000 None (Some [other_space_line]) None None.
Proof.
  destruct (update_booking_offer (sample_db offer_sent (Some 90000)) (Some 1)
              1000 10 50000 2000 None (Some [other_space_line]) None None)
    as [[d1 b]|e] eqn:E; [|vm_compute in E; discriminate E].
  cbn [commit].
  rewrite (update_booking_offer_overwrites _ d1 (Some 1) (Some 1) 1000 1000 10
             50000 50000 2000 2000 None None
             (Some [other_space_line]) (Some [other_space_line])
             None None None None b E).
  exact E.
Defined.

(* ================================================================== *)
(** * The offer triggers against the status machine *)



(* ================================================================== *)
(** * Creating an offer: what [save_booking_offer] stores *)

Lemma save_spaces_inv (d : db) (p : uuid) (l : list space_json) :
  forall rows t rows' t',
    save_spaces d p l rows t = Ok (rows', t') ->
    (forall v, In v l -> sj_space_id v <> None)
    /\ rows' = rows ++ map (fun v => space_row p (coalesce (sj_space_id v) 0) v) l.
Proof.
  induction l as [|v l IH]; intros rows t rows' t' H; cbn [save_spaces] in H.
  - injection H as H1 H2. subst. cbn [map]. rewrite app_nil_r.
    split; [intros v []| reflexivity].
  - destruct (sj_space_id v) as [sid|] eqn:Hsid; [|discriminate H].
    apply bind_ok in H. destruct H as [rows1 [Hins H]].
    apply insert_booking_offer_space_ok in Hins. destruct Hins as [-> _].
    apply bind_ok in H. destruct H as [t1 [_ H]].
    destruct (IH _ _ _ _ H) as [Hsp Hrows].
    split.
    + intros w [<- | Hw]; [rewrite Hsid; discriminate | exact (Hsp w Hw)].
    + rewrite Hrows. cbn [map]. rewrite Hsid. cbn [coalesce].
      rewrite <- app_assoc. reflexivity.
Qed.

Lemma save_services_inv (d : db) (p : uuid) (l : list service_json) :
  forall rows t rows' t',
    save_services d p l rows t = Ok (rows', t') ->
    (forall v, In v l ->
       vj_service_id v <> None
       /\ pricing_type_check (coalesce (vj_pricing_type v) "ask_quote") = true)
    /\ rows' = rows ++ map (fun v => service_row p (coalesce (vj_service_id v) 0) v) l.
Proof.
  induction l as [|v l IH]; intros rows t rows' t' H; cbn [save_services] in H.
  - injection H as H1 H2. subst. cbn [map]. rewrite app_nil_r.
    split; [intros v []| reflexivity].
  - destruct (vj_service_id v) as [sid|] eqn:Hsid; [|discriminate H].
    apply bind_ok in H. destruct H as [rows1 [Hins H]].
    apply insert_booking_offer_service_ok in Hins.
    destruct Hins as [-> [Hpt _]]. cbn [bsv_pricing_type service_row] in Hpt.
    apply bind_ok in H. destruct H as [t1 [_ H]].
    destruct (IH _ _ _ _ H) as [Hsp Hrows].
    split.
    + intros w [<- | Hw]; [|exact (Hsp w Hw)].
      split; [rewrite Hsid; discriminate | exact Hpt].
    + rewrite Hrows. cbn [map]. rewrite Hsid. cbn [coalesce].
      rewrite <- app_assoc. reflexivity.
Qed.

(** X24.  [save_booking_offer] only adds rows: on success the tables of
    offers, spaces, services and terms are the old ones followed by one
    draft offer with the header given and the caller as its administrator,
    and by one row per element in the order given; every space and service
    element carried an id, every pricing type is one of the four, every
    term is complete; inquiries and notifications are untouched. *)
Theorem save_booking_offer_appends
    (d d' : db) (auth_uid : option uuid) (now : timestamptz) (new_id id : uuid)
    (p_inquiry_id : uuid) (T : bigint) (V : timestamptz) (N : option string)
    (sp : option (list space_json)) (sv : option (list service_json))
    (tm : option (list term_json)) :
  save_booking_offer d auth_uid now new_id p_inquiry_id T V N sp sv tm
  = Ok (d', id) ->
  id = new_id
  /\ (exists uid,
        auth_uid = Some uid
        /\ caller_is_administrator d auth_uid = true
        /\ booking_offers d'
           = booking_offers d ++
             [{| bo_id := new_id; bo_inquiry_id := p_inquiry_id;
                 bo_admin_id := uid; bo_total_cost_cents := T;
                 bo_valid_until := V; bo_notes := N;
                 bo_status := draft; bo_updated_at := now |}])
  /\ booking_offer_spaces d'
     = booking_offer_spaces d ++
       map (fun v => space_row new_id (coalesce (sj_space_id v) 0) v) (json_array sp)
  /\ booking_offer_services d'
     = booking_offer_services d ++
       map (fun v => service_row new_id (coalesce (vj_service_id v) 0) v)
           (json_array sv)
  /\ booking_offer_terms d'
     = booking_offer_terms d ++
       map (fun v => {| bot_offer_id := new_id;
                        bot_term_type := coalesce (tj_term_type v) "";
                        bot_description := coalesce (tj_description v) "" |})
           (json_array tm)
  /\ (forall v, In v (json_array sp) -> sj_space_id v <> None)
  /\ (forall v, In v (json_array sv) ->
        vj_service_id v <> None
        /\ pricing_type_check (coalesce (vj_pricing_type v) "ask_quote") = true)
  /\ terms_complete (json_array tm)
  /\ booking_inquiries d' = booking_inquiries d
  /\ notifications d' = notifications d.
Proof.
  intro H. unfold save_booking_offer in H.
  destruct auth_uid as [uid|]; [|discriminate H].
  destruct (caller_is_administrator d (Some uid)) eqn:Hadm;
    cbn [negb] in H; [|discriminate H].
  cbv zeta in H.
  destruct (inquiry_exists d p_inquiry_id); cbn [negb] in H; [|discriminate H].
  apply bind_ok in H. destruct H as [[spa st] [Hsp H]].
  apply bind_ok in H. destruct H as [[sva svt] [Hsv H]].
  apply bind_ok in H. destruct H as [tma [Htm H]].
  apply bind_ok in H. destruct H as [calc [_ H]].
  apply bind_ok in H. destruct H as [summaries [_ H]].
  injection H as H Hid. subst d' id.
  cbn [booking_offers booking_offer_spaces booking_offer_services
       booking_offer_terms booking_inquiries notifications
       set_offer_summaries set_allocations set_booking_offers fst snd] in *.
  assert (Hspa : (forall v, In v (json_array sp) -> sj_space_id v <> None)
                 /\ spa = booking_offer_spaces d ++
                          map (fun v => space_row new_id (coalesce (sj_space_id v) 0) v)
                              (json_array sp)).
  { destruct sp as [l|]; cbn [json_array].
    - exact (save_spaces_inv _ new_id l _ _ _ _ Hsp).
    - injection Hsp as H1 _. subst spa. cbn [map]. rewrite app_nil_r.
      split; [intros v []| reflexivity]. }
  assert (Hsva : (forall v, In v (json_array sv) ->
                    vj_service_id v <> None
                    /\ pricing_type_check (coalesce (vj_pricing_type v) "ask_quote")
                       = true)
                 /\ sva = booking_offer_services d ++
                          map (fun v => service_row new_id
                                          (coalesce (vj_service_id v) 0) v)
                              (json_array sv)).
  { destruct sv as [l|]; cbn [json_array].
    - exact (save_services_inv _ new_id l _ _ _ _ Hsv).
    - injection Hsv as H1 _. subst sva. cbn [map]. rewrite app_nil_r.
      split; [intros v []| reflexivity]. }
  assert (Htma : terms_complete (json_array tm)
                 /\ tma = booking_offer_terms d ++
                          map (fun v => {| bot_offer_id := new_id;
                                           bot_term_type := coalesce (tj_term_type v) "";
                                           bot_description :=
                                             coalesce (tj_description v) "" |})
                              (json_array tm)).
  { destruct tm as [l|]; cbn [json_array].
    - exact (insert_terms_inv _ new_id l _ _ Htm).
    - injection Htm as H1. subst tma. cbn [map]. rewrite app_nil_r.
      split; [intros v []| reflexivity]. }
  destruct Hspa as [Hs1 Hs2]. destruct Hsva as [Hv1 Hv2]. destruct Htma as [Ht1 Ht2].
  split; [reflexivity|].
  split; [exists uid; repeat split|].
  split; [exact Hs2|]. split; [exact Hv2|]. split; [exact Ht2|].
  split; [exact Hs1|]. split; [exact Hv1|]. split; [exact Ht1|].
  split; reflexivity.
Qed.

Lemma save_booking_offer_appends_witness :
  map bo_status
      (booking_offers
         (commit (sample_db offer_sent (Some 90000))
            (save_booking_offer (sample_db offer_sent (Some 90000)) (Some 1) 1000
               11 100 90000 2000 None (Some [sample_space_line]) None None)))
  = [offer_sent; draft].
Proof.
  destruct (save_booking_offer (sample_db offer_sent (Some 90000)) (Some 1) 1000
              11 100 90000 2000 None (Some [sample_space_line]) None None)
    as [[d' id]|e] eqn:E; [|vm_compute in E; discriminate E].
  destruct (save_booking_offer_appends _ d' (Some 1) 1000 11 id 100 90000 2000
              None (Some [sample_space_line]) None None E)
    as [_ [[uid [_ [_ Ho]]] _]].
  cbn [commit]. rewrite Ho. reflexivity.
Defined.

Lemma send_booking_offer_guard_passes (d : db) uid now p :
  existsb (fun os => (os_offer_id os =? p)
                     && negb (is_null (os_actual_offer_cents os)))
          (offer_summaries d) = true ->
  send_booking_offer d uid now p <> Err actual_not_set.
Proof.
  intros Hact H. unfold send_booking_offer in H.
  destruct (caller_is_administrator d uid); cbn [negb] in H;
    [|discriminate H].
  destruct (validate_offer_for_send d p) as [v|e] eqn:Hv; cbn [bind] in H.
  2:{ injection H as H. subst e. unfold validate_offer_for_send in Hv.
      repeat match type of Hv with
             | (if ?c then _ else _) = _ => destruct c
             end; discriminate Hv. }
  unfold update_booking_offers in H.
  rewrite update_offer_rows_fired in H.
  2:{ intros x _ Hx. apply andb_true_iff in Hx. destruct Hx as [Hid _].
      apply Z.eqb_eq in Hid. exact (guard_passes d p x now Hact Hid). }
  cbn [bind fst snd] in H.
  match type of H with
  | context [after_row_triggers ?f ?fired ?d1] =>
      destruct (after_row_triggers f fired d1) as [d1'|e] eqn:Ha
  end; cbn [bind fst snd] in H.
  2:{ injection H as H. subst e. revert Ha.
      match goal with
      | |- after_row_triggers ?f ?fired ?d1 = _ -> _ =>
          intro Ha;
          apply (after_row_triggers_error f inquiry_write_error
                   (fun d0 a b e => update_inquiry_status_on_offer_error
                                      d0 uid now a b e)) in Ha
      end.
      exact (inquiry_write_error_not_guard _ Ha eq_refl). }
  match type of H with
  | context [match ?o with Some i => update_inquiry_status ?a ?b ?c i ?s
                         | None => Ok ?a end] =>
      destruct o as [iid|]
  end; cbn [bind] in H.
  - match type of H with
    | context [update_inquiry_status ?a ?b ?c ?i ?s] =>
        destruct (update_inquiry_status a b c i s) as [d2|e] eqn:Hu
    end; cbn [bind] in H.
    + destruct (option_map _ _); discriminate H.
    + injection H as H. subst e.
      apply update_inquiry_status_error in Hu.
      exact (inquiry_write_error_not_guard _ Hu eq_refl).
  - destruct (option_map _ _); discriminate H.
Qed.

(** X25.  An offer created by [save_booking_offer] is never held back by
    the guard on the headline figure: whoever sends it and whenever,
    [send_booking_offer] does not end in 'Cannot send offer:
    actual_offer_cents must be set'. *)
Theorem saved_offer_passes_send_guard
    (d d' : db) (auth_uid : option uuid) (now : timestamptz) (new_id id : uuid)
    (p_inquiry_id : uuid) (T : bigint) (V : timestamptz) (N : option string)
    (sp : option (list space_json)) (sv : option (list service_json))
    (tm : option (list term_json)) :
  save_booking_offer d auth_uid now new_id p_inquiry_id T V N sp sv tm
  = Ok (d', id) ->
  forall uid now',
    send_booking_offer d' uid now' id
    <> Err (Exception "Cannot send offer: actual_offer_cents must be set" []).
Proof.
  intros H uid now'.
  destruct (save_booking_offer_summary _ _ _ _ _ _ _ _ _ _ _ _ _ H) as [Hid Hs].
  apply send_booking_offer_guard_passes.
  rewrite Hs, Hid, existsb_app. cbn [existsb os_offer_id os_actual_offer_cents].
  rewrite Z.eqb_refl. cbn [is_null negb andb orb]. apply orb_true_r.
Qed.

Lemma saved_offer_passes_send_guard_witness :
  send_booking_offer
    (commit (sample_db offer_sent (Some 90000))
       (save_booking_offer (sample_db offer_sent (Some 90000)) (Some 1) 1000
          11 100 90000 2000 None (Some [sample_space_line]) None None))
    (Some 1) 3000 11
  <> Err (Exception "Cannot send offer: actual_offer_cents must be set" []).
Proof.
  destruct (save_booking_offer (sample_db offer_sent (Some 90000)) (Some 1) 1000
              11 100 90000 2000 None (Some [sample_space_line]) None None)
    as [[d' id]|e] eqn:E; [|vm_compute in E; discriminate E].
  assert (Hid : id = 11).
  { exact (proj1 (save_booking_offer_summary _ _ _ _ _ _ _ _ _ _ _ _ _ E)). }
  subst id. cbn [commit].
  exact (saved_offer_passes_send_guard _ d' (Some 1) 1000 11 11 100 90000 2000
           None (Some [sample_space_line]) None None E (Some 1) 3000).
Defined.

(** X26.  The same holds after [update_booking_offer]: once an offer has
    been replaced through it, [send_booking_offer] does not end in 'Cannot
    send offer: actual_offer_cents must be set' for that offer. *)
Theorem updated_offer_passes_send_guard
    (d d' : db) (uid : option uuid) (now : timestamptz) (p : uuid)
    (T : bigint) (V : timestamptz) (N : option string)
    (sp : option (list space_json)) (sv : option (list service_json))
    (tm : option (list term_json)) (b : bool) :
  update_booking_offer d uid now p T V N sp sv tm = Ok (d', b) ->
  forall uid' now',
    send_booking_offer d' uid' now' p
    <> Err (Exception "Cannot send offer: actual_offer_cents must be set" []).
Proof.
  intros H uid' now'.
  destruct (update_booking_offer_inv d d' uid now p T V N sp sv tm b H)
    as (_ & _ & _ & _ & _ & _ & Hd).
  apply send_booking_offer_guard_passes.
  subst d'. cbn [offer_summaries replaced_offer].
  match goal with
  | |- existsb _ (upsert_offer_summary ?l ?n ?p ?q ?c ?a ?s ?v) = true =>
      destruct (upsert_offer_summary_rows l n p q c a s v) as [[os Hos] Hall]
  end.
  apply existsb_exists. exists os.
  destruct (Hall os Hos) as [_ [Ha _]].
  apply filter_In in Hos. destruct Hos as [Hin Hid].
  split; [exact Hin|]. rewrite Hid, Ha. reflexivity.
Qed.

Lemma updated_offer_passes_send_guard_witness :
  send_booking_offer
    (commit (sample_db draft (Some 90000))
       (update_booking_offer (sample_db draft (Some 90000)) (Some 1) 1000 10
          50000 2000 None (Some [other_space_line]) None None))
    (Some 1) 3000 10
  <> Err (Exception "Cannot send offer: actual_offer_cents must be set" []).
Proof.
  destruct (update_booking_offer (sample_db draft (Some 90000)) (Some 1) 1000 10
              50000 2000 None (Some [other_space_line]) None None)
    as [[d' b]|e] eqn:E; [|vm_compute in E; discriminate E].
  cbn [commit].
  exact (updated_offer_passes_send_guard _ d' (Some 1) 1000 10 50000 2000 None
           (Some [other_space_line]) None None b E (Some 1) 3000).
Defined.

(* ================================================================== *)
(** * Rounding of the running space total *)

Lemma round_numeric_bound (q : numeric) :
  (q - (1 # 2) <= inject_Z (round_numeric q))%Q
  /\ (inject_Z (round_numeric q) <= q + (1 # 2))%Q.
Proof.
  unfold round_numeric.
  destruct (Qle_bool (0 # 1) q).
  - pose proof (Qfloor_le (q + (1 # 2))) as H1.
    pose proof (Qlt_floor (q + (1 # 2))) as H2.
    rewrite inject_Z_plus in H2.
    change (inject_Z 1) with (1 # 1)%Q in H2.
    split; lra.
  - pose proof (Qle_ceiling (q - (1 # 2))) as H1.
    pose proof (Qceiling_lt (q - (1 # 2))) as H2.
    unfold Z.sub in H2. rewrite inject_Z_plus in H2.
    change (inject_Z (- (1))) with (- (1 # 1))%Q in H2.
    split; lra.
Qed.

Lemma insert_space_allocation_needs_amount
    (p : uuid) (v : ManualPriceFlag.space_allocation_json)
    (row : ManualPriceFlag.offer_space_allocation) :
  ManualPriceFlag.space_line_total v = Ok None ->
  ManualPriceFlag.insert_space_allocation p v = Ok row -> False.
Proof.
  unfold ManualPriceFlag.space_line_total,
    ManualPriceFlag.insert_space_allocation.
  intros Hs Hi.
  destruct (ManualPriceFlag.cast_integer (ManualPriceFlag.duration_days v))
    as [n | e]; [| discriminate Hi].
  cbn [bind] in Hs, Hi.
  destruct (ManualPriceFlag.space_id v); [| discriminate Hi].
  destruct (ManualPriceFlag.space_request_id v); [| discriminate Hi].
  destruct (ManualPriceFlag.space_type_id v); [| discriminate Hi].
  destruct (ManualPriceFlag.requested_size_m2 v); [| discriminate Hi].
  destruct (ManualPriceFlag.allocated_size_m2 v); [| discriminate Hi].
  destruct n; [| discriminate Hi].
  destruct (ManualPriceFlag.list_price_per_m2_cents v); [| discriminate Hi].
  destruct (ManualPriceFlag.estimated_total_cents v); [| discriminate Hi].
  destruct (ManualPriceFlag.offer_total_cents v); [| discriminate Hi].
  destruct (coalesce (ManualPriceFlag.is_offer_price_manual v) false);
    [| discriminate Hs].
  destruct (is_null (ManualPriceFlag.offer_price_per_m2_cents v));
    discriminate Hs.
Qed.

Lemma insert_space_allocation_duration
    (p : uuid) (v : ManualPriceFlag.space_allocation_json)
    (row : ManualPriceFlag.offer_space_allocation) :
  ManualPriceFlag.insert_space_allocation p v = Ok row ->
  ManualPriceFlag.integer_in_range (ManualPriceFlag.osa_duration_days row)
  = true.
Proof.
  unfold ManualPriceFlag.insert_space_allocation,
    ManualPriceFlag.cast_integer.
  intro Hi.
  destruct (ManualPriceFlag.duration_days v) as [z |]; cbn [bind] in Hi.
  - destruct (ManualPriceFlag.integer_in_range z) eqn:Hz;
      [| discriminate Hi].
    cbn [bind] in Hi.
    destruct (ManualPriceFlag.space_id v); [| discriminate Hi].
    destruct (ManualPriceFlag.space_request_id v); [| discriminate Hi].
    destruct (ManualPriceFlag.space_type_id v); [| discriminate Hi].
    destruct (ManualPriceFlag.requested_size_m2 v); [| discriminate Hi].
    destruct (ManualPriceFlag.allocated_size_m2 v); [| discriminate Hi].
    destruct (ManualPriceFlag.list_price_per_m2_cents v); [| discriminate Hi].
    destruct (ManualPriceFlag.estimated_total_cents v); [| discriminate Hi].
    destruct (ManualPriceFlag.offer_total_cents v); [| discriminate Hi].
    destruct (ManualPriceFlag.is_offer_price_manual v); [| discriminate Hi].
    injection Hi as <-. exact Hz.
  - destruct (ManualPriceFlag.space_id v); [| discriminate Hi].
    destruct (ManualPriceFlag.space_request_id v); [| discriminate Hi].
    destruct (ManualPriceFlag.space_type_id v); [| discriminate Hi].
    destruct (ManualPriceFlag.requested_size_m2 v); [| discriminate Hi].
    destruct (ManualPriceFlag.allocated_size_m2 v); discriminate Hi.
Qed.

(** X27.  The space loop of [save_offer_allocations] stores one row per
    element, each with a day count that fits 32 bits, and the total it
    accumulates, cast to bigint after every element, is not NULL and stays
    within half a cent per element of the exact sum of the line amounts. *)
Theorem save_space_allocations_rounding
    (ws : list ManualPriceFlag.warehouse_space) (p : uuid)
    (l : list ManualPriceFlag.space_allocation_json) :
  forall rows t rows' t',
    ManualPriceFlag.save_space_allocations ws p l rows (Some t)
    = Ok (rows', t') ->
    List.length rows' = (List.length rows + List.length l)%nat
    /\ (forall r, In r rows' ->
          In r rows
          \/ ManualPriceFlag.integer_in_range
               (ManualPriceFlag.osa_duration_days r) = true)
    /\ exists total,
         t' = Some total
         /\ Qle (inject_Z t + sum_numeric (map line_amount l)
                 - inject_Z (Z.of_nat (List.length l)) * (1 # 2))
                (inject_Z total)
         /\ Qle (inject_Z total)
                (inject_Z t + sum_numeric (map line_amount l)
                 + inject_Z (Z.of_nat (List.length l)) * (1 # 2)).
Proof.
  induction l as [|v l IH]; intros rows t rows' t' H;
    cbn [ManualPriceFlag.save_space_allocations] in H.
  - injection H as H1 H2. subst.
    cbn [List.length map sum_numeric fold_right Z.of_nat].
    split; [symmetry; apply Nat.add_0_r|].
    split; [intros r Hr; left; exact Hr |].
    exists t. split; [reflexivity |].
    change (inject_Z 0) with (0 # 1)%Q. split; lra.
  - destruct (ManualPriceFlag.space_id v) as [sid|]; [|discriminate H].
    destruct (negb _); [discriminate H|].
    apply bind_ok in H. destruct H as [amount [Ha H]].
    apply bind_ok in H. destruct H as [t1 [Ht1 H]].
    apply bind_ok in H. destruct H as [row [Hrow H]].
    destruct amount as [a|];
      [| exfalso; exact (insert_space_allocation_needs_amount p v row Ha Hrow)].
    unfold ManualPriceFlag.add_to_total, assign_bigint in Ht1.
    destruct (bigint_in_range _); [|discriminate Ht1].
    cbn [bind] in Ht1. injection Ht1 as Ht1. subst t1.
    destruct (IH _ _ _ _ H) as [Hlen [Hdur [total [Ht' [Hlo Hhi]]]]].
    destruct (round_numeric_bound (inject_Z t + a)%Q) as [Rlo Rhi].
    split; [| split].
    + rewrite Hlen, length_app. cbn [List.length]. lia.
    + intros r Hr. destruct (Hdur r Hr) as [Hin | Hin]; [| right; exact Hin].
      apply in_app_or in Hin. destruct Hin as [Hin | [<- | []]];
        [left; exact Hin | right].
      exact (insert_space_allocation_duration p v row Hrow).
    + exists total. split; [exact Ht' |].
      assert (Hamt : line_amount v = a) by (unfold line_amount; rewrite Ha; reflexivity).
      cbn [map List.length]. unfold sum_numeric in *. cbn [fold_right].
      rewrite Hamt, Nat2Z.inj_succ. unfold Z.succ. rewrite inject_Z_plus.
      change (inject_Z 1) with (1 # 1)%Q.
      split; lra.
Qed.

Lemma save_space_allocations_rounding_witness :
  ManualPriceFlag.save_space_allocations
    [{| ManualPriceFlag.ws_id := 300; ManualPriceFlag.ws_space_type_id := 7 |}]
    10 [half_cent_line; half_cent_line] [] (Some 0)
  = Ok ([half_cent_row; half_cent_row], Some 2)
  /\ (sum_numeric (map line_amount [half_cent_line; half_cent_line]) == 1 # 1)%Q
  /\ exists total,
       Some 2 = Some total
       /\ Qle (inject_Z 0
               + sum_numeric (map line_amount [half_cent_line; half_cent_line])
               - inject_Z (Z.of_nat 2) * (1 # 2))
              (inject_Z total)
       /\ Qle (inject_Z total)
              (inject_Z 0
               + sum_numeric (map line_amount [half_cent_line; half_cent_line])
               + inject_Z (Z.of_nat 2) * (1 # 2)).
Proof.
  split; [vm_compute; reflexivity |].
  split; [vm_compute; reflexivity |].
  exact (proj2 (proj2 (save_space_allocations_rounding
                         [{| ManualPriceFlag.ws_id := 300;
                             ManualPriceFlag.ws_space_type_id := 7 |}]
                         10 [half_cent_line; half_cent_line] [] 0
                         [half_cent_row; half_cent_row] (Some 2) eq_refl))).
Defined.

(* ================================================================== *)
(** * Sending an offer a second time *)

Lemma find_map_keys {A} (g : A -> bool) (f : A -> A) (l : list A) :
  (forall x, g (f x) = g x) ->
  find g (map f l) = option_map f (find g l).
Proof.
  intro H. induction l as [|a l IH]; [reflexivity|].
  cbn [map find]. rewrite H. destruct (g a); [reflexivity | exact IH].
Qed.

Lemma filter_map_keys {A} (g : A -> bool) (f : A -> A) (l : list A) :
  (forall x, g (f x) = g x) ->
  filter g (map f l) = map f (filter g l).
Proof.
  intro H. induction l as [|a l IH]; [reflexivity|].
  cbn [map filter]. rewrite H, IH. destruct (g a); reflexivity.
Qed.

Lemma validate_offer_for_send_keys (d d' : db) (p : uuid) (f : booking_offer -> booking_offer) :
  (forall o, bo_id (f o) = bo_id o) ->
  (forall o, bo_inquiry_id (f o) = bo_inquiry_id o) ->
  (forall o, bo_total_cost_cents (f o) = bo_total_cost_cents o) ->
  booking_offers d' = map f (booking_offers d) ->
  booking_offer_spaces d' = booking_offer_spaces d ->
  booking_offer_services d' = booking_offer_services d ->
  booking_inquiry_space_requests d' = booking_inquiry_space_requests d ->
  validate_offer_for_send d' p = validate_offer_for_send d p.
Proof.
  intros Hid Hinq Hcost Ho Hsp Hsv Hrq.
  unfold validate_offer_for_send, allocated_spaces, total_requested.
  rewrite Ho, Hsp, Hsv, Hrq.
  rewrite (find_map_keys (fun o => bo_id o =? p) f)
    by (intro x; rewrite Hid; reflexivity).
  rewrite (existsb_map_keys (fun o => (bo_id o =? p) && (0 <? bo_total_cost_cents o)) f)
    by (intro x; rewrite Hid, Hcost; reflexivity).
  destruct (find (fun o => bo_id o =? p) (booking_offers d)) as [o|];
    cbn [option_map]; rewrite ?Hinq; reflexivity.
Qed.

(** X28.  [send_booking_offer] is not idempotent.  The first call for a
    draft offer whose inquiry is at offer_draft stores two notifications
    for the trader, one by the notification trigger of the inquiry and one
    by the function itself; a second call for the same offer succeeds
    again and returns true although no offer row is a draft any more: it
    changes no offer row, but it adds the notification a third time. *)
Theorem send_booking_offer_again
    (d : db) (uid : option uuid) (now now' : timestamptz) (p : uuid)
    (o : booking_offer) (i : booking_inquiry) :
  caller_is_administrator d uid = true ->
  validate_offer_for_send d p = Ok true ->
  filter (fun x => bo_id x =? p) (booking_offers d) = [o] ->
  bo_status o = draft ->
  existsb (fun os => (os_offer_id os =? p)
                     && negb (is_null (os_actual_offer_cents os)))
          (offer_summaries d) = true ->
  filter (fun x => bi_id x =? bo_inquiry_id o) (booking_inquiries d) = [i] ->
  bi_status i = offer_draft ->
  existsb (fun pr => pr_user_id pr =? bi_trader_id i) (profiles d) = true ->
  exists d1 d2 n,
    send_booking_offer d uid now p = Ok (d1, true)
    /\ send_booking_offer d1 uid now' p = Ok (d2, true)
    /\ booking_offers d2 = booking_offers d1
    /\ n = offer_sent_notification (bi_trader_id i) (bo_inquiry_id o)
    /\ notifications d1 = notifications d ++ [n; n]
    /\ notifications d2 = notifications d ++ [n; n; n].
Proof.
  intros Hadm Hv Ho Hst Hact Hi Hist Hprof.
  set (n := offer_sent_notification (bi_trader_id i) (bo_inquiry_id o)).
  set (d1 := sent_offer d now p (bo_inquiry_id o) (bi_trader_id i) [n; n]).
  set (f := fun x => if (bo_id x =? p) && status_eqb (bo_status x) draft
                     then set_offer_status offer_sent now x else x).
  assert (Hf1 : forall x, bo_id (f x) = bo_id x).
  { intro x. unfold f. destruct (_ && _); reflexivity. }
  assert (Hf2 : forall x, bo_inquiry_id (f x) = bo_inquiry_id x).
  { intro x. unfold f. destruct (_ && _); reflexivity. }
  assert (Hf3 : forall x, bo_total_cost_cents (f x) = bo_total_cost_cents x).
  { intro x. unfold f. destruct (_ && _); reflexivity. }
  destruct (filter_singleton_self _ _ _ Ho) as [_ Hid]. cbv beta in Hid.
  assert (Ho1 : filter (fun x => bo_id x =? p) (booking_offers d1)
                = [set_offer_status offer_sent now o]).
  { unfold d1, sent_offer, offer_rows_sent.
    cbn [booking_offers set_notifications set_booking_inquiries
         set_booking_offers].
    rewrite (filter_map_keys (fun x => bo_id x =? p) f)
      by (intro x; rewrite Hf1; reflexivity).
    rewrite Ho. cbn [map]. unfold f. rewrite Hid, Hst. reflexivity. }
  assert (Hi1 : filter (fun x => bi_id x =? bo_inquiry_id o)
                       (booking_inquiries d1)
                = [written_inquiry i offer_sent now]).
  { unfold d1, sent_offer, inquiry_rows_written.
    cbn [booking_inquiries set_notifications set_booking_inquiries].
    rewrite filter_written, Hi. reflexivity. }
  assert (Hv1 : validate_offer_for_send d1 p = Ok true).
  { rewrite <- Hv.
    apply (validate_offer_for_send_keys d d1 p f Hf1 Hf2 Hf3); reflexivity. }
  destruct (send_booking_offer_sent d1 uid now' p
              (set_offer_status offer_sent now o)
              (written_inquiry i offer_sent now)
              Hadm Hv1 Ho1 (fun E => ltac:(discriminate E)) Hi1 eq_refl)
    as [Hsend Hrows].
  exists d1, (sent_offer d1 now' p (bo_inquiry_id o) (bi_trader_id i) [n]), n.
  split; [exact (send_booking_offer_draft d uid now p o i Hadm Hv Ho Hst Hact
                   Hi Hist Hprof)|].
  split; [exact Hsend|].
  split; [exact Hrows|].
  split; [reflexivity|].
  split; [reflexivity|].
  unfold sent_offer at 1. cbn [notifications set_notifications].
  unfold d1, sent_offer. cbn [notifications set_notifications].
  rewrite <- app_assoc. reflexivity.
Qed.

Lemma send_booking_offer_again_witness :
  exists d1 d2 n,
    send_booking_offer (sample_db draft (Some 90000)) (Some 1) 1000 10
    = Ok (d1, true)
    /\ send_booking_offer d1 (Some 1) 2000 10 = Ok (d2, true)
    /\ notifications d1 = [n; n]
    /\ notifications d2 = [n; n; n].
Proof.
  destruct (send_booking_offer_again (sample_db draft (Some 90000)) (Some 1)
              1000 2000 10 (sample_offer draft)
              {| bi_id := 100; bi_trader_id := 2; bi_status := offer_draft;
                 bi_estimated_cost_cents := Some 80000;
                 bi_valid_until := None; bi_updated_at := 0 |}
              eq_refl eq_refl eq_refl eq_refl eq_refl eq_refl eq_refl eq_refl)
    as [d1 [d2 [n [H1 [H2 [_ [_ [H3 H4]]]]]]]].
  exists d1, d2, n.
  split; [exact H1 | split; [exact H2 | split; [exact H3 | exact H4]]].
Defined.

(* ================================================================== *)
(** * Reading messages and marking them read *)

Lemma insert_by_created_at_map
    (f : MessageReadStatus.message_row -> MessageReadStatus.message_row)
    (r : MessageReadStatus.message_row) (l : list MessageReadStatus.message_row) :
  (forall x, MessageReadStatus.mr_created_at (f x)
             = MessageReadStatus.mr_created_at x) ->
  MessageReadStatus.insert_by_created_at (f r) (map f l)
  = map f (MessageReadStatus.insert_by_created_at r l).
Proof.
  intro Hf. induction l as [|x l IH]; [reflexivity|].
  cbn [map MessageReadStatus.insert_by_created_at]. rewrite !Hf.
  destruct (MessageReadStatus.mr_created_at r <=? MessageReadStatus.mr_created_at x).
  - reflexivity.
  - cbn [map]. rewrite IH. reflexivity.
Qed.

Lemma order_by_created_at_map
    (f : MessageReadStatus.message_row -> MessageReadStatus.message_row)
    (l : list MessageReadStatus.message_row) :
  (forall x, MessageReadStatus.mr_created_at (f x)
             = MessageReadStatus.mr_created_at x) ->
  MessageReadStatus.order_by_created_at (map f l)
  = map f (MessageReadStatus.order_by_created_at l).
Proof.
  intro Hf. unfold MessageReadStatus.order_by_created_at.
  induction l as [|x l IH]; [reflexivity|].
  cbn [map fold_right]. rewrite IH.
  apply insert_by_created_at_map. exact Hf.
Qed.

Lemma insert_by_created_at_In (r x : MessageReadStatus.message_row)
    (l : list MessageReadStatus.message_row) :
  In x (MessageReadStatus.insert_by_created_at r l) <-> x = r \/ In x l.
Proof.
  induction l as [|y l IH]; cbn [MessageReadStatus.insert_by_created_at].
  - cbn [In]. split; intros [H|H]; auto.
  - destruct (MessageReadStatus.mr_created_at r <=? MessageReadStatus.mr_created_at y);
      cbn [In].
    + split; intros [H|H]; auto.
    + rewrite IH. split.
      * intros [H|[H|H]]; auto.
      * intros [H|[H|H]]; auto.
Qed.

Lemma order_by_created_at_In (x : MessageReadStatus.message_row)
    (l : list MessageReadStatus.message_row) :
  In x (MessageReadStatus.order_by_created_at l) <-> In x l.
Proof.
  unfold MessageReadStatus.order_by_created_at.
  induction l as [|y l IH]; cbn [fold_right]; [reflexivity|].
  rewrite insert_by_created_at_In, IH. cbn [In].
  split; intros [H|H]; auto.
Qed.

Lemma mark_messages_read_known (d : MessageReadStatus.db) (u : uuid)
    (ids : list uuid) :
  (forall id, In id ids ->
     existsb (fun m => MessageReadStatus.m_id m =? id)
             (MessageReadStatus.booking_messages d) = true) ->
  exists d', MessageReadStatus.mark_messages_read d (Some u) ids = inl d'.
Proof.
  intro Hk. unfold MessageReadStatus.mark_messages_read.
  destruct ids as [|id rest]; [exists d; reflexivity|].
  destruct (insert_read_status_known (MessageReadStatus.booking_messages d)
              (id :: rest) Hk (MessageReadStatus.message_read_status d) u)
    as [l' Hl'].
  rewrite Hl'. eexists. reflexivity.
Qed.

(** X29.  Reading and marking round-trip: a caller who has read the
    messages of an inquiry with [get_booking_messages] can mark all the
    rows returned read, and [get_booking_messages] then returns the same
    rows in the same order, each with [is_read] true. *)
Theorem get_booking_messages_after_marking
    (d : MessageReadStatus.db) (u : uuid) (p_inquiry_id : uuid)
    (rows : list MessageReadStatus.message_row) :
  MessageReadStatus.get_booking_messages d (Some u) p_inquiry_id = Ok rows ->
  exists d',
    MessageReadStatus.mark_messages_read d (Some u)
      (map MessageReadStatus.mr_id rows) = inl d'
    /\ MessageReadStatus.get_booking_messages d' (Some u) p_inquiry_id
       = Ok (map marked_read rows).
Proof.
  intro H. unfold MessageReadStatus.get_booking_messages in H.
  destruct (negb _) eqn:Hacc in H; [discriminate H|].
  injection H as H.
  assert (Hrows : forall r, In r rows ->
            exists m p,
              In m (MessageReadStatus.booking_messages d)
              /\ r = MessageReadStatus.select_row d (Some u) m p).
  { intros r Hr. rewrite <- H in Hr.
    apply (proj1 (order_by_created_at_In _ _)) in Hr.
    unfold MessageReadStatus.joined_rows in Hr.
    apply in_flat_map in Hr. destruct Hr as [m [Hm Hr]].
    apply in_map_iff in Hr. destruct Hr as [p [Hr _]].
    apply filter_In in Hm. destruct Hm as [Hm _].
    exists m, p. split; [exact Hm | symmetry; exact Hr]. }
  destruct (mark_messages_read_known d u (map MessageReadStatus.mr_id rows))
    as [d' Hd'].
  { intros id Hid. apply in_map_iff in Hid. destruct Hid as [r [Hid Hr]].
    destruct (Hrows r Hr) as [m [p [Hm Hrm]]].
    apply existsb_exists. exists m. split; [exact Hm|].
    subst r id. apply Z.eqb_refl. }
  exists d'. split; [exact Hd'|].
  destruct (mark_messages_read_fields d d' u _ Hd')
    as (H1 & H2 & Hp & H3 & H4 & H5).
  unfold MessageReadStatus.get_booking_messages.
  rewrite H1, H2, H3, Hacc.
  f_equal. rewrite <- H.
  rewrite <- order_by_created_at_map by reflexivity.
  f_equal.
  unfold MessageReadStatus.joined_rows. rewrite Hp, H4.
  assert (Hread : forall m p,
            In m (filter (fun m => MessageReadStatus.m_inquiry_id m =? p_inquiry_id)
                         (MessageReadStatus.booking_messages d)) ->
            In p (filter (fun p => MessageReadStatus.p_user_id p
                                   =? MessageReadStatus.m_sender_id m)
                         (MessageReadStatus.profiles d)) ->
            MessageReadStatus.is_read (MessageReadStatus.message_read_status d')
              (MessageReadStatus.m_id m) u = true).
  { intros m p Hm Hpr.
    rewrite (is_read_insert _ _ _ _ _ _ _ H5), Z.eqb_refl. cbn [andb].
    assert (Hin : In (MessageReadStatus.select_row d (Some u) m p) rows).
    { rewrite <- H. apply (proj2 (order_by_created_at_In _ _)).
      unfold MessageReadStatus.joined_rows.
      apply in_flat_map. exists m. split; [exact Hm|].
      apply in_map. exact Hpr. }
    assert (He : existsb (Z.eqb (MessageReadStatus.m_id m))
                   (map MessageReadStatus.mr_id rows) = true).
    { apply existsb_exists. exists (MessageReadStatus.m_id m).
      split; [|apply Z.eqb_refl].
      apply in_map_iff.
      exists (MessageReadStatus.select_row d (Some u) m p).
      split; [reflexivity | exact Hin]. }
    rewrite He. apply orb_true_r. }
  revert Hread.
  generalize (filter (fun m => MessageReadStatus.m_inquiry_id m =? p_inquiry_id)
                     (MessageReadStatus.booking_messages d)).
  intros L Hread. induction L as [|m L IH]; [reflexivity|].
  cbn [flat_map]. rewrite map_app, map_map.
  f_equal.
  - apply map_ext_in. intros p Hpr.
    unfold MessageReadStatus.select_row, marked_read.
    cbn [MessageReadStatus.mr_id MessageReadStatus.mr_inquiry_id
         MessageReadStatus.mr_sender_id MessageReadStatus.mr_message
         MessageReadStatus.mr_created_at MessageReadStatus.mr_sender_info].
    rewrite H1, H2, (Hread m p (or_introl eq_refl) Hpr). reflexivity.
  - apply IH. intros m' p Hm' Hpr. apply (Hread m' p); [right; exact Hm' | exact Hpr].
Qed.

Lemma get_booking_messages_after_marking_witness :
  exists d',
    MessageReadStatus.mark_messages_read (sample_messages []) (Some 2) [100]
    = inl d'
    /\ match MessageReadStatus.get_booking_messages d' (Some 2) 10 with
       | Ok rows => map MessageReadStatus.mr_is_read rows = [true]
       | Err _ => False
       end.
Proof.
  destruct (MessageReadStatus.get_booking_messages (sample_messages []) (Some 2) 10)
    as [rows|e] eqn:E; [|vm_compute in E; discriminate E].
  destruct (get_booking_messages_after_marking _ 2 10 rows E) as [d' [Hm Hg]].
  assert (Hrows : map MessageReadStatus.mr_id rows = [100]).
  { vm_compute in E. injection E as E. subst rows. reflexivity. }
  rewrite Hrows in Hm.
  exists d'. split; [exact Hm|].
  unfold uuid in Hg. rewrite Hg.
  vm_compute in E. injection E as E. subst rows. reflexivity.
Defined.
